(** * Athany: the prayer-time scheduling and rollover engine

    A shallow embedding of the scheduling core of [athany.py]
    ([fetch_calender_data], [get_main_layout_and_tomorrow_prayers] and the
    head of the polling loop of [display_main_window]) together with the
    properties its design document states about it.

    Python values are embedded as the inductive [pyval]; the global list
    [UPCOMING_PRAYERS], the PySimpleGUI user settings, the cache files of the
    data directory and the remote calendar service form the record [world],
    threaded through a state-and-exception monad.  Every reading of the wall
    clock ([datetime.datetime.now()]) is an explicit argument. *)

From Stdlib Require Import ZArith Lia Ascii String Sorted.
From stdpp Require Import base option list strings gmap pretty.

Local Open Scope Z_scope.

(** ** Python exceptions raised by the modelled code *)

Inductive exn : Set :=
| IndexError
| KeyError
| TypeError
| AttributeError
| ValueError
| OverflowError
| JSONDecodeError
| FileNotFoundError
| OSError
| SystemExit.

Inductive result (A : Type) : Type :=
| Ok (a : A)
| Raise (e : exn).
Arguments Ok {A} a.
Arguments Raise {A} e.

Definition rbind {A B : Type} (r : result A) (k : A -> result B) : result B :=
  match r with
  | Ok a => k a
  | Raise e => Raise e
  end.

(** ** [datetime.datetime] (naive, proleptic Gregorian) *)

Record datetime : Set := mk_datetime {
  year : Z;
  month : Z;
  day : Z;
  hour : Z;
  minute : Z;
  second : Z;
  microsecond : Z
}.

Definition is_leap (y : Z) : bool :=
  (y mod 4 =? 0) && (negb (y mod 100 =? 0) || (y mod 400 =? 0)).

Definition days_in_month (y m : Z) : Z :=
  if m =? 2 then (if is_leap y then 29 else 28)
  else if (m =? 4) || (m =? 6) || (m =? 9) || (m =? 11) then 30
  else 31.

(** The values [datetime] objects can hold ([MINYEAR = 1], [MAXYEAR = 9999]). *)
Definition valid_datetime (d : datetime) : bool :=
  (1 <=? year d) && (year d <=? 9999) &&
  (1 <=? month d) && (month d <=? 12) &&
  (1 <=? day d) && (day d <=? days_in_month (year d) (month d)) &&
  (0 <=? hour d) && (hour d <=? 23) &&
  (0 <=? minute d) && (minute d <=? 59) &&
  (0 <=? second d) && (second d <=? 59) &&
  (0 <=? microsecond d) && (microsecond d <=? 999999).

(** Comparison of two datetimes: field by field, most significant first. *)
Definition lex (c1 c2 : comparison) : comparison :=
  match c1 with
  | Eq => c2
  | _ => c1
  end.

Definition dt_compare (a b : datetime) : comparison :=
  lex (year a ?= year b)
 (lex (month a ?= month b)
 (lex (day a ?= day b)
 (lex (hour a ?= hour b)
 (lex (minute a ?= minute b)
 (lex (second a ?= second b)
      (microsecond a ?= microsecond b)))))).

(** [a < b] on datetimes; [a > b] is [dt_ltb b a], [a >= b] is [negb (dt_ltb a b)]. *)
Definition dt_ltb (a b : datetime) : bool :=
  match dt_compare a b with
  | Lt => true
  | _ => false
  end.

Definition dt_leb (a b : datetime) : bool := negb (dt_ltb b a).

(** The day after [d], at the same time of day. *)
Definition next_day (d : datetime) : datetime :=
  if day d <? days_in_month (year d) (month d) then
    mk_datetime (year d) (month d) (day d + 1)
                (hour d) (minute d) (second d) (microsecond d)
  else if month d <? 12 then
    mk_datetime (year d) (month d + 1) 1
                (hour d) (minute d) (second d) (microsecond d)
  else
    mk_datetime (year d + 1) 1 1
                (hour d) (minute d) (second d) (microsecond d).

(** [d + datetime.timedelta(days=1)]; Python raises [OverflowError] past
    31 December 9999. *)
Definition add_one_day (d : datetime) : result datetime :=
  if 9999 <? year (next_day d) then Raise OverflowError else Ok (next_day d).

(** [d.replace(microsecond=0)] *)
Definition replace_microsecond_0 (d : datetime) : datetime :=
  mk_datetime (year d) (month d) (day d) (hour d) (minute d) (second d) 0.

(** The calendar date of a datetime, and "same calendar day". *)
Definition date_of (d : datetime) : Z * Z * Z := (year d, month d, day d).

Definition dated (date d : datetime) : Prop := date_of d = date_of date.

(** ** Strings: [str.split], and [strptime] with ["%H:%M %d %m %Y"] *)

(** Characters for which [str.isspace()] holds, which is also the class [\s]
    of the regular expressions of [_strptime] (code points below 256). *)
Definition is_space (c : ascii) : bool :=
  let n := Z.of_nat (nat_of_ascii c) in
  ((9 <=? n) && (n <=? 13)) || ((28 <=? n) && (n <=? 32)) ||
  (n =? 133) || (n =? 160).

(** [s.split()]: the maximal runs of non-whitespace characters. *)
Fixpoint split_ws (s : string) : list string :=
  match s with
  | EmptyString => []
  | String c s' =>
      if is_space c then split_ws s'
      else match s' with
           | EmptyString => [String c EmptyString]
           | String c' _ =>
               if is_space c' then String c EmptyString :: split_ws s'
               else match split_ws s' with
                    | w :: ws => String c w :: ws
                    | [] => [String c EmptyString]
                    end
           end
  end.

(** [s.split(" ")]: the fields between single spaces; never empty. *)
Fixpoint split_space (s : string) : list string :=
  match s with
  | EmptyString => [EmptyString]
  | String c s' =>
      if Ascii.eqb c " "%char then EmptyString :: split_space s'
      else match split_space s' with
           | w :: ws => String c w :: ws
           | [] => [String c EmptyString]
           end
  end.

Definition digit_of (c : ascii) : option Z :=
  let n := Z.of_nat (nat_of_ascii c) in
  if (48 <=? n) && (n <=? 57) then Some (n - 48) else None.

Fixpoint all_space (s : string) : bool :=
  match s with
  | EmptyString => true
  | String c s' => is_space c && all_space s'
  end.

(** The minute directive [%M], [[0-5]\d|\d], followed by the [\s+] of the
    format: two digits when the first is at most 5, else one digit, and
    nothing but white space after it. *)
Definition parse_minute (s : string) : option Z :=
  match s with
  | String c1 (String c2 rest) =>
      match digit_of c1, digit_of c2 with
      | Some d1, Some d2 =>
          if (d1 <=? 5) && all_space rest then Some (10 * d1 + d2) else None
      | Some d1, None =>
          if all_space (String c2 rest) then Some d1 else None
      | None, _ => None
      end
  | String c1 EmptyString => digit_of c1
  | EmptyString => None
  end.

(** The hour directive [%H], [2[0-3]|[0-1]\d|\d], followed by the colon. *)
Definition parse_HM (s : string) : option (Z * Z) :=
  match s with
  | String c1 (String c2 rest) =>
      match digit_of c1 with
      | None => None
      | Some d1 =>
          if Ascii.eqb c2 ":"%char then
            option_map (fun mi => (d1, mi)) (parse_minute rest)
          else
            match digit_of c2, rest with
            | Some d2, String c3 rest' =>
                if Ascii.eqb c3 ":"%char && (10 * d1 + d2 <=? 23) then
                  option_map (fun mi => (10 * d1 + d2, mi)) (parse_minute rest')
                else None
            | _, _ => None
            end
      end
  | _ => None
  end.

(** [datetime.datetime.strptime(f"{tok} {date.day} {date.month} {date.year}",
    "%H:%M %d %m %Y")].  The format is matched as one regular expression
    against the whole text, each blank of the format standing for [\s+].  The
    three date fields are printed from integers by the caller and end the
    text: [%Y] takes the last four digits, which must be the whole year, and
    [%m] and [%d] the two numbers before it; so the date is read back as it
    is as soon as the year has four digits, and what is left for [%H:%M] and
    the first [\s+] is [tok] and the blank after it. *)
Definition strptime (tok : string) (date : datetime) : result datetime :=
  if year date <? 1000 then Raise ValueError
  else match parse_HM tok with
       | Some (h, mi) =>
           Ok (mk_datetime (year date) (month date) (day date) h mi 0 0)
       | None => Raise ValueError
       end.


(** ** Python values *)

(** The values the calendar JSON decodes to, and the [datetime] objects the
    code stores into the decoded dictionaries.  A [dict] keeps its insertion
    order, which is the order of the JSON object. *)
#[warnings="-register-all"]
Inductive pyval : Type :=
| PNone
| PBool (b : bool)
| PInt (z : Z)
| PFloat (literal : string)
| PStr (s : string)
| PList (l : list pyval)
| PDict (d : list (string * pyval))
| PDateTime (t : datetime).

Fixpoint dict_get {A : Type} (k : string) (d : list (string * A)) : option A :=
  match d with
  | [] => None
  | (k', v) :: d' => if String.eqb k k' then Some v else dict_get k d'
  end.

(** [d[k] = v]: an existing key keeps its place, a new one goes last. *)
Fixpoint dict_set {A : Type} (k : string) (v : A) (d : list (string * A))
  : list (string * A) :=
  match d with
  | [] => [(k, v)]
  | (k', v') :: d' =>
      if String.eqb k k' then (k', v) :: d' else (k', v') :: dict_set k v d'
  end.

(** Sequence indexing with Python's negative indices. *)
Definition py_index {A : Type} (l : list A) (i : Z) : option A :=
  if 0 <=? i then l !! Z.to_nat i
  else if 0 <=? i + Z.of_nat (List.length l) then l !! Z.to_nat (i + Z.of_nat (List.length l))
  else None.

(** [v[k]] for a string key [k]. *)
Definition getitem_str (v : pyval) (k : string) : result pyval :=
  match v with
  | PDict d =>
      match dict_get k d with
      | Some x => Ok x
      | None => Raise KeyError
      end
  | _ => Raise TypeError
  end.

(** [v[i]] for an integer [i]. *)
Definition getitem_int (v : pyval) (i : Z) : result pyval :=
  match v with
  | PList l =>
      match py_index l i with
      | Some x => Ok x
      | None => Raise IndexError
      end
  | PStr s =>
      match py_index (list_ascii_of_string s) i with
      | Some c => Ok (PStr (String c EmptyString))
      | None => Raise IndexError
      end
  | PDict _ => Raise KeyError
  | _ => Raise TypeError
  end.

(** [v.split()] and [v.split(" ")]: only strings have the method. *)
Definition py_split (v : pyval) : result (list string) :=
  match v with
  | PStr s => Ok (split_ws s)
  | _ => Raise AttributeError
  end.

Definition py_split_space (v : pyval) : result (list string) :=
  match v with
  | PStr s => Ok (split_space s)
  | _ => Raise AttributeError
  end.

(** [l[0]] on a Python list *)
Definition first {A : Type} (l : list A) : result A :=
  match l with
  | x :: _ => Ok x
  | [] => Raise IndexError
  end.

(** [d.items()] *)
Definition py_items (v : pyval) : result (list (string * pyval)) :=
  match v with
  | PDict d => Ok d
  | _ => Raise AttributeError
  end.

(** ** The world of the application *)

(** The text of a cache file or of an HTTP body, seen through [json.load]:
    either it is the JSON text of a value, or it does not decode. *)
Inductive document : Type :=
| Json (v : pyval)
| NotJson (raw : string).

Definition json_load (t : document) : result pyval :=
  match t with
  | Json v => Ok v
  | NotJson _ => Raise JSONDecodeError
  end.

(** What [requests.get] gives: an exception, or a response with its
    [status_code] and [text]. *)
Inductive http_result : Type :=
| ConnectionFailed
| Response (status_code : Z) (text : document).

(** Entries of the PySimpleGUI user settings *)
Inductive setting : Set :=
| SStr (s : string)
| SBool (b : bool).

(** What an f-string prints for [sg.user_settings_get_entry(key)] *)
Definition py_format (v : option setting) : string :=
  match v with
  | None => "None"
  | Some (SStr s) => s
  | Some (SBool true) => "True"
  | Some (SBool false) => "False"
  end.

(** Truth value of a settings entry ([not v] is its negation) *)
Definition py_truth (v : option setting) : bool :=
  match v with
  | None => false
  | Some (SStr s) => negb (String.eqb s "")
  | Some (SBool b) => b
  end.

(** Observable actions, in the order they happen *)
Inductive event : Type :=
| EvCalendar (cit count : string) (y m : Z)
| EvRequest (url : string)
| EvWrite (file : string)
| EvRemove (file : string)
| EvSettingsDelete (key : string)
| EvNotify (message : string)
| EvPlayAthan.

(** Why the file system holds no file under a name: a directory of the path
    is not there (as for a name with a path separator), or anything else (a
    character the platform forbids, a name that is too long). *)
Inductive refusal : Set :=
| NoSuchDirectory
| Refused.

(** The exception Python raises for it: [FileNotFoundError] for a missing
    directory, another [OSError] otherwise. *)
Definition refusal_exn (r : refusal) : exn :=
  match r with
  | NoSuchDirectory => FileNotFoundError
  | Refused => OSError
  end.

(** [data_dir] holds the files of [DATA_DIR] by name.  [invalid_name] tells
    the names under which the file system can hold no file there, and why.
    Opening such a name for writing and removing it raise. *)
Record world : Type := mk_world {
  UPCOMING_PRAYERS : list (string * datetime);
  user_settings : gmap string setting;
  data_dir : gmap string document;
  invalid_name : string -> option refusal;
  remote : string -> http_result;
  trace : list event
}.

Definition set_UPCOMING_PRAYERS (q : list (string * datetime)) (w : world) : world :=
  mk_world q (user_settings w) (data_dir w) (invalid_name w) (remote w) (trace w).

Definition set_user_settings (s : gmap string setting) (w : world) : world :=
  mk_world (UPCOMING_PRAYERS w) s (data_dir w) (invalid_name w) (remote w) (trace w).

Definition set_data_dir (f : gmap string document) (w : world) : world :=
  mk_world (UPCOMING_PRAYERS w) (user_settings w) f (invalid_name w) (remote w)
           (trace w).

Definition add_event (e : event) (w : world) : world :=
  mk_world (UPCOMING_PRAYERS w) (user_settings w) (data_dir w) (invalid_name w)
           (remote w) (trace w ++ [e]).

(** ** State and exceptions *)

Inductive outcome (A : Type) : Type :=
| Ret (a : A) (w : world)
| Exc (e : exn) (w : world).
Arguments Ret {A} a w.
Arguments Exc {A} e w.

Definition M (A : Type) : Type := world -> outcome A.

Definition ret {A : Type} (a : A) : M A := fun w => Ret a w.

Definition raise {A : Type} (e : exn) : M A := fun w => Exc e w.

Definition bind {A B : Type} (m : M A) (k : A -> M B) : M B :=
  fun w => match m w with
           | Ret a w' => k a w'
           | Exc e w' => Exc e w'
           end.

Definition lift {A : Type} (r : result A) : M A :=
  match r with
  | Ok a => ret a
  | Raise e => raise e
  end.

Definition gets {A : Type} (f : world -> A) : M A := fun w => Ret (f w) w.

Definition modify (f : world -> world) : M unit := fun w => Ret tt (f w).

Definition log (e : event) : M unit := modify (add_event e).

Notation "'let!' x ':=' m 'in' k" := (bind m (fun x => k))
  (at level 10, x name, m at level 100, k at level 200).
Notation "'do!' m 'in' k" := (bind m (fun _ => k))
  (at level 10, m at level 100, k at level 200).

Definition final_world {A : Type} (o : outcome A) : world :=
  match o with
  | Ret _ w => w
  | Exc _ w => w
  end.

(** ** Services the core calls *)

Definition user_settings_get_entry (key : string) : M (option setting) :=
  gets (fun w => user_settings w !! key).

Definition user_settings_delete_entry (key : string) : M unit :=
  do! modify (fun w => set_user_settings (delete key (user_settings w)) w) in
  log (EvSettingsDelete key).

(** [os.path.exists(file)] *)
Definition path_exists (file : string) : M bool :=
  gets (fun w => match data_dir w !! file with
                | Some _ => true
                | None => false
                end).

(** [with open(file, mode="w") as f: f.write(text)]: [open] raises
    [FileNotFoundError], or another [OSError], on a name the file system
    refuses, and nothing is written. *)
Definition write_file (file : string) (text : document) : M unit :=
  let! refused := gets (fun w => invalid_name w file) in
  match refused with
  | Some why => raise (refusal_exn why)
  | None =>
      do! modify (fun w => set_data_dir (<[file := text]> (data_dir w)) w) in
      log (EvWrite file)
  end.

(** [json.load(open(file))] *)
Definition load_file (file : string) : M pyval :=
  let! content := gets (fun w => data_dir w !! file) in
  match content with
  | Some text => lift (json_load text)
  | None => raise FileNotFoundError
  end.

(** [os.remove(file)]: raises on a name the file system refuses and when
    there is no such file. *)
Definition os_remove (file : string) : M unit :=
  let! refused := gets (fun w => invalid_name w file) in
  match refused with
  | Some why => raise (refusal_exn why)
  | None =>
      let! content := gets (fun w => data_dir w !! file) in
      match content with
      | Some _ =>
          do! modify (fun w => set_data_dir (delete file (data_dir w)) w) in
          log (EvRemove file)
      | None => raise FileNotFoundError
      end
  end.

(** [requests.get(url, timeout=...)] *)
Definition requests_get (url : string) : M http_result :=
  do! log (EvRequest url) in
  gets (fun w => remote w url).

(** ** [fetch_calender_data] (lines 151-176) *)

Definition API_ENDPOINT : string := "https://api.aladhan.com/v1/calendarByCity".

(** Name, inside [DATA_DIR], of the cache file of a month *)
Definition json_month_file (cit count : string) (date : datetime) : string :=
  pretty (year date) +:+ "-" +:+ pretty (month date) +:+ "-" +:+ cit +:+ "-"
  +:+ count +:+ ".json".

Definition calendar_url (cit count : string) (date : datetime) : string :=
  API_ENDPOINT +:+ "?city=" +:+ cit +:+ "&country=" +:+ count +:+ "&month="
  +:+ pretty (month date) +:+ "&year=" +:+ pretty (year date).

Definition fetch_calender_data (cit count : string) (date : datetime) : M pyval :=
  do! log (EvCalendar cit count (year date) (month date)) in
  let file := json_month_file cit count date in
  let! cached := path_exists file in
  if negb cached then
    let! res := requests_get (calendar_url cit count date) in
    match res with
    | ConnectionFailed => ret (PStr "RequestError")
    | Response status_code text =>
        if negb (status_code =? 200) then ret PNone
        else do! write_file file text in load_file file
    end
  else load_file file.

(** ** [get_main_layout_and_tomorrow_prayers] (lines 190-268) *)

Definition FUROOD_NAMES : list string := ["Fajr"; "Dhuhr"; "Asr"; "Maghrib"; "Isha"].

(** [prayer in FUROOD_NAMES or prayer == "Sunrise"] (line 250) *)
Definition listed (prayer : string) : bool :=
  existsb (String.eqb prayer) FUROOD_NAMES || String.eqb prayer "Sunrise".

(** [api_res["data"][i]["timings"]] *)
Definition timings_of (api_res : pyval) (i : Z) : result pyval :=
  rbind (getitem_str api_res "data") (fun days =>
  rbind (getitem_int days i) (fun entry =>
  getitem_str entry "timings")).

(** [api_res == "RequestError"] *)
Definition is_RequestError (api_res : pyval) : bool :=
  match api_res with
  | PStr s => String.eqb s "RequestError"
  | _ => false
  end.

(** The loop of lines 226-231: every value of the mapping, whatever its key,
    is cut at its first space and read as a time of day on [date]. *)
Fixpoint bind_times (date : datetime) (items : list (string * pyval))
  : result (list (string * datetime)) :=
  match items with
  | [] => Ok []
  | (k, v) :: rest =>
      rbind (py_split_space v) (fun fields =>
      rbind (first fields) (fun tok =>
      rbind (strptime tok date) (fun t =>
      rbind (bind_times date rest) (fun rest' =>
      Ok ((k, t) :: rest')))))
  end.

(** The loop of lines 248-256, without the window layout it also builds:
    the listed prayers that are still to come, in the order of the mapping. *)
Definition upcoming_of (now : datetime) (times : list (string * datetime))
  : list (string * datetime) :=
  List.filter (fun pt => listed (fst pt) && dt_ltb now (snd pt)) times.

(** Position of index [i] in a sequence of length [n] *)
Definition py_position (n : nat) (i : Z) : nat :=
  if 0 <=? i then Z.to_nat i else Z.to_nat (i + Z.of_nat n).

(** [current_times] is the very object [api_res["data"][i]["timings"]]: the
    assignments [current_times[k] = ...] of line 230 are seen through
    [api_res], which the function returns. *)
Definition store_timings (api_res : pyval) (i : Z) (times : list (string * datetime))
  : pyval :=
  match api_res with
  | PDict top =>
      match dict_get "data" top with
      | Some (PList days) =>
          match py_index days i with
          | Some (PDict entry) =>
              let timings := PDict (map (fun kt => (fst kt, PDateTime (snd kt))) times) in
              let entry' := PDict (dict_set "timings" timings entry) in
              PDict (dict_set "data"
                       (PList (<[py_position (List.length days) i := entry']> days)) top)
          | _ => api_res
          end
      | _ => api_res
      end
  | _ => api_res
  end.

(** What lines 195-223 select: the flag, the schedule that is kept, the index
    of the day in it and that day's timings. *)
Record selection : Type := mk_selection {
  ISHA_PASSED : bool;
  sel_api_res : pyval;
  sel_index : Z;
  sel_times : pyval
}.

(** Lines 197-205: today's timings, and today's Isha bound to today's date. *)
Definition todays_isha (now : datetime) (api_res : pyval)
  : result (pyval * datetime) :=
  rbind (timings_of api_res (day now - 1)) (fun current_times =>
  rbind (getitem_str current_times "Isha") (fun isha =>
  rbind (py_split isha) (fun ISHA_OBJ =>
  rbind (first ISHA_OBJ) (fun tok =>
  rbind (strptime tok now) (fun isha_time =>
  Ok (current_times, isha_time)))))).

(** Lines 208-219, the special case of the last day of a month: the next
    month is looked up in the cache, a request error ends the session with
    the location forgotten, and the file of the month that ends is removed
    once the timings of the new month are at hand. *)
Definition next_month_times (now tomorrow : datetime) : M selection :=
  let! city := user_settings_get_entry "-city-" in
  let! country := user_settings_get_entry "-country-" in
  let! api_res := fetch_calender_data (py_format city) (py_format country) tomorrow in
  if is_RequestError api_res then
    do! user_settings_delete_entry "-city-" in
    do! user_settings_delete_entry "-country-" in
    raise SystemExit
  else
    let! current_times := lift (timings_of api_res (day tomorrow - 1)) in
    let! city := user_settings_get_entry "-city-" in
    let! country := user_settings_get_entry "-country-" in
    do! os_remove (json_month_file (py_format city) (py_format country) now) in
    ret (mk_selection true api_res (day tomorrow - 1) current_times).

(** Lines 205-223: which day's timings are shown.  [now'] is the reading of
    the clock that line 205 compares with Isha. *)
Definition select_times (now now' tomorrow isha_time : datetime)
    (api_res current_times : pyval) : M selection :=
  if dt_ltb isha_time now' then
    if day tomorrow <? day now then next_month_times now tomorrow
    else
      let! current_times := lift (timings_of api_res (day now)) in
      ret (mk_selection true api_res (day now) current_times)
  else ret (mk_selection false api_res (day now - 1) current_times).

(** Lines 226-268: the selected timings are bound to their date in place,
    and the listed prayers still to come are appended to the queue. *)
Definition bind_and_queue (now tomorrow : datetime) (sel : selection)
  : M (bool * pyval) :=
  let date := if ISHA_PASSED sel then tomorrow else now in
  let! items := lift (py_items (sel_times sel)) in
  let! times := lift (bind_times date items) in
  do! modify (fun w =>
        set_UPCOMING_PRAYERS (UPCOMING_PRAYERS w ++ upcoming_of now times) w) in
  ret (ISHA_PASSED sel, store_timings (sel_api_res sel) (sel_index sel) times).

(** [now] is the reading of the clock of line 195 and [now'] that of line
    205.  The result is the flag [ISHA_PASSED] and the returned [api_res];
    the window layout, the other component of the Python result, is left
    out. *)
Definition get_main_layout_and_tomorrow_prayers (now now' : datetime) (api_res : pyval)
  : M (bool * pyval) :=
  let! tomorrow := lift (add_one_day now) in
  let! today := lift (todays_isha now api_res) in
  let! sel := select_times now now' tomorrow (snd today) api_res (fst today) in
  bind_and_queue now tomorrow sel.

(** ** The head of the polling loop of [display_main_window] (lines 301-334) *)

(** Lines 303-305: [if now >= UPCOMING_PRAYERS[0][1]: fard = UPCOMING_PRAYERS.pop(0)] *)
Definition pop_if_elapsed (now : datetime) : M (option (string * datetime)) :=
  let! queue := gets UPCOMING_PRAYERS in
  let! front := lift (first queue) in
  if negb (dt_ltb now (snd front)) then
    do! modify (set_UPCOMING_PRAYERS (tail queue)) in
    ret (Some front)
  else ret None.

(** Lines 329-333: [UPCOMING_PRAYERS[0]] *)
Definition peek_next : M (string * datetime) :=
  let! queue := gets UPCOMING_PRAYERS in
  lift (first queue).

(** Lines 307-317: the notification and the athan, for the five furood. *)
Definition announce (fard : string * datetime) : M unit :=
  if negb (String.eqb (fst fard) "Sunrise") then
    do! log (EvNotify (fst fard)) in
    let! mute := user_settings_get_entry "-mute-athan-" in
    if negb (py_truth mute) then log EvPlayAthan else ret tt
  else ret tt.

(** One turn of the loop up to the display of the next prayer.  [clock] is
    the reading of line 301, [clock1] and [clock2] are the two readings made
    by the rollover when it runs.  The result is the month data kept by the
    loop and the prayer shown as next. *)
Definition display_main_window_tick (clock clock1 clock2 : datetime)
    (current_month_data : pyval) : M (pyval * (string * datetime)) :=
  let now := replace_microsecond_0 clock in
  let! popped := pop_if_elapsed now in
  let! current_month_data :=
    match popped with
    | Some fard =>
        do! announce fard in
        let! queue := gets UPCOMING_PRAYERS in
        if (List.length queue =? 0)%nat then
          let! city := user_settings_get_entry "-city-" in
          let! country := user_settings_get_entry "-country-" in
          let! month_data :=
            fetch_calender_data (py_format city) (py_format country) now in
          let! new_data :=
            get_main_layout_and_tomorrow_prayers clock1 clock2 month_data in
          ret (snd new_data)
        else ret current_month_data
    | None => ret current_month_data
    end in
  let! next := peek_next in
  ret (current_month_data, next).

(** ** Vocabulary of the statements *)

(** The time of day a value of a timings mapping stands for, as the loop of
    line 229 reads it: the text before the first space. *)
Definition time_of_day (v : pyval) : option (Z * Z) :=
  match v with
  | PStr s =>
      match split_space s with
      | tok :: _ => parse_HM tok
      | [] => None
      end
  | _ => None
  end.

(** The time of day of the Isha value, as line 200 reads it: the first
    run of non-blank characters. *)
Definition isha_time_of_day (v : pyval) : option (Z * Z) :=
  match v with
  | PStr s =>
      match split_ws s with
      | tok :: _ => parse_HM tok
      | [] => None
      end
  | _ => None
  end.

(** The times of day of a whole timings mapping, when every value has one. *)
Fixpoint decode_timings (items : list (string * pyval))
  : option (list (string * (Z * Z))) :=
  match items with
  | [] => Some []
  | (k, v) :: rest =>
      match time_of_day v, decode_timings rest with
      | Some hm, Some rest' => Some ((k, hm) :: rest')
      | _, _ => None
      end
  end.

(** A time of day bound to the calendar date of [date] *)
Definition at_date (date : datetime) (hm : Z * Z) : datetime :=
  mk_datetime (year date) (month date) (day date) (fst hm) (snd hm) 0 0.

Definition bind_entry (date : datetime) (e : string * (Z * Z)) : string * datetime :=
  (fst e, at_date date (snd e)).

(** Order of times of day, and chronological order of queue entries *)
Definition tod_le (a b : Z * Z) : Prop :=
  fst a < fst b \/ (fst a = fst b /\ snd a <= snd b).

Definition chronological (a b : string * datetime) : Prop :=
  dt_leb (snd a) (snd b) = true.

(** Number of calls of [fetch_calender_data] for a month, of requests sent to
    the remote service, and removals of a file, in a trace *)
Definition is_calendar_call (y m : Z) (e : event) : bool :=
  match e with
  | EvCalendar _ _ y' m' => (y' =? y) && (m' =? m)
  | _ => false
  end.

Definition is_any_calendar_call (e : event) : bool :=
  match e with
  | EvCalendar _ _ _ _ => true
  | _ => false
  end.

Definition is_request (e : event) : bool :=
  match e with
  | EvRequest _ => true
  | _ => false
  end.

Definition is_remove (e : event) : bool :=
  match e with
  | EvRemove _ => true
  | _ => false
  end.

Definition count_events (p : event -> bool) (tr : list event) : nat :=
  List.length (List.filter p tr).

(** The world after the two [sg.user_settings_delete_entry] of lines 211-212 *)
Definition location_forgotten (w : world) : world :=
  add_event (EvSettingsDelete "-country-")
    (set_user_settings
       (delete "-country-" (delete "-city-" (user_settings w)))
       (add_event (EvSettingsDelete "-city-") w)).

(** The world after the [os.remove] of line 217 *)
Definition file_removed (file : string) (w : world) : world :=
  add_event (EvRemove file) (set_data_dir (delete file (data_dir w)) w).

(** What the rollover of the last day of a month does with the cache.  The
    events after those of [w] are the call of [fetch_calender_data] for the
    month of [tomorrow], what that call does ([tr]), and what follows it
    ([tail]). *)
Definition month_rollover (now now' tomorrow : datetime) (api_res : pyval)
    (w : world) : Prop :=
  let cit := py_format (user_settings w !! "-city-") in
  let count := py_format (user_settings w !! "-country-") in
  let old := json_month_file cit count now in
  let call := EvCalendar cit count (year tomorrow) (month tomorrow) in
  let lookup := fetch_calender_data cit count tomorrow w in
  let o := get_main_layout_and_tomorrow_prayers now now' api_res w in
  exists tr tail,
    trace (final_world lookup) = trace w ++ call :: tr /\
    trace (final_world o) = trace (final_world lookup) ++ tail /\
    count_events is_any_calendar_call (call :: tr ++ tail) = 1%nat /\
    (year tomorrow, month tomorrow) =
      (if month now =? 12 then (year now + 1, 1) else (year now, month now + 1)) /\
    count_events is_remove tr = 0%nat /\
    (tail = [] \/
     tail = [EvSettingsDelete "-city-"; EvSettingsDelete "-country-"] \/
     tail = [EvRemove old] /\
     exists api_res' w1 current_times,
       lookup = Ret api_res' w1 /\ is_RequestError api_res' = false /\
       timings_of api_res' (day tomorrow - 1) = Ok current_times) /\
    (forall t, data_dir w !! old = Some t -> tail <> [EvRemove old] ->
       data_dir (final_world o) !! old = Some t).

(** The world after the notification and the athan of lines 307-317 *)
Definition announced (fard : string * datetime) (w : world) : world :=
  final_world (announce fard w).

(** [api_res["data"][j]] *)
Definition day_entry (api_res : pyval) (j : Z) : result pyval :=
  rbind (getitem_str api_res "data") (fun days => getitem_int days j).

(** Schedule [b] is schedule [a] but for the timings mapping of day [i]:
    the other fields of the answer, the other days and the other fields of
    day [i] read the same. *)
Definition same_but_timings (i : Z) (a b : pyval) : Prop :=
  (forall k, k <> "data" -> getitem_str b k = getitem_str a k) /\
  (forall j, 0 <= j -> j <> i -> day_entry b j = day_entry a j) /\
  (forall k, k <> "timings" ->
     rbind (day_entry b i) (fun e => getitem_str e k) =
     rbind (day_entry a i) (fun e => getitem_str e k)).

(** The cache look-up of a month yields schedule [api]: from its file, or
    from the service when there is no file. *)
Definition cache_gives (w : world) (cit count : string) (date : datetime)
    (api : pyval) : Prop :=
  data_dir w !! json_month_file cit count date = Some (Json api) \/
  (data_dir w !! json_month_file cit count date = None /\
   remote w (calendar_url cit count date) = Response 200 (Json api) /\
   invalid_name w (json_month_file cit count date) = None).

(** The timings mapping of tomorrow as the rollover obtains it: at the next
    index of the schedule at hand, or, on the last day of a month, at the
    first index of the schedule the cache yields for the next month, the file
    of the ending month being in place. *)
Definition tomorrows_timings (w : world) (now tomorrow : datetime) (api_res : pyval)
    (items : list (string * pyval)) : Prop :=
  let cit := py_format (user_settings w !! "-city-") in
  let count := py_format (user_settings w !! "-country-") in
  (month tomorrow = month now /\
   timings_of api_res (day now) = Ok (PDict items)) \/
  (day tomorrow < day now /\
   exists api_next t0,
     cache_gives w cit count tomorrow api_next /\
     data_dir w !! json_month_file cit count now = Some t0 /\
     invalid_name w (json_month_file cit count now) = None /\
     timings_of api_next (day tomorrow - 1) = Ok (PDict items)).

(** ** Sample data: Cairo, March 2024 *)

Definition sample_items (maghrib isha : string) : list (string * pyval) :=
  [("Fajr", PStr "04:41 (EET)"); ("Sunrise", PStr "06:08 (EET)");
   ("Dhuhr", PStr "12:05 (EET)"); ("Asr", PStr "15:28 (EET)");
   ("Sunset", PStr maghrib); ("Maghrib", PStr maghrib);
   ("Isha", PStr isha); ("Imsak", PStr "04:31 (EET)");
   ("Midnight", PStr "00:05 (EET)")].

(** The times of day of [sample_items "18:01 (EET)" "20:00 (EET)"] *)
Definition sample_tods : list (string * (Z * Z)) :=
  [("Fajr", (4, 41)); ("Sunrise", (6, 8)); ("Dhuhr", (12, 5)); ("Asr", (15, 28));
   ("Sunset", (18, 1)); ("Maghrib", (18, 1)); ("Isha", (20, 0));
   ("Imsak", (4, 31)); ("Midnight", (0, 5))].

Definition sample_timings (maghrib isha : string) : pyval :=
  PDict (sample_items maghrib isha).

Definition sample_day (maghrib isha : string) : pyval :=
  PDict [("timings", sample_timings maghrib isha);
         ("date", PDict [("readable", PStr "10 Mar 2024")])].

(** A month of [n] days with the same timings every day *)
Definition sample_month (n : nat) : pyval :=
  PDict [("code", PInt 200); ("status", PStr "OK");
         ("data", PList (repeat (sample_day "18:01 (EET)" "20:00 (EET)") n))].

Definition sample_settings : gmap string setting :=
  <["-city-" := SStr "Cairo"]> (<["-country-" := SStr "Egypt"]> ∅).

Definition at_2024 (mo d h mi : Z) : datetime := mk_datetime 2024 mo d h mi 0 0.

(** The file system of the samples: a path separator in a name leads into a
    directory that is not there *)
Fixpoint has_separator (name : string) : bool :=
  match name with
  | EmptyString => false
  | String c rest => Ascii.eqb c "/" || has_separator rest
  end.

Definition sample_names (name : string) : option refusal :=
  if has_separator name then Some NoSuchDirectory else None.

(** A service that answers every request with a 30-day month *)
Definition sample_remote (url : string) : http_result :=
  Response 200 (Json (sample_month 30)).

(** Nothing cached yet, no prayer queued *)
Definition fresh_world : world :=
  mk_world [] sample_settings ∅ sample_names sample_remote [].

(** The cache file of March 2024 is there but does not decode *)
Definition corrupt_world : world :=
  mk_world [] sample_settings
    (<["2024-3-Cairo-Egypt.json" := NotJson "{"]> ∅) sample_names sample_remote [].

(** The queue of the scenario: Fajr then Dhuhr *)
Definition two_prayers_world : world :=
  set_UPCOMING_PRAYERS
    [("Fajr", at_2024 3 10 4 41); ("Dhuhr", at_2024 3 10 12 5)] fresh_world.

Definition summer_items : list (string * pyval) :=
  [("Fajr", PStr "02:10 (CEST)"); ("Sunrise", PStr "03:40 (CEST)");
   ("Dhuhr", PStr "13:10 (CEST)"); ("Asr", PStr "17:40 (CEST)");
   ("Sunset", PStr "22:50 (CEST)"); ("Maghrib", PStr "22:50 (CEST)");
   ("Isha", PStr "00:20 (CEST)"); ("Imsak", PStr "02:00 (CEST)");
   ("Midnight", PStr "01:15 (CEST)")].

(** A northern summer month: Isha falls after midnight *)
Definition summer_month : pyval :=
  PDict [("code", PInt 200); ("status", PStr "OK");
         ("data", PList (repeat (PDict [("timings", PDict summer_items)]) 30))].

(** March 2024 is cached and the service answers *)
Definition march_cached_world : world :=
  mk_world [] sample_settings
    (<["2024-3-Cairo-Egypt.json" := Json (sample_month 31)]> ∅) sample_names
    sample_remote [].

(** December 2024 is cached and the service answers *)
Definition december_cached_world : world :=
  mk_world [] sample_settings
    (<["2024-12-Cairo-Egypt.json" := Json (sample_month 31)]> ∅) sample_names
    sample_remote [].

(** March 2024 is cached and the service refuses every request *)
Definition refused_world : world :=
  mk_world [] sample_settings
    (<["2024-3-Cairo-Egypt.json" := Json (sample_month 31)]> ∅) sample_names
    (fun _ => Response 404 (NotJson "Not Found")) [].

(** March 2024 is cached and the service cannot be reached *)
Definition offline_world : world :=
  mk_world [] sample_settings
    (<["2024-3-Cairo-Egypt.json" := Json (sample_month 31)]> ∅) sample_names
    (fun _ => ConnectionFailed) [].

(** Isha of 10 March 2024 is the last entry of the queue *)
Definition isha_due_world : world :=
  set_UPCOMING_PRAYERS [("Isha", at_2024 3 10 20 0)] march_cached_world.

Definition northern_settings : gmap string setting :=
  <["-city-" := SStr "Oslo"]> (<["-country-" := SStr "Norway"]> ∅).

(** June 2024 of the northern summer is cached; the Isha listed for 10 June
    (00:20) is the last entry of the queue *)
Definition summer_due_world : world :=
  mk_world [("Isha", at_2024 6 10 0 20)] northern_settings
    (<["2024-6-Oslo-Norway.json" := Json summer_month]> ∅) sample_names
    sample_remote [].

(** ** The rest of the polling loop and of the script *)

(** What the Python runtime and the Arabic text libraries compute and this
    development does not look into: [str()] inside an f-string, the truth
    value of a floating-point literal, and the reshaping and reordering of
    Arabic text; with the two tests of [display_ar_text]. *)
Record runtime : Type := mk_runtime {
  py_str : pyval -> string;
  float_truth : string -> bool;
  win32 : bool;
  MISSING_ARABIC_MODULES : bool;
  reshape : string -> string;
  get_display : string -> string
}.

(** [display_ar_text] (lines 61-71) *)
Definition display_ar_text (rt : runtime) (text : string) : string :=
  if negb (win32 rt) && negb (MISSING_ARABIC_MODULES rt)
  then get_display rt (reshape rt text)
  else text.

(** [get_hijri_date_from_json] (lines 179-187) *)
Definition get_hijri_date_from_json (rt : runtime) (date : datetime) (api_res : pyval)
  : result string :=
  rbind (getitem_str api_res "data") (fun days =>
  rbind (getitem_int days (day date - 1)) (fun entry =>
  rbind (getitem_str entry "date") (fun gregorian =>
  rbind (getitem_str gregorian "hijri") (fun hirjir_date =>
  rbind (getitem_str hirjir_date "weekday") (fun weekday =>
  rbind (getitem_str weekday "ar") (fun weekday_ar =>
  rbind (getitem_str hirjir_date "day") (fun hijri_day =>
  rbind (getitem_str hirjir_date "month") (fun hijri_month =>
  rbind (getitem_str hijri_month "ar") (fun month_ar =>
  rbind (getitem_str hirjir_date "year") (fun hijri_year =>
  Ok (display_ar_text rt
        (py_str rt weekday_ar +:+ " " +:+ py_str rt hijri_day +:+ " " +:+
         py_str rt month_ar +:+ " " +:+ py_str rt hijri_year)))))))))))).

(** Truth value of the cached string [end_of_month_hijri] *)
Definition text_truth (t : option string) : bool :=
  match t with
  | None => false
  | Some s => negb (String.eqb s "")
  end.

(** Line 348: the Hijri date of [now] from the schedule the cache gives for
    the month of [now] *)
Definition end_of_month_hijri_lookup (rt : runtime) (now : datetime) : M string :=
  let! city := user_settings_get_entry "-city-" in
  let! country := user_settings_get_entry "-country-" in
  let! month_data := fetch_calender_data (py_format city) (py_format country) now in
  lift (get_hijri_date_from_json rt now month_data).

(** Lines 340-351: the Hijri date shown in a turn.  While the next prayer is
    in the month of [now] it is read from the month data of the loop;
    otherwise it is looked up once and kept in [end_of_month_hijri].  The
    result is the text shown and the new value of [end_of_month_hijri]. *)
Definition hijri_display (rt : runtime) (now : datetime) (current_month_data : pyval)
    (end_of_month_hijri : option string) : M (string * option string) :=
  let! next := peek_next in
  if month now =? month (snd next) then
    let! text := lift (get_hijri_date_from_json rt now current_month_data) in
    ret (text, None)
  else
    match end_of_month_hijri with
    | Some kept =>
        if text_truth end_of_month_hijri then ret (kept, Some kept)
        else let! text := end_of_month_hijri_lookup rt now in ret (text, Some text)
    | None =>
        let! text := end_of_month_hijri_lookup rt now in ret (text, Some text)
    end.

(** Lines 301-351: a turn of the loop with its Hijri date. *)
Definition display_main_window_turn (rt : runtime) (clock clock1 clock2 : datetime)
    (current_month_data : pyval) (end_of_month_hijri : option string)
  : M (pyval * (string * datetime) * (string * option string)) :=
  let! shown := display_main_window_tick clock clock1 clock2 current_month_data in
  let! hijri := hijri_display rt (replace_microsecond_0 clock) (fst shown)
                  end_of_month_hijri in
  ret (fst shown, snd shown, hijri).

(** Lines 300-366, turn after turn: the turns of a session in which every
    [window.read] times out but the last, which reads the event that closes
    the application (line 365), so that no other event of the windows is
    handled; one turn for each triple of clock readings.  The month data and
    the kept Hijri text are carried from a turn to the next; an exception ends
    the loop. *)
Fixpoint display_main_window_turns (rt : runtime)
    (clocks : list (datetime * datetime * datetime))
    (current_month_data : pyval) (end_of_month_hijri : option string)
  : M (pyval * option string) :=
  match clocks with
  | [] => ret (current_month_data, end_of_month_hijri)
  | (clock, clock1, clock2) :: later =>
      let! shown := display_main_window_turn rt clock clock1 clock2
                      current_month_data end_of_month_hijri in
      display_main_window_turns rt later (fst (fst shown)) (snd (snd shown))
  end.

(** [datetime.datetime(day=d, month=m, year=y)] *)
Definition py_datetime (y m d : Z) : result datetime :=
  let t := mk_datetime y m d 0 0 0 0 in
  if valid_datetime t then Ok t else Raise ValueError.

(** Lines 468-472: the month and the year of one step of the download of the
    next twelve months, from the year reached so far. *)
Definition download_step (now : datetime) (download_year mon_d : Z) : Z * Z :=
  let download_mon := (mon_d + month now) mod 12 in
  if download_mon =? 0 then (12, download_year)
  else if download_mon <=? month now then (download_mon, year now + 1)
  else (download_mon, download_year).

(** The loop of lines 467-480 over the values [mon_ds] of [mon_d]; what
    [fetch_calender_data] returns is dropped. *)
Fixpoint download_months (now : datetime) (download_year : Z) (mon_ds : list Z)
  : M unit :=
  match mon_ds with
  | [] => ret tt
  | mon_d :: rest =>
      let step := download_step now download_year mon_d in
      let! city := user_settings_get_entry "-city-" in
      let! country := user_settings_get_entry "-country-" in
      let! date := lift (py_datetime (snd step) (fst step) 1) in
      do! fetch_calender_data (py_format city) (py_format country) date in
      download_months now (snd step) rest
  end.

(** Lines 465-481, the settings button "Download next 12 months data":
    [for mon_d in range(1, 13)] *)
Definition download_next_12_months (now : datetime) : M unit :=
  download_months now (year now) [1; 2; 3; 4; 5; 6; 7; 8; 9; 10; 11; 12].

(** The months of the same loop, without the look-ups *)
Fixpoint download_plan (now : datetime) (download_year : Z) (mon_ds : list Z)
  : list (Z * Z) :=
  match mon_ds with
  | [] => []
  | mon_d :: rest =>
      let step := download_step now download_year mon_d in
      (snd step, fst step) :: download_plan now (snd step) rest
  end.

(** ** [download_athan] (lines 84-122) *)

(** The [content-length] header seen through [int()] *)
Inductive length_header : Set :=
| NoHeader
| NotANumber
| ContentLength (n : Z).

(** What [iter_content] yields next: a chunk, or an exception *)
Inductive chunk_step : Set :=
| Chunk (data : string)
| Broken.

Inductive athan_request : Set :=
| Unreachable
| Streaming (header : length_header) (body : list chunk_step).

(** The loop of lines 105-114 on the file being written: each chunk is
    appended, then the progress window is read; [true] in [cancels] is a
    "Cancel" or a close of that window.  The flag tells whether the loop
    ended without an exception. *)
Fixpoint write_chunks (file : string) (body : list chunk_step) (cancels : list bool)
    (dir : gmap string string) : bool * gmap string string :=
  match body with
  | [] => (true, dir)
  | Broken :: _ => (false, dir)
  | Chunk data :: rest =>
      let dir' := <[file := default EmptyString (dir !! file) +:+ data]> dir in
      match cancels with
      | true :: _ => (false, dir')
      | _ :: later => write_chunks file rest later dir'
      | [] => write_chunks file rest [] dir'
      end
  end.

(** The [try] block of lines 90-119 *)
Definition download_attempt (athan_filename : string) (req : athan_request)
    (cancels : list bool) (dir : gmap string string) : bool * gmap string string :=
  match req with
  | Unreachable => (false, dir)
  | Streaming (ContentLength _) body =>
      write_chunks athan_filename body cancels (<[athan_filename := EmptyString]> dir)
  | Streaming _ _ => (false, dir)
  end.

(** [download_athan]: [dir] is the content of [ATHANS_DIR] by file name.  The
    handler of line 120 removes the file, which raises when there is none. *)
Definition download_athan (athan_filename : string) (req : athan_request)
    (cancels : list bool) (dir : gmap string string)
  : result bool * gmap string string :=
  let attempt := download_attempt athan_filename req cancels dir in
  if fst attempt then (Ok true, snd attempt)
  else match snd attempt !! athan_filename with
       | Some _ => (Ok false, delete athan_filename (snd attempt))
       | None => (Raise FileNotFoundError, snd attempt)
       end.

(** The chunks of a body, up to its end or its first exception *)
Fixpoint received (body : list chunk_step) : string :=
  match body with
  | Chunk data :: rest => data +:+ received rest
  | _ => EmptyString
  end.

Fixpoint unbroken (body : list chunk_step) : bool :=
  match body with
  | [] => true
  | Chunk _ :: rest => unbroken rest
  | Broken :: _ => false
  end.

(** No cancel among the readings made for [n] chunks *)
Definition no_cancel (n : nat) (cancels : list bool) : bool :=
  forallb negb (take n cancels).

(** ** Start-up (lines 516-613) *)

(** Truth value of a Python value *)
Definition py_truthy (rt : runtime) (v : pyval) : bool :=
  match v with
  | PNone => false
  | PBool b => b
  | PInt z => negb (z =? 0)
  | PFloat literal => float_truth rt literal
  | PStr s => negb (String.eqb s "")
  | PList l => negb (Nat.eqb (List.length l) 0)
  | PDict d => negb (Nat.eqb (List.length d) 0)
  | PDateTime _ => true
  end.

Definition user_settings_set_entry (key : string) (value : setting) : M unit :=
  modify (fun w => set_user_settings (<[key := value]> (user_settings w)) w).

(** Lines 541-590, for the [city] and [country] of an "Ok" or of a "Use
    current location": the month is looked up; an answer that is [None] or
    otherwise false, or a request error, keeps the window open ([None]); any
    other answer is saved as the location and resolved.  [clock] is the
    reading of line 543 or 572. *)
Definition location_chosen (rt : runtime) (city country : string)
    (clock clock1 clock2 : datetime) : M (option (bool * pyval)) :=
  let! m_data := fetch_calender_data city country clock in
  if negb (py_truthy rt m_data) then ret None
  else if is_RequestError m_data then ret None
  else
    do! user_settings_set_entry "-city-" (SStr city) in
    do! user_settings_set_entry "-country-" (SStr country) in
    let! start_data := get_main_layout_and_tomorrow_prayers clock1 clock2 m_data in
    ret (Some start_data).

(** Lines 594-600: start-up with a saved location *)
Definition saved_location_start (clock clock1 clock2 : datetime) : M (bool * pyval) :=
  let! city := user_settings_get_entry "-city-" in
  let! country := user_settings_get_entry "-country-" in
  let! m_data := fetch_calender_data (py_format city) (py_format country) clock in
  get_main_layout_and_tomorrow_prayers clock1 clock2 m_data.

(** Lines 610-613: at exit, a location that is not to be saved is deleted. *)
Definition forget_unsaved_location (save_loc_check : bool) : M unit :=
  if negb save_loc_check then
    let! city := user_settings_get_entry "-city-" in
    if py_truth city then
      let! country := user_settings_get_entry "-country-" in
      if py_truth country then
        do! user_settings_delete_entry "-city-" in
        user_settings_delete_entry "-country-"
      else ret tt
    else ret tt
  else ret tt.

(** Every file of the cache decodes *)
Definition cache_decodes (w : world) : Prop :=
  forall f d, data_dir w !! f = Some d -> exists v, d = Json v.

(** Every 200 answer of the service decodes *)
Definition answers_decode (w : world) : Prop :=
  forall url text, remote w url = Response 200 text -> exists v, text = Json v.

(** The [k]-th calendar month after the month of [now], as (year, month) *)
Definition month_after (now : datetime) (k : Z) : Z * Z :=
  (year now + (month now + k - 1) / 12, (month now + k - 1) mod 12 + 1).

(** ** More sample data *)

(** Nothing is cached and the service answers 200 with a page that is not
    JSON *)
Definition undecodable_world : world :=
  mk_world [] sample_settings ∅ sample_names
    (fun _ => Response 200 (NotJson "<html>")) [].

(** March 2024 is cached for the city Aix-en-Provence in France *)
Definition hyphen_world : world :=
  mk_world [] ∅
    (<["2024-3-Aix-en-Provence-France.json" := Json (sample_month 31)]> ∅)
    sample_names sample_remote [].

(** No location is saved, nothing is cached and the service answers *)
Definition first_start_world : world :=
  mk_world [] ∅ ∅ sample_names sample_remote [].

(** A location is saved, nothing is cached and the service cannot be
    reached *)
Definition offline_start_world : world :=
  mk_world [] sample_settings ∅ sample_names (fun _ => ConnectionFailed) [].

(** A runtime on Windows, where Arabic text is shown as it is *)
Definition sample_runtime : runtime :=
  mk_runtime
    (fun v => match v with PStr s => s | PInt z => pretty z | _ => EmptyString end)
    (fun _ => true) true false (fun s => s) (fun s => s).

(** A day with its Hijri date, in transliteration *)
Definition hijri_day (hijri_day_of_month : string) : pyval :=
  PDict [("timings", sample_timings "18:01 (EET)" "20:00 (EET)");
         ("date",
          PDict [("readable", PStr "10 Mar 2024");
                 ("hijri",
                  PDict [("date", PStr "29-08-1445");
                         ("day", PStr hijri_day_of_month);
                         ("weekday", PDict [("en", PStr "Al Ahad"); ("ar", PStr "al-ahad")]);
                         ("month", PDict [("number", PInt 8); ("en", PStr "Shaban");
                                          ("ar", PStr "shaban")]);
                         ("year", PStr "1445")])])].

Definition hijri_month : pyval :=
  PDict [("code", PInt 200); ("status", PStr "OK");
         ("data", PList (repeat (hijri_day "29") 31))].

(** No location is saved, nothing is cached and the service answers with
    months that carry the Hijri date *)
Definition hijri_start_world : world :=
  mk_world [] ∅ ∅ sample_names (fun _ => Response 200 (Json hijri_month)) [].

(** Today's Isha is written with a blank in front *)
Definition blank_isha_month : pyval :=
  PDict [("data",
          PList (repeat (PDict [("timings", sample_timings "18:01 (EET)" " 20:00 (EET)")])
                        31))].

(** ** Reading times of day *)

Example split_ws_ex : split_ws "  20:00 (EET) " = ["20:00"; "(EET)"].
Proof. reflexivity. Qed.

Example split_space_ex : split_space "20:00 (EET)" = ["20:00"; "(EET)"].
Proof. reflexivity. Qed.

Example parse_HM_ex :
  parse_HM "20:00" = Some (20, 0) /\ parse_HM "5:07" = Some (5, 7) /\
  parse_HM "24:00" = None /\ parse_HM "20:60" = None /\ parse_HM "20:0x" = None.
Proof. repeat split; reflexivity. Qed.

(** ** Datetime order *)

Lemma dt_compare_refl a : dt_compare a a = Eq.
Proof. unfold dt_compare. now rewrite !Z.compare_refl. Qed.

Lemma dt_ltb_irrefl a : dt_ltb a a = false.
Proof. unfold dt_ltb. now rewrite dt_compare_refl. Qed.

Lemma dt_leb_refl a : dt_leb a a = true.
Proof. unfold dt_leb. now rewrite dt_ltb_irrefl. Qed.

(** Every moment of tomorrow's date is after [now]. *)
Lemma dt_ltb_next_day now t : dated (next_day now) t -> dt_ltb now t = true.
Proof.
  unfold dated, date_of, next_day. destruct now as [y m d h mi s us], t as [y' m' d' h' mi' s' us'].
  cbn [year month day]. intros H. unfold dt_ltb, dt_compare. cbn [year month day hour minute second microsecond].
  destruct (d <? days_in_month y m); [|destruct (m <? 12)];
    cbn [year month day] in H; injection H as -> -> ->.
  - rewrite !Z.compare_refl. cbn [lex].
    replace (d ?= d + 1) with Lt; [reflexivity|]. symmetry. apply Z.compare_lt_iff. lia.
  - rewrite !Z.compare_refl. cbn [lex].
    replace (m ?= m + 1) with Lt; [reflexivity|]. symmetry. apply Z.compare_lt_iff. lia.
  - replace (y ?= y + 1) with Lt; [reflexivity|]. symmetry. apply Z.compare_lt_iff. lia.
Qed.


Lemma dated_at_date date hm : dated date (at_date date hm).
Proof. reflexivity. Qed.

(** On one calendar date the order of datetimes is that of the times of day. *)
Lemma dt_leb_at_date date a b : tod_le a b -> dt_leb (at_date date a) (at_date date b) = true.
Proof.
  unfold tod_le, dt_leb, dt_ltb, dt_compare, at_date.
  cbn [year month day hour minute second microsecond].
  rewrite !Z.compare_refl. cbn [lex]. intros [Hlt | [Heq Hle]].
  - replace (fst b ?= fst a) with Gt; [reflexivity|]. symmetry. apply Z.compare_gt_iff. lia.
  - rewrite Heq, Z.compare_refl. cbn [lex].
    destruct (Z.compare_spec (snd b) (snd a)); try reflexivity. lia.
Qed.

Lemma year_next_day now : year now <= year (next_day now).
Proof.
  unfold next_day.
  destruct (day now <? days_in_month (year now) (month now));
    [|destruct (month now <? 12)]; cbn [year]; lia.
Qed.

#[local] Instance tod_le_trans : Transitive tod_le.
Proof. intros a b c. unfold tod_le. lia. Qed.

(** ** Running the monad *)

Ltac monad_simpl :=
  cbv beta iota zeta delta
    [bind ret raise lift gets modify log user_settings_get_entry
     user_settings_delete_entry path_exists write_file load_file os_remove
     requests_get];
  cbn [UPCOMING_PRAYERS user_settings data_dir invalid_name remote trace add_event
       set_data_dir set_user_settings set_UPCOMING_PRAYERS negb].

Ltac monad_simpl_in H :=
  cbv beta iota zeta delta
    [bind ret raise lift gets modify log user_settings_get_entry
     user_settings_delete_entry path_exists write_file load_file os_remove
     requests_get] in H;
  cbn [UPCOMING_PRAYERS user_settings data_dir invalid_name remote trace add_event
       set_data_dir set_user_settings set_UPCOMING_PRAYERS negb] in H.

(** ** The calendar cache *)

Section fetch.
Variables (cit count : string) (date : datetime).

Let file := json_month_file cit count date.
Let url := calendar_url cit count date.
Let call := EvCalendar cit count (year date) (month date).

(** A cached month is decoded from its file; the service is not asked. *)
Lemma fetch_calender_data_hit w text :
  data_dir w !! file = Some text ->
  fetch_calender_data cit count date w =
    match json_load text with
    | Ok v => Ret v (add_event call w)
    | Raise e => Exc e (add_event call w)
    end.
Proof.
  intros H. unfold fetch_calender_data. monad_simpl. fold file. rewrite H.
  monad_simpl. rewrite H. destruct (json_load text); reflexivity.
Qed.

(** Without a file the service is asked once; only a 200 answer is
    written to the file, when the file system takes the name, and the file
    is then decoded. *)
Lemma fetch_calender_data_miss w :
  data_dir w !! file = None ->
  fetch_calender_data cit count date w =
    let w1 := add_event (EvRequest url) (add_event call w) in
    match remote w url with
    | ConnectionFailed => Ret (PStr "RequestError") w1
    | Response status_code text =>
        if status_code =? 200 then
          match invalid_name w file with
          | Some why => Exc (refusal_exn why) w1
          | None =>
              let w2 := add_event (EvWrite file)
                          (set_data_dir (<[file := text]> (data_dir w)) w1) in
              match json_load text with
              | Ok v => Ret v w2
              | Raise e => Exc e w2
              end
          end
        else Ret PNone w1
    end.
Proof.
  intros H. unfold fetch_calender_data. monad_simpl. fold file url. rewrite H.
  monad_simpl.
  destruct (remote w url) as [|sc text]; [reflexivity|].
  destruct (sc =? 200); monad_simpl; [|reflexivity].
  destruct (invalid_name w file); monad_simpl; [reflexivity|].
  rewrite lookup_insert_eq.
  destruct (json_load text); reflexivity.
Qed.
End fetch.

(** C7: for every key, when the month is not cached and a valid cache entry
    exists after a first [fetch_calender_data], that call has sent exactly one
    request, has written the answer of the service to the cache file and has
    returned the decoded schedule; a second call with the same arguments
    sends no request, leaves the files as they are and returns the same
    schedule: one request in all.  The entry exists after the first call
    whenever the service answers 200 with a text that decodes and the file
    system takes the name of the file. *)
Theorem fetch_calender_data_twice cit count date w :
  let file := json_month_file cit count date in
  let url := calendar_url cit count date in
  let first := fetch_calender_data cit count date w in
  let w1 := final_world first in
  data_dir w !! file = None ->
  (forall v,
     data_dir w1 !! file = Some (Json v) ->
     exists w2 tr1 tr2,
       first = Ret v w1 /\
       remote w url = Response 200 (Json v) /\
       trace w1 = trace w ++ tr1 /\
       count_events is_request tr1 = 1%nat /\
       fetch_calender_data cit count date w1 = Ret v w2 /\
       trace w2 = trace w1 ++ tr2 /\
       count_events is_request tr2 = 0%nat /\
       count_events is_request (tr1 ++ tr2) = 1%nat /\
       data_dir w2 = data_dir w1) /\
  (forall v,
     remote w url = Response 200 (Json v) -> invalid_name w file = None ->
     data_dir w1 !! file = Some (Json v)).
Proof.
  cbv zeta. intros Hmiss.
  pose proof (fetch_calender_data_miss cit count date w Hmiss) as E1. cbv zeta in E1.
  split.
  - intros v Hentry.
    destruct (remote w (calendar_url cit count date)) as [|sc text] eqn:Hweb.
    { rewrite E1 in Hentry. cbn [final_world data_dir add_event] in Hentry. congruence. }
    destruct (sc =? 200) eqn:Hsc.
    2:{ rewrite E1 in Hentry. cbn [final_world data_dir add_event] in Hentry. congruence. }
    apply Z.eqb_eq in Hsc as ->.
    destruct (invalid_name w (json_month_file cit count date)).
    { rewrite E1 in Hentry. cbn [final_world data_dir add_event] in Hentry. congruence. }
    assert (Htext : text = Json v).
    { rewrite E1 in Hentry. destruct (json_load text);
        cbn [final_world data_dir add_event set_data_dir] in Hentry;
        rewrite lookup_insert_eq in Hentry; congruence. }
    subst text. cbn [json_load] in E1. rewrite E1 in *. cbn [final_world] in *.
    pose proof (fetch_calender_data_hit cit count date _ _ Hentry) as E2.
    cbn [json_load] in E2.
    eexists.
    exists [EvCalendar cit count (year date) (month date);
            EvRequest (calendar_url cit count date);
            EvWrite (json_month_file cit count date)].
    exists [EvCalendar cit count (year date) (month date)].
    split; [reflexivity|]. split; [reflexivity|]. split.
    { cbn [trace add_event set_data_dir]. now rewrite <- !app_assoc. }
    split; [reflexivity|]. split; [exact E2|]. repeat split.
  - intros v Hweb Hname. rewrite E1, Hweb, Hname. cbn [Z.eqb Pos.eqb json_load].
    cbn [final_world data_dir add_event set_data_dir]. apply lookup_insert_eq.
Qed.

(** The scenario of the design: Cairo, Egypt, March 2024, nothing cached. *)
Lemma fetch_calender_data_twice_witness :
  let date := at_2024 3 10 13 0 in
  let first := fetch_calender_data "Cairo" "Egypt" date fresh_world in
  let w1 := final_world first in
  data_dir w1 !! "2024-3-Cairo-Egypt.json" = Some (Json (sample_month 30)) /\
  exists w2 tr1 tr2,
    first = Ret (sample_month 30) w1 /\
    trace w1 = trace fresh_world ++ tr1 /\
    count_events is_request tr1 = 1%nat /\
    fetch_calender_data "Cairo" "Egypt" date w1 = Ret (sample_month 30) w2 /\
    trace w2 = trace w1 ++ tr2 /\
    count_events is_request tr2 = 0%nat /\
    count_events is_request (tr1 ++ tr2) = 1%nat /\
    data_dir w2 = data_dir w1.
Proof.
  cbv zeta.
  pose proof (fetch_calender_data_twice "Cairo" "Egypt" (at_2024 3 10 13 0) fresh_world
                eq_refl) as [Htwice Hentry].
  specialize (Hentry (sample_month 30) eq_refl eq_refl).
  split; [exact Hentry|].
  destruct (Htwice (sample_month 30) Hentry)
    as (w2 & tr1 & tr2 & H1 & _ & H2 & H3 & H4 & H5 & H6 & H7 & H8).
  exists w2, tr1, tr2. repeat split; assumption.
Defined.

(** C9, as the code has it: a cache file that exists but does not decode is
    not treated as a miss.  [fetch_calender_data] sends no request, leaves
    the file in place and fails with the decoder's error, whatever the
    service would have answered. *)
Theorem fetch_calender_data_malformed cit count date w raw :
  data_dir w !! json_month_file cit count date = Some (NotJson raw) ->
  exists w',
    fetch_calender_data cit count date w = Exc JSONDecodeError w' /\
    trace w' = trace w ++ [EvCalendar cit count (year date) (month date)] /\
    count_events is_request [EvCalendar cit count (year date) (month date)] = 0%nat /\
    data_dir w' = data_dir w.
Proof.
  intros H. rewrite (fetch_calender_data_hit cit count date w _ H). cbn [json_load].
  eexists. split; [reflexivity|]. repeat split.
Qed.

Lemma fetch_calender_data_malformed_witness :
  exists w',
    fetch_calender_data "Cairo" "Egypt" (at_2024 3 10 13 0) corrupt_world
      = Exc JSONDecodeError w' /\
    trace w' = trace corrupt_world ++ [EvCalendar "Cairo" "Egypt" 2024 3] /\
    count_events is_request [EvCalendar "Cairo" "Egypt" 2024 3] = 0%nat /\
    data_dir w' = data_dir corrupt_world.
Proof.
  apply (fetch_calender_data_malformed "Cairo" "Egypt" (at_2024 3 10 13 0)
           corrupt_world "{"). reflexivity.
Defined.

(** C9, as stated, fails: with a malformed file for Cairo, March 2024, and a
    service ready to answer, the look-up ends in [JSONDecodeError] and no
    request has been sent. *)
Lemma malformed_cache_not_refetched :
  let o := fetch_calender_data "Cairo" "Egypt" (at_2024 3 10 13 0) corrupt_world in
  (forall v w', o <> Ret v w') /\
  (exists w', o = Exc JSONDecodeError w') /\
  count_events is_request (trace (final_world o)) = 0%nat.
Proof.
  cbv zeta. split; [|split].
  - intros v w'. vm_compute. discriminate.
  - eexists. vm_compute. reflexivity.
  - vm_compute. reflexivity.
Qed.

(** ** The queue of upcoming prayers *)

Lemma pop_if_elapsed_run now w front rest :
  UPCOMING_PRAYERS w = front :: rest ->
  pop_if_elapsed now w =
    if dt_ltb now (snd front) then Ret None w
    else Ret (Some front) (set_UPCOMING_PRAYERS rest w).
Proof.
  intros Hq. unfold pop_if_elapsed. monad_simpl. rewrite Hq. cbn [first].
  destruct (dt_ltb now (snd front)); reflexivity.
Qed.

(** C5: on a non-empty queue, [pop_if_elapsed] returns nothing and leaves
    the world as it is while [now] is before the timestamp of the front
    entry, and otherwise returns the front entry and leaves the rest of the
    queue, one entry shorter. *)
Theorem pop_if_elapsed_front now w front rest :
  UPCOMING_PRAYERS w = front :: rest ->
  (dt_ltb now (snd front) = true -> pop_if_elapsed now w = Ret None w) /\
  (dt_ltb now (snd front) = false ->
     pop_if_elapsed now w = Ret (Some front) (set_UPCOMING_PRAYERS rest w) /\
     UPCOMING_PRAYERS (set_UPCOMING_PRAYERS rest w) = rest).
Proof.
  intros Hq. rewrite (pop_if_elapsed_run now w front rest Hq).
  split; intros ->; repeat split.
Qed.

Lemma pop_if_elapsed_front_witness :
  pop_if_elapsed (at_2024 3 10 4 40) two_prayers_world = Ret None two_prayers_world /\
  pop_if_elapsed (at_2024 3 10 4 41) two_prayers_world
    = Ret (Some ("Fajr", at_2024 3 10 4 41))
          (set_UPCOMING_PRAYERS [("Dhuhr", at_2024 3 10 12 5)] two_prayers_world).
Proof.
  split.
  - apply (proj1 (pop_if_elapsed_front (at_2024 3 10 4 40) two_prayers_world
                    _ _ eq_refl)). reflexivity.
  - apply (proj2 (pop_if_elapsed_front (at_2024 3 10 4 41) two_prayers_world
                    _ _ eq_refl)). reflexivity.
Defined.

(** C6: with an empty queue, asking for the next prayer raises [IndexError],
    the fault Python raises for [UPCOMING_PRAYERS[0]]; no value is returned,
    and a turn of the polling loop stops on the same fault before doing
    anything. *)
Theorem peek_next_empty w :
  UPCOMING_PRAYERS w = [] ->
  peek_next w = Exc IndexError w /\
  (forall v w', peek_next w <> Ret v w') /\
  (forall clock clock1 clock2 data,
     display_main_window_tick clock clock1 clock2 data w = Exc IndexError w).
Proof.
  intros Hq. assert (E : peek_next w = Exc IndexError w).
  { unfold peek_next. monad_simpl. now rewrite Hq. }
  split; [exact E|]. split.
  - intros v w'. rewrite E. discriminate.
  - intros. unfold display_main_window_tick, pop_if_elapsed. monad_simpl.
    now rewrite Hq.
Qed.

Lemma peek_next_empty_witness : peek_next fresh_world = Exc IndexError fresh_world.
Proof. apply (peek_next_empty fresh_world). reflexivity. Defined.

(** ** Binding the timings of a day *)

Lemma strptime_at_date tok date hm :
  1000 <= year date -> parse_HM tok = Some hm ->
  strptime tok date = Ok (at_date date hm).
Proof.
  intros Hy Hp. unfold strptime. destruct (Z.ltb_spec (year date) 1000); [lia|].
  rewrite Hp. now destruct hm.
Qed.

Lemma strptime_year tok date t : strptime tok date = Ok t -> 1000 <= year date.
Proof.
  unfold strptime. destruct (Z.ltb_spec (year date) 1000); [discriminate|]. intros _. lia.
Qed.

Lemma bind_times_decoded date items tods :
  1000 <= year date -> decode_timings items = Some tods ->
  bind_times date items = Ok (map (bind_entry date) tods).
Proof.
  intros Hy. revert tods. induction items as [|[k v] items IH]; intros tods H.
  - injection H as <-. reflexivity.
  - cbn [decode_timings] in H.
    destruct (time_of_day v) as [hm|] eqn:Ev; [|discriminate].
    destruct (decode_timings items) as [rest|]; [|discriminate].
    injection H as <-.
    destruct v as [| | | |s| | |]; try discriminate. cbn [time_of_day] in Ev.
    cbn [bind_times py_split_space rbind].
    destruct (split_space s) as [|tok fields]; [discriminate|].
    cbn [first rbind]. rewrite (strptime_at_date _ _ _ Hy Ev). cbn [rbind].
    rewrite (IH rest eq_refl). reflexivity.
Qed.

Lemma todays_isha_decoded now api_res items v hm :
  1000 <= year now ->
  timings_of api_res (day now - 1) = Ok (PDict items) ->
  dict_get "Isha" items = Some v ->
  isha_time_of_day v = Some hm ->
  todays_isha now api_res = Ok (PDict items, at_date now hm).
Proof.
  intros Hy Ht Hi Hv. unfold todays_isha. rewrite Ht. cbn [rbind getitem_str].
  rewrite Hi. destruct v as [| | | |s| | |]; try discriminate.
  cbn [isha_time_of_day] in Hv. cbn [py_split rbind].
  destruct (split_ws s) as [|tok fields]; [discriminate|].
  cbn [first rbind]. now rewrite (strptime_at_date _ _ _ Hy Hv).
Qed.

Lemma todays_isha_inv now api_res today isha_time :
  todays_isha now api_res = Ok (today, isha_time) ->
  1000 <= year now /\ timings_of api_res (day now - 1) = Ok today /\
  dated now isha_time /\ exists items, today = PDict items.
Proof.
  unfold todays_isha. destruct (timings_of api_res (day now - 1)) as [ct|]; [|discriminate].
  cbn [rbind]. destruct (getitem_str ct "Isha") as [isha|] eqn:Ei; [|discriminate].
  cbn [rbind]. destruct (py_split isha) as [obj|]; [|discriminate].
  cbn [rbind]. destruct (first obj) as [tok|]; [|discriminate].
  cbn [rbind]. destruct (strptime tok now) as [t|] eqn:Es; [|discriminate].
  cbn [rbind]. intros [= <- <-]. split; [eapply strptime_year; eassumption|].
  split; [reflexivity|]. split.
  - unfold strptime in Es. destruct (year now <? 1000); [discriminate|].
    destruct (parse_HM tok) as [[h mi]|]; [|discriminate]. now injection Es as <-.
  - destruct ct; try discriminate. eauto.
Qed.

(** ** The entries queued by a resolution *)

Lemma upcoming_of_In now times prayer time :
  In (prayer, time) (upcoming_of now times) <->
  In (prayer, time) times /\ listed prayer = true /\ dt_ltb now time = true.
Proof.
  unfold upcoming_of. rewrite List.filter_In. cbn [fst snd].
  rewrite andb_true_iff. tauto.
Qed.

Lemma In_bind_entry date tods prayer time :
  In (prayer, time) (map (bind_entry date) tods) <->
  exists hm, In (prayer, hm) tods /\ time = at_date date hm.
Proof.
  rewrite in_map_iff. split.
  - intros [[k hm] [E Hin]]. injection E as <- <-. eauto.
  - intros [hm [Hin ->]]. exists (prayer, hm). split; [reflexivity|assumption].
Qed.

Lemma Forall_dated_filter date tods (p : string * datetime -> bool) :
  Forall (fun e => dated date (snd e)) (List.filter p (map (bind_entry date) tods)).
Proof.
  apply List.Forall_forall. intros [k t] Hin. apply List.filter_In in Hin as [Hin _].
  apply In_bind_entry in Hin as [hm [_ ->]]. apply dated_at_date.
Qed.

Lemma StronglySorted_filter {A : Type} (R : A -> A -> Prop) (p : A -> bool) l :
  StronglySorted R l -> StronglySorted R (List.filter p l).
Proof.
  induction 1 as [|a l Hs IH Hall]; cbn [List.filter]; [constructor|].
  destruct (p a); [|assumption]. constructor; [assumption|].
  apply List.Forall_forall. intros x Hx. apply List.filter_In in Hx as [Hx _].
  revert x Hx. now apply List.Forall_forall.
Qed.

Lemma upcoming_of_bind_entry now date tods :
  upcoming_of now (map (bind_entry date) tods) =
  List.filter (fun pt => dt_ltb now (snd pt))
    (map (bind_entry date) (List.filter (fun e => listed (fst e)) tods)).
Proof.
  unfold upcoming_of. induction tods as [|[k hm] tods IH]; [reflexivity|].
  cbn [map List.filter bind_entry fst snd].
  destruct (listed k); cbn [andb map List.filter bind_entry fst snd].
  - destruct (dt_ltb now (at_date date hm)); now rewrite IH.
  - exact IH.
Qed.

(** The queue order is the order of the mapping: it is chronological as soon
    as the mapping lists the times of day of the listed prayers in order. *)
Lemma upcoming_of_sorted now date tods :
  Sorted tod_le (map snd (List.filter (fun e => listed (fst e)) tods)) ->
  StronglySorted chronological (upcoming_of now (map (bind_entry date) tods)).
Proof.
  intros Hs. apply Sorted_StronglySorted in Hs; [|exact tod_le_trans].
  rewrite upcoming_of_bind_entry. apply StronglySorted_filter.
  remember (List.filter (fun e => listed (fst e)) tods) as l eqn:El. clear El.
  induction l as [|[k hm] l IH]; cbn [map]; [constructor|].
  cbn [map snd] in Hs. apply StronglySorted_inv in Hs as [Hs Hall].
  constructor; [now apply IH|].
  apply List.Forall_forall. intros [k' t'] Hin.
  apply In_bind_entry in Hin as [hm' [Hin ->]].
  unfold chronological, bind_entry. cbn [snd]. apply dt_leb_at_date.
  rewrite List.Forall_forall in Hall. apply Hall. apply in_map_iff.
  exists (k', hm'). split; [reflexivity|assumption].
Qed.

(** When every bound time is after [now], only the names are filtered. *)
Lemma upcoming_of_all_later now times :
  Forall (fun e => dt_ltb now (snd e) = true) times ->
  upcoming_of now times = List.filter (fun e => listed (fst e)) times.
Proof.
  unfold upcoming_of. induction 1 as [|e l He Hall IH]; [reflexivity|].
  cbn [List.filter]. rewrite He, andb_true_r, IH. reflexivity.
Qed.

(** ** Running a resolution *)

Lemma bind_and_queue_decoded now tomorrow sel items tods w :
  sel_times sel = PDict items ->
  decode_timings items = Some tods ->
  1000 <= year now -> 1000 <= year tomorrow ->
  let date := if ISHA_PASSED sel then tomorrow else now in
  let times := map (bind_entry date) tods in
  bind_and_queue now tomorrow sel w =
    Ret (ISHA_PASSED sel, store_timings (sel_api_res sel) (sel_index sel) times)
        (set_UPCOMING_PRAYERS (UPCOMING_PRAYERS w ++ upcoming_of now times) w).
Proof.
  intros Hsel Hdec Hy Hy'. cbv zeta. unfold bind_and_queue. rewrite Hsel.
  cbn [py_items]. monad_simpl.
  assert (Hd : 1000 <= year (if ISHA_PASSED sel then tomorrow else now))
    by (destruct (ISHA_PASSED sel); assumption).
  rewrite (bind_times_decoded _ _ _ Hd Hdec). reflexivity.
Qed.

Lemma resolve_run now now' api_res tomorrow today isha_time w :
  add_one_day now = Ok tomorrow ->
  todays_isha now api_res = Ok (today, isha_time) ->
  get_main_layout_and_tomorrow_prayers now now' api_res w =
    match select_times now now' tomorrow isha_time api_res today w with
    | Ret sel w' => bind_and_queue now tomorrow sel w'
    | Exc e w' => Exc e w'
    end.
Proof.
  intros Ht Hi. unfold get_main_layout_and_tomorrow_prayers.
  rewrite Ht, Hi. reflexivity.
Qed.

Lemma add_one_day_next now tomorrow : add_one_day now = Ok tomorrow -> tomorrow = next_day now.
Proof. unfold add_one_day. destruct (9999 <? _); [discriminate|]. now intros [= <-]. Qed.

(** ** Writing the bound times into the schedule *)

Lemma dict_get_set_eq {A : Type} k (v : A) d : dict_get k (dict_set k v d) = Some v.
Proof.
  induction d as [|[k' v'] d IH]; cbn [dict_set dict_get].
  - now rewrite String.eqb_refl.
  - destruct (String.eqb_spec k k') as [->|Hne]; cbn [dict_get].
    + now rewrite String.eqb_refl.
    + destruct (String.eqb_spec k k'); [contradiction|exact IH].
Qed.

Lemma dict_get_set_ne {A : Type} k k' (v : A) d :
  k <> k' -> dict_get k (dict_set k' v d) = dict_get k d.
Proof.
  intros Hne. induction d as [|[k0 v0] d IH]; cbn [dict_set dict_get].
  - destruct (String.eqb_spec k k'); [contradiction|reflexivity].
  - destruct (String.eqb_spec k' k0) as [->|Hne']; cbn [dict_get].
    + destruct (String.eqb_spec k k0); [contradiction|reflexivity].
    + destruct (String.eqb_spec k k0); [reflexivity|exact IH].
Qed.

Lemma timings_of_inv api_res i tm :
  timings_of api_res i = Ok tm ->
  exists top days entry,
    api_res = PDict top /\ dict_get "data" top = Some (PList days) /\
    py_index days i = Some (PDict entry) /\ dict_get "timings" entry = Some tm.
Proof.
  unfold timings_of. destruct api_res as [| | | | | |top|]; try discriminate.
  cbn [getitem_str rbind]. destruct (dict_get "data" top) as [dv|] eqn:Ed; [|discriminate].
  cbn [rbind]. destruct dv as [| | | |s|days| |]; try discriminate.
  - cbn [getitem_int]. destruct (py_index _ i); discriminate.
  - cbn [getitem_int]. destruct (py_index days i) as [ev|] eqn:Ei; [|discriminate].
    cbn [rbind]. destruct ev as [| | | | | |entry|]; try discriminate.
    cbn [getitem_str]. destruct (dict_get "timings" entry) as [x|] eqn:Et; [|discriminate].
    intros [= <-]. now exists top, days, entry.
Qed.

Lemma store_timings_frame api_res i tm times :
  0 <= i -> timings_of api_res i = Ok tm ->
  timings_of (store_timings api_res i times) i
    = Ok (PDict (map (fun kt => (fst kt, PDateTime (snd kt))) times)) /\
  same_but_timings i api_res (store_timings api_res i times).
Proof.
  intros Hi Htm.
  destruct (timings_of_inv _ _ _ Htm) as (top & days & entry & -> & Hd & He & Ht).
  unfold store_timings. rewrite Hd, He.
  unfold py_index in He. unfold py_position.
  destruct (Z.leb_spec 0 i) as [_|]; [|lia].
  assert (Hlt : (Z.to_nat i < List.length days)%nat) by (eapply lookup_lt_Some; eassumption).
  split; [|split; [|split]].
  - unfold timings_of. cbn [getitem_str rbind]. rewrite dict_get_set_eq.
    cbn [rbind getitem_int]. unfold py_index. destruct (Z.leb_spec 0 i) as [_|]; [|lia].
    rewrite list_lookup_insert_eq by assumption. cbn [rbind getitem_str].
    now rewrite dict_get_set_eq.
  - intros k Hk. cbn [getitem_str]. now rewrite dict_get_set_ne.
  - intros j Hj Hji. unfold day_entry. cbn [getitem_str rbind].
    rewrite dict_get_set_eq, Hd. cbn [rbind getitem_int]. unfold py_index.
    destruct (Z.leb_spec 0 j) as [_|]; [|lia].
    rewrite list_lookup_insert_ne by lia. reflexivity.
  - intros k Hk. unfold day_entry. cbn [getitem_str rbind].
    rewrite dict_get_set_eq, Hd. cbn [rbind getitem_int]. unfold py_index.
    destruct (Z.leb_spec 0 i) as [_|]; [|lia].
    rewrite list_lookup_insert_eq by assumption. rewrite He. cbn [rbind getitem_str].
    now rewrite dict_get_set_ne.
Qed.

(** Not past Isha, the resolution keeps today's mapping and queues its listed
    prayers that are still to come. *)
Lemma resolve_today_run now now' api_res w tomorrow items isha_time tods :
  add_one_day now = Ok tomorrow ->
  todays_isha now api_res = Ok (PDict items, isha_time) ->
  decode_timings items = Some tods ->
  dt_ltb isha_time now' = false ->
  get_main_layout_and_tomorrow_prayers now now' api_res w =
    Ret (false, store_timings api_res (day now - 1) (map (bind_entry now) tods))
        (set_UPCOMING_PRAYERS
           (UPCOMING_PRAYERS w ++ upcoming_of now (map (bind_entry now) tods)) w).
Proof.
  intros Ht Hi Hdec Hcmp.
  destruct (todays_isha_inv _ _ _ _ Hi) as (Hy & _ & _ & _).
  pose proof (year_next_day now) as Hy'.
  rewrite <- (add_one_day_next _ _ Ht) in Hy'.
  rewrite (resolve_run _ _ _ _ _ _ _ Ht Hi). unfold select_times. rewrite Hcmp.
  monad_simpl. cbn [fst snd].
  now rewrite (bind_and_queue_decoded now tomorrow
                 (mk_selection false api_res (day now - 1) (PDict items))
                 items tods w eq_refl Hdec Hy ltac:(lia)).
Qed.

(** When the clock read at line 205 is not after today's Isha, the
    resolution returns with the flag unset and leaves everything but the
    queue as it was.  The queue read afterwards is the old queue followed by
    the listed prayers (the five furood and Sunrise) of today's mapping whose
    time, bound to today's date, is after [now]: all dated today, exactly
    those, in the order of the mapping, which is chronological when the
    mapping lists the times of day of the listed prayers in ascending order.
    Today's timings read from the returned schedule are the bound times. *)
Lemma resolve_before_isha now now' api_res w tomorrow items isha_time tods :
  valid_datetime now = true ->
  add_one_day now = Ok tomorrow ->
  todays_isha now api_res = Ok (PDict items, isha_time) ->
  decode_timings items = Some tods ->
  dt_ltb isha_time now' = false ->
  let times := map (bind_entry now) tods in
  let entries := upcoming_of now times in
  exists api_res' w',
    get_main_layout_and_tomorrow_prayers now now' api_res w = Ret (false, api_res') w' /\
    UPCOMING_PRAYERS w' = UPCOMING_PRAYERS w ++ entries /\
    user_settings w' = user_settings w /\ data_dir w' = data_dir w /\
    trace w' = trace w /\
    timings_of api_res' (day now - 1)
      = Ok (PDict (map (fun kt => (fst kt, PDateTime (snd kt))) times)) /\
    Forall (fun e => dated now (snd e)) entries /\
    (forall prayer time,
       In (prayer, time) entries <->
       listed prayer = true /\
       (exists hm, In (prayer, hm) tods /\ time = at_date now hm) /\
       dt_ltb now time = true) /\
    entries = List.filter (fun e => dt_ltb now (snd e))
                (map (bind_entry now) (List.filter (fun e => listed (fst e)) tods)) /\
    (Sorted tod_le (map snd (List.filter (fun e => listed (fst e)) tods)) ->
     StronglySorted chronological entries).
Proof.
  intros Hv Ht Hi Hdec Hcmp. cbv zeta.
  assert (Hd : 1 <= day now).
  { unfold valid_datetime in Hv. rewrite !andb_true_iff, !Z.leb_le in Hv. lia. }
  destruct (todays_isha_inv _ _ _ _ Hi) as (_ & Htoday & _ & _).
  destruct (store_timings_frame api_res (day now - 1) _ (map (bind_entry now) tods)
              ltac:(lia) Htoday) as [Hstored _].
  eexists. eexists.
  split; [exact (resolve_today_run _ _ _ w tomorrow items isha_time tods Ht Hi Hdec Hcmp)|].
  cbn [UPCOMING_PRAYERS user_settings data_dir trace set_UPCOMING_PRAYERS].
  split; [reflexivity|]. split; [reflexivity|]. split; [reflexivity|].
  split; [reflexivity|]. split; [exact Hstored|].
  split; [|split; [|split]].
  - apply Forall_dated_filter.
  - intros prayer time. rewrite upcoming_of_In, In_bind_entry. tauto.
  - apply upcoming_of_bind_entry.
  - apply upcoming_of_sorted.
Qed.

(** 10 March 2024 at 13:00: Asr, Maghrib and Isha are still to come. *)
Lemma resolve_before_isha_witness :
  let now := at_2024 3 10 13 0 in
  exists api_res' w',
    get_main_layout_and_tomorrow_prayers now now (sample_month 31) fresh_world
      = Ret (false, api_res') w' /\
    UPCOMING_PRAYERS w' =
      [("Asr", at_2024 3 10 15 28); ("Maghrib", at_2024 3 10 18 1);
       ("Isha", at_2024 3 10 20 0)] /\
    timings_of api_res' 9 =
      Ok (PDict [("Fajr", PDateTime (at_2024 3 10 4 41));
                 ("Sunrise", PDateTime (at_2024 3 10 6 8));
                 ("Dhuhr", PDateTime (at_2024 3 10 12 5));
                 ("Asr", PDateTime (at_2024 3 10 15 28));
                 ("Sunset", PDateTime (at_2024 3 10 18 1));
                 ("Maghrib", PDateTime (at_2024 3 10 18 1));
                 ("Isha", PDateTime (at_2024 3 10 20 0));
                 ("Imsak", PDateTime (at_2024 3 10 4 31));
                 ("Midnight", PDateTime (at_2024 3 10 0 5))]).
Proof.
  cbv zeta.
  destruct (resolve_before_isha (at_2024 3 10 13 0) (at_2024 3 10 13 0)
              (sample_month 31) fresh_world (at_2024 3 11 13 0)
              (sample_items "18:01 (EET)" "20:00 (EET)") (at_2024 3 10 20 0)
              sample_tods eq_refl eq_refl eq_refl eq_refl eq_refl)
    as (api_res' & w' & Hrun & Hqueue & _ & _ & _ & Hstored & _).
  exists api_res', w'. split; [exact Hrun|]. split; [exact Hqueue|exact Hstored].
Defined.

Lemma Sorted_adjacent {A : Type} (R : A -> A -> Prop) pre a b post :
  Sorted R (pre ++ a :: b :: post) -> R a b.
Proof.
  induction pre as [|x pre IH]; cbn [app]; intros H.
  - apply Sorted_inv in H as [_ H]. now apply HdRel_inv in H.
  - apply Sorted_inv in H as [H _]. now apply IH.
Qed.

(** C1 at its failing input: Oslo, 10 June 2024, ten minutes after midnight,
    before an Isha that the schedule lists at 00:20, after Maghrib (22:50).
    The resolution queues the six prayers in the order of the mapping: the
    queue is not ascending, Isha is its last entry, and the entry at its
    front, which the loop shows as the next prayer, is Fajr (02:10), although
    Isha is after [now] and before Fajr. *)
Theorem resolve_before_isha_unsorted :
  let now := at_2024 6 10 0 10 in
  let w := set_UPCOMING_PRAYERS [] summer_due_world in
  exists api_res' w',
    dt_ltb (at_2024 6 10 0 20) now = false /\
    todays_isha now summer_month = Ok (PDict summer_items, at_2024 6 10 0 20) /\
    get_main_layout_and_tomorrow_prayers now now summer_month w
      = Ret (false, api_res') w' /\
    UPCOMING_PRAYERS w' =
      [("Fajr", at_2024 6 10 2 10); ("Sunrise", at_2024 6 10 3 40);
       ("Dhuhr", at_2024 6 10 13 10); ("Asr", at_2024 6 10 17 40);
       ("Maghrib", at_2024 6 10 22 50); ("Isha", at_2024 6 10 0 20)] /\
    ~ Sorted chronological (UPCOMING_PRAYERS w') /\
    peek_next w' = Ret ("Fajr", at_2024 6 10 2 10) w' /\
    dt_ltb now (at_2024 6 10 0 20) = true /\
    dt_ltb (at_2024 6 10 0 20) (at_2024 6 10 2 10) = true.
Proof.
  cbv zeta. eexists. eexists. split; [reflexivity|]. split; [reflexivity|].
  split; [vm_compute; reflexivity|].
  cbn [UPCOMING_PRAYERS]. split; [reflexivity|]. split.
  - intros H.
    apply (Sorted_adjacent chronological
             [("Fajr", at_2024 6 10 2 10); ("Sunrise", at_2024 6 10 3 40);
              ("Dhuhr", at_2024 6 10 13 10); ("Asr", at_2024 6 10 17 40)]
             ("Maghrib", at_2024 6 10 22 50) ("Isha", at_2024 6 10 0 20) []) in H.
    vm_compute in H. discriminate.
  - split; [reflexivity|]. split; reflexivity.
Qed.

Lemma next_day_same_month now :
  month (next_day now) = month now -> day (next_day now) = day now + 1.
Proof.
  unfold next_day.
  destruct (day now <? days_in_month (year now) (month now)); [reflexivity|].
  destruct (Z.ltb_spec (month now) 12); cbn [month day]; lia.
Qed.

(** Past Isha inside a month, the resolution reads the next index and queues
    every listed prayer of that day. *)
Lemma resolve_same_month_run now now' api_res w tomorrow today isha_time items tods :
  add_one_day now = Ok tomorrow ->
  todays_isha now api_res = Ok (today, isha_time) ->
  dt_ltb isha_time now' = true ->
  month tomorrow = month now ->
  timings_of api_res (day now) = Ok (PDict items) ->
  decode_timings items = Some tods ->
  get_main_layout_and_tomorrow_prayers now now' api_res w =
    Ret (true, store_timings api_res (day now) (map (bind_entry tomorrow) tods))
        (set_UPCOMING_PRAYERS
           (UPCOMING_PRAYERS w ++
            List.filter (fun e => listed (fst e)) (map (bind_entry tomorrow) tods)) w).
Proof.
  intros Ht Hi Hcmp Hm Htm Hdec.
  destruct (todays_isha_inv _ _ _ _ Hi) as (Hy & _ & _ & _).
  pose proof (year_next_day now) as Hy'.
  pose proof (add_one_day_next _ _ Ht) as ->.
  pose proof (next_day_same_month now Hm) as Hd.
  rewrite (resolve_run _ _ _ _ _ _ _ Ht Hi). unfold select_times. rewrite Hcmp.
  destruct (Z.ltb_spec (day (next_day now)) (day now)); [lia|].
  rewrite Htm. monad_simpl.
  rewrite (bind_and_queue_decoded now (next_day now)
             (mk_selection true api_res (day now) (PDict items))
             items tods w eq_refl Hdec Hy ltac:(lia)).
  cbn [ISHA_PASSED sel_api_res sel_index]. rewrite upcoming_of_all_later; [reflexivity|].
  apply List.Forall_forall. intros [k t] Hin.
  apply In_bind_entry in Hin as [hm [_ ->]]. apply dt_ltb_next_day. apply dated_at_date.
Qed.

(** C2: when the clock read at line 205 is after today's Isha and tomorrow
    is in the same month, the resolution returns with the flag set and leaves
    everything but the queue as it was.  It reads the timings at the next
    index of the same schedule: the queue read afterwards is the old queue
    followed by every listed prayer of that mapping (Fajr through Isha, and
    Sunrise), each bound to tomorrow's date, and the timings read at that
    index of the returned schedule are the times of the mapping bound to
    tomorrow's date. *)
Theorem resolve_after_isha now now' api_res w tomorrow today isha_time items tods :
  valid_datetime now = true ->
  add_one_day now = Ok tomorrow ->
  todays_isha now api_res = Ok (today, isha_time) ->
  dt_ltb isha_time now' = true ->
  month tomorrow = month now ->
  timings_of api_res (day now) = Ok (PDict items) ->
  decode_timings items = Some tods ->
  let times := map (bind_entry tomorrow) tods in
  let entries := List.filter (fun e => listed (fst e)) times in
  exists api_res' w',
    get_main_layout_and_tomorrow_prayers now now' api_res w = Ret (true, api_res') w' /\
    UPCOMING_PRAYERS w' = UPCOMING_PRAYERS w ++ entries /\
    user_settings w' = user_settings w /\ data_dir w' = data_dir w /\
    trace w' = trace w /\
    timings_of api_res' (day now)
      = Ok (PDict (map (fun kt => (fst kt, PDateTime (snd kt))) times)) /\
    Forall (fun e => dated tomorrow (snd e)) entries /\
    (forall prayer time,
       In (prayer, time) entries <->
       listed prayer = true /\
       exists hm, In (prayer, hm) tods /\ time = at_date tomorrow hm).
Proof.
  intros Hv Ht Hi Hcmp Hm Htm Hdec. cbv zeta.
  assert (Hd : 1 <= day now).
  { unfold valid_datetime in Hv. rewrite !andb_true_iff, !Z.leb_le in Hv. lia. }
  destruct (store_timings_frame api_res (day now) _ (map (bind_entry tomorrow) tods)
              ltac:(lia) Htm) as [Hstored _].
  eexists. eexists.
  split;
    [exact (resolve_same_month_run _ _ _ w _ today isha_time items tods
              Ht Hi Hcmp Hm Htm Hdec)|].
  cbn [UPCOMING_PRAYERS user_settings data_dir trace set_UPCOMING_PRAYERS].
  split; [reflexivity|]. split; [reflexivity|]. split; [reflexivity|].
  split; [reflexivity|]. split; [exact Hstored|]. split.
  - apply Forall_dated_filter.
  - intros prayer time. rewrite List.filter_In, In_bind_entry. cbn [fst]. tauto.
Qed.

(** The scenario of the design: Isha at 20:00, the clock at 20:01. *)
Lemma resolve_after_isha_witness :
  let now := at_2024 3 10 20 1 in
  exists api_res' w',
    get_main_layout_and_tomorrow_prayers now now (sample_month 31) fresh_world
      = Ret (true, api_res') w' /\
    UPCOMING_PRAYERS w' =
      [("Fajr", at_2024 3 11 4 41); ("Sunrise", at_2024 3 11 6 8);
       ("Dhuhr", at_2024 3 11 12 5); ("Asr", at_2024 3 11 15 28);
       ("Maghrib", at_2024 3 11 18 1); ("Isha", at_2024 3 11 20 0)] /\
    Forall (fun e => dated (at_2024 3 11 0 0) (snd e)) (UPCOMING_PRAYERS w') /\
    timings_of api_res' 10 =
      Ok (PDict [("Fajr", PDateTime (at_2024 3 11 4 41));
                 ("Sunrise", PDateTime (at_2024 3 11 6 8));
                 ("Dhuhr", PDateTime (at_2024 3 11 12 5));
                 ("Asr", PDateTime (at_2024 3 11 15 28));
                 ("Sunset", PDateTime (at_2024 3 11 18 1));
                 ("Maghrib", PDateTime (at_2024 3 11 18 1));
                 ("Isha", PDateTime (at_2024 3 11 20 0));
                 ("Imsak", PDateTime (at_2024 3 11 4 31));
                 ("Midnight", PDateTime (at_2024 3 11 0 5))]).
Proof.
  cbv zeta.
  destruct (resolve_after_isha (at_2024 3 10 20 1) (at_2024 3 10 20 1)
              (sample_month 31) fresh_world (at_2024 3 11 20 1)
              (PDict (sample_items "18:01 (EET)" "20:00 (EET)"))
              (at_2024 3 10 20 0)
              (sample_items "18:01 (EET)" "20:00 (EET)") sample_tods
              eq_refl eq_refl eq_refl eq_refl eq_refl eq_refl eq_refl)
    as (api_res' & w' & Hrun & Hqueue & _ & _ & _ & Hstored & Hdated & _).
  exists api_res', w'. split; [exact Hrun|]. split; [exact Hqueue|].
  split; [|exact Hstored]. rewrite Hqueue. exact Hdated.
Defined.

(** ** Frame of a cache look-up *)

Lemma count_events_app p tr1 tr2 :
  count_events p (tr1 ++ tr2) = (count_events p tr1 + count_events p tr2)%nat.
Proof. unfold count_events. now rewrite List.filter_app, List.length_app. Qed.

(** What a call of [fetch_calender_data] may change: it logs its own call
    first, then at most a request and the writing of its own file, which did
    not exist; files that exist keep their content. *)
Lemma fetch_calender_data_frame cit count date w :
  let w1 := final_world (fetch_calender_data cit count date w) in
  UPCOMING_PRAYERS w1 = UPCOMING_PRAYERS w /\
  user_settings w1 = user_settings w /\
  remote w1 = remote w /\
  (exists tr,
     trace w1 = trace w ++ EvCalendar cit count (year date) (month date) :: tr /\
     count_events is_any_calendar_call tr = 0%nat /\
     count_events is_remove tr = 0%nat) /\
  (forall f t, data_dir w !! f = Some t -> data_dir w1 !! f = Some t).
Proof.
  cbv zeta.
  destruct (data_dir w !! json_month_file cit count date) as [text|] eqn:Hf.
  - rewrite (fetch_calender_data_hit _ _ _ _ _ Hf).
    destruct (json_load text); cbn [final_world UPCOMING_PRAYERS user_settings remote
                                    trace data_dir add_event];
      (repeat split; [exists []; repeat split | tauto]).
  - rewrite (fetch_calender_data_miss _ _ _ _ Hf). cbv zeta.
    destruct (remote w _) as [|sc text];
      [|destruct (sc =? 200);
        [destruct (invalid_name w _); [|destruct (json_load text)]|]];
      cbn [final_world UPCOMING_PRAYERS user_settings remote trace data_dir
           add_event set_data_dir]; rewrite <- ?app_assoc; cbn [app];
      (repeat split; [eexists; repeat split | try tauto]).
    all: intros f t Hft; rewrite lookup_insert_ne; [assumption | congruence].
Qed.

(** No call changes which names the file system takes. *)
Lemma fetch_calender_data_names cit count date w :
  invalid_name (final_world (fetch_calender_data cit count date w)) = invalid_name w.
Proof.
  destruct (data_dir w !! json_month_file cit count date) as [text|] eqn:Hf.
  - rewrite (fetch_calender_data_hit _ _ _ _ _ Hf). now destruct (json_load text).
  - rewrite (fetch_calender_data_miss _ _ _ _ Hf). cbv zeta.
    destruct (remote w _) as [|sc text]; [reflexivity|].
    destruct (sc =? 200); [|reflexivity].
    destruct (invalid_name w _); [reflexivity|]. now destruct (json_load text).
Qed.

(** ** The last day of a month *)

Lemma next_month_times_run now tomorrow w :
  let cit := py_format (user_settings w !! "-city-") in
  let count := py_format (user_settings w !! "-country-") in
  let old := json_month_file cit count now in
  next_month_times now tomorrow w =
    match fetch_calender_data cit count tomorrow w with
    | Exc e w1 => Exc e w1
    | Ret api_res w1 =>
        if is_RequestError api_res then Exc SystemExit (location_forgotten w1)
        else match timings_of api_res (day tomorrow - 1) with
             | Raise e => Exc e w1
             | Ok current_times =>
                 match invalid_name w1 old, data_dir w1 !! old with
                 | Some why, _ => Exc (refusal_exn why) w1
                 | None, None => Exc FileNotFoundError w1
                 | None, Some _ =>
                     Ret (mk_selection true api_res (day tomorrow - 1) current_times)
                         (file_removed old w1)
                 end
             end
    end.
Proof.
  cbv zeta. unfold next_month_times. monad_simpl.
  pose proof (fetch_calender_data_frame
                (py_format (user_settings w !! "-city-"))
                (py_format (user_settings w !! "-country-")) tomorrow w) as F.
  cbv zeta in F. destruct F as (_ & Hs & _).
  destruct (fetch_calender_data _ _ tomorrow w) as [api_res w1|e w1]; [|reflexivity].
  cbn [final_world] in Hs.
  destruct (is_RequestError api_res); [reflexivity|].
  destruct (timings_of api_res (day tomorrow - 1)) as [ct|e]; [|reflexivity].
  monad_simpl. rewrite Hs.
  destruct (invalid_name w1 _); [reflexivity|]. monad_simpl.
  destruct (data_dir w1 !! _); reflexivity.
Qed.

Lemma bind_and_queue_frame now tomorrow sel w :
  let w' := final_world (bind_and_queue now tomorrow sel w) in
  trace w' = trace w /\ data_dir w' = data_dir w /\ user_settings w' = user_settings w.
Proof.
  cbv zeta. unfold bind_and_queue. monad_simpl.
  destruct (py_items (sel_times sel)) as [items|e]; [|repeat split].
  destruct (bind_times _ items) as [times|e]; repeat split.
Qed.

Lemma valid_datetime_month d :
  valid_datetime d = true -> 1 <= month d <= 12 /\ 1 <= day d.
Proof. unfold valid_datetime. rewrite !andb_true_iff, !Z.leb_le. lia. Qed.

Lemma next_day_new_month now :
  valid_datetime now = true -> day (next_day now) < day now ->
  (year (next_day now), month (next_day now)) =
    if month now =? 12 then (year now + 1, 1) else (year now, month now + 1).
Proof.
  intros Hv. apply valid_datetime_month in Hv. unfold next_day.
  destruct (day now <? days_in_month (year now) (month now)); cbn [year month day]; [lia|].
  destruct (Z.ltb_spec (month now) 12); cbn [year month day]; intros _;
    destruct (Z.eqb_spec (month now) 12); try reflexivity; lia.
Qed.

Lemma count_events_once p e tr tail :
  p e = true -> count_events p tr = 0%nat -> count_events p tail = 0%nat ->
  count_events p (e :: tr ++ tail) = 1%nat.
Proof.
  intros He Htr Htail. change (e :: tr ++ tail) with ([e] ++ tr ++ tail).
  rewrite !count_events_app, Htr, Htail. unfold count_events. cbn [List.filter].
  now rewrite He.
Qed.

(** Closes the cases of the rollover in which nothing follows the look-up. *)
Ltac no_removal :=
  split; [assumption|]; split; [reflexivity|];
  split; [now apply count_events_once|]; split; [assumption|];
  split; [assumption|]; split; [tauto|]; auto.

(** C3, as the code has it: past today's Isha on the last day of a month,
    the resolution calls [fetch_calender_data] exactly once, for the month of
    tomorrow's date, which is (year, month + 1) before December and
    (year + 1, 1) in December; the file of the month that ends is removed only
    after that call has returned a schedule holding tomorrow's timings, and is
    still there with its content in every other case. *)
Theorem rollover_month_boundary now now' api_res w tomorrow today isha_time :
  valid_datetime now = true ->
  add_one_day now = Ok tomorrow ->
  todays_isha now api_res = Ok (today, isha_time) ->
  dt_ltb isha_time now' = true ->
  day tomorrow < day now ->
  month_rollover now now' tomorrow api_res w.
Proof.
  intros Hv Ht Hi Hcmp Hday. unfold month_rollover. cbv zeta.
  set (cit := py_format (user_settings w !! "-city-")).
  set (count := py_format (user_settings w !! "-country-")).
  set (old := json_month_file cit count now).
  pose proof (add_one_day_next _ _ Ht) as Hn.
  assert (Hym : (year tomorrow, month tomorrow) =
                if month now =? 12 then (year now + 1, 1) else (year now, month now + 1)).
  { subst tomorrow. apply next_day_new_month; assumption. }
  rewrite (resolve_run _ _ _ _ _ _ _ Ht Hi). unfold select_times. rewrite Hcmp.
  destruct (Z.ltb_spec (day tomorrow) (day now)); [|lia].
  rewrite next_month_times_run. cbv zeta. fold cit count old.
  destruct (fetch_calender_data_frame cit count tomorrow w) as (_ & _ & _ & Htr & Hfiles).
  destruct Htr as (tr & Htr & Hcal & Hrm).
  destruct (fetch_calender_data cit count tomorrow w) as [api_res' w1|e w1];
    cbn [final_world] in *.
  - destruct (is_RequestError api_res') eqn:Ereq.
    { exists tr, [EvSettingsDelete "-city-"; EvSettingsDelete "-country-"].
      cbn [final_world]. split; [assumption|]. split.
      { unfold location_forgotten. cbn [trace add_event set_user_settings].
        now rewrite <- app_assoc. }
      split; [now apply count_events_once|]. split; [assumption|].
      split; [assumption|]. split; [tauto|].
      intros t Hold _. unfold location_forgotten.
      cbn [data_dir add_event set_user_settings]. auto. }
    destruct (timings_of api_res' (day tomorrow - 1)) as [ct|e] eqn:Etm.
    2:{ exists tr, []. cbn [final_world]. rewrite app_nil_r. no_removal. }
    destruct (invalid_name w1 old).
    { exists tr, []. cbn [final_world]. rewrite app_nil_r. no_removal. }
    destruct (data_dir w1 !! old) as [t0|] eqn:Eold.
    2:{ exists tr, []. cbn [final_world]. rewrite app_nil_r. no_removal. }
    exists tr, [EvRemove old].
    destruct (bind_and_queue_frame now tomorrow
                (mk_selection true api_res' (day tomorrow - 1) ct)
                (file_removed old w1)) as (Hbt & _ & _).
    split; [assumption|]. split; [rewrite Hbt; reflexivity|].
    split; [now apply count_events_once|]. split; [assumption|].
    split; [assumption|]. split.
    { right. right. split; [reflexivity|]. now exists api_res', w1, ct. }
    intros t _ Hne. now contradict Hne.
  - exists tr, []. rewrite app_nil_r. no_removal.
Qed.

Lemma rollover_month_boundary_witness :
  month_rollover (at_2024 3 31 21 0) (at_2024 3 31 21 0) (at_2024 4 1 21 0)
    (sample_month 31) march_cached_world.
Proof.
  apply (rollover_month_boundary (at_2024 3 31 21 0) (at_2024 3 31 21 0)
           (sample_month 31) march_cached_world (at_2024 4 1 21 0)
           (PDict (sample_items "18:01 (EET)" "20:00 (EET)")) (at_2024 3 31 20 0)
           eq_refl eq_refl eq_refl eq_refl eq_refl).
Defined.

(** C3, as stated, fails in December: on 31 December 2024 after Isha the
    month looked up is (2025, 1); no call is made for (2024, 13). *)
Lemma december_rollover_fetches_january :
  let now := at_2024 12 31 21 0 in
  let o := get_main_layout_and_tomorrow_prayers now now (sample_month 31)
             december_cached_world in
  count_events (is_calendar_call (year now) (month now + 1)) (trace (final_world o))
    = 0%nat /\
  count_events (is_calendar_call (year now + 1) 1) (trace (final_world o)) = 1%nat /\
  trace (final_world o) =
    [EvCalendar "Cairo" "Egypt" 2025 1;
     EvRequest (API_ENDPOINT +:+ "?city=Cairo&country=Egypt&month=1&year=2025");
     EvWrite "2025-1-Cairo-Egypt.json"; EvRemove "2024-12-Cairo-Egypt.json"].
Proof. cbv zeta. repeat split; vm_compute; reflexivity. Qed.

(** ** A failed look-up of the next month *)

Section next_month_failure.
Variables (now now' tomorrow isha_time : datetime) (api_res today : pyval) (w : world).

Let cit := py_format (user_settings w !! "-city-").
Let count := py_format (user_settings w !! "-country-").
Let asked : world :=
  add_event (EvRequest (calendar_url cit count tomorrow))
    (add_event (EvCalendar cit count (year tomorrow) (month tomorrow)) w).

Hypothesis Htomorrow : add_one_day now = Ok tomorrow.
Hypothesis Hisha : todays_isha now api_res = Ok (today, isha_time).
Hypothesis Hpassed : dt_ltb isha_time now' = true.
Hypothesis Hlast : day tomorrow < day now.
Hypothesis Hmiss : data_dir w !! json_month_file cit count tomorrow = None.

(** The service cannot be reached: lines 210-213 forget the location and
    leave the session. *)
Lemma rollover_request_error :
  remote w (calendar_url cit count tomorrow) = ConnectionFailed ->
  get_main_layout_and_tomorrow_prayers now now' api_res w
    = Exc SystemExit (location_forgotten asked).
Proof.
  intros Hweb.
  rewrite (resolve_run _ _ _ _ _ _ _ Htomorrow Hisha). unfold select_times.
  rewrite Hpassed. destruct (Z.ltb_spec (day tomorrow) (day now)); [|lia].
  rewrite next_month_times_run. cbv zeta. fold cit count.
  rewrite (fetch_calender_data_miss _ _ _ _ Hmiss). cbv zeta. rewrite Hweb.
  reflexivity.
Qed.

(** The service answers with another status than 200: [fetch_calender_data]
    returns [None], which is not ["RequestError"], and line 215 subscripts
    it.  The location is kept. *)
Lemma rollover_lookup_failure status_code text :
  remote w (calendar_url cit count tomorrow) = Response status_code text ->
  status_code <> 200 ->
  get_main_layout_and_tomorrow_prayers now now' api_res w = Exc TypeError asked.
Proof.
  intros Hweb Hsc.
  rewrite (resolve_run _ _ _ _ _ _ _ Htomorrow Hisha). unfold select_times.
  rewrite Hpassed. destruct (Z.ltb_spec (day tomorrow) (day now)); [|lia].
  rewrite next_month_times_run. cbv zeta. fold cit count.
  rewrite (fetch_calender_data_miss _ _ _ _ Hmiss). cbv zeta. rewrite Hweb.
  destruct (Z.eqb_spec status_code 200); [contradiction|]. reflexivity.
Qed.
End next_month_failure.

(** C4 at its failing input: on 31 March 2024 after Isha, with a service
    that answers 404 for April, the rollover ends in [TypeError]; the city and
    the country are still in the settings and the session was not left through
    [sys.exit]. *)
Theorem rollover_lookup_failure_keeps_location :
  let now := at_2024 3 31 21 0 in
  let o := get_main_layout_and_tomorrow_prayers now now (sample_month 31)
             refused_world in
  o = Exc TypeError
        (add_event (EvRequest (calendar_url "Cairo" "Egypt" (at_2024 4 1 21 0)))
           (add_event (EvCalendar "Cairo" "Egypt" 2024 4) refused_world)) /\
  user_settings (final_world o) !! "-city-" = Some (SStr "Cairo") /\
  user_settings (final_world o) !! "-country-" = Some (SStr "Egypt").
Proof.
  cbv zeta.
  rewrite (rollover_lookup_failure (at_2024 3 31 21 0) (at_2024 3 31 21 0)
             (at_2024 4 1 21 0) (at_2024 3 31 20 0) (sample_month 31)
             (PDict (sample_items "18:01 (EET)" "20:00 (EET)")) refused_world
             eq_refl eq_refl eq_refl eq_refl eq_refl 404 (NotJson "Not Found")
             eq_refl ltac:(discriminate)).
  repeat split.
Qed.

(** The sibling case the code does handle: with a service that cannot be
    reached the session is left and the location is forgotten. *)
Lemma rollover_request_error_forgets_location :
  let now := at_2024 3 31 21 0 in
  let o := get_main_layout_and_tomorrow_prayers now now (sample_month 31)
             offline_world in
  (exists w', o = Exc SystemExit w') /\
  user_settings (final_world o) !! "-city-" = None /\
  user_settings (final_world o) !! "-country-" = None /\
  data_dir (final_world o) !! "2024-3-Cairo-Egypt.json" = Some (Json (sample_month 31)).
Proof.
  cbv zeta.
  rewrite (rollover_request_error (at_2024 3 31 21 0) (at_2024 3 31 21 0)
             (at_2024 4 1 21 0) (at_2024 3 31 20 0) (sample_month 31)
             (PDict (sample_items "18:01 (EET)" "20:00 (EET)")) offline_world
             eq_refl eq_refl eq_refl eq_refl eq_refl eq_refl).
  split; [eexists; reflexivity|]. repeat split.
Qed.

(** ** The schedule a resolution returns *)

Lemma bind_and_queue_inv now tomorrow sel w passed api_res' w' :
  bind_and_queue now tomorrow sel w = Ret (passed, api_res') w' ->
  exists items times,
    sel_times sel = PDict items /\
    bind_times (if ISHA_PASSED sel then tomorrow else now) items = Ok times /\
    passed = ISHA_PASSED sel /\
    api_res' = store_timings (sel_api_res sel) (sel_index sel) times /\
    w' = set_UPCOMING_PRAYERS (UPCOMING_PRAYERS w ++ upcoming_of now times) w.
Proof.
  unfold bind_and_queue. monad_simpl.
  destruct (sel_times sel) as [| | | | | |items|]; try discriminate.
  cbn [py_items].
  destruct (bind_times _ items) as [times|e] eqn:Eb; [|discriminate].
  intros [= <- <- <-]. now exists items, times.
Qed.

Lemma select_times_inv now now' isha_time api_res today w sel w1 :
  1 <= day now ->
  timings_of api_res (day now - 1) = Ok today ->
  select_times now now' (next_day now) isha_time api_res today w = Ret sel w1 ->
  let cit := py_format (user_settings w !! "-city-") in
  let count := py_format (user_settings w !! "-country-") in
  let old := json_month_file cit count now in
  0 <= sel_index sel /\
  timings_of (sel_api_res sel) (sel_index sel) = Ok (sel_times sel) /\
  if ISHA_PASSED sel && (day (next_day now) <? day now) then
    exists w0 t0,
      fetch_calender_data cit count (next_day now) w = Ret (sel_api_res sel) w0 /\
      data_dir w0 !! old = Some t0 /\ w1 = file_removed old w0
  else sel_api_res sel = api_res /\ w1 = w.
Proof.
  intros Hd Htoday. cbv zeta. unfold select_times.
  assert (Hd' : 1 <= day (next_day now)).
  { unfold next_day.
    destruct (day now <? days_in_month (year now) (month now));
      [|destruct (month now <? 12)]; cbn [day]; lia. }
  destruct (dt_ltb isha_time now').
  - destruct (Z.ltb_spec (day (next_day now)) (day now)) as [Hlt|Hge].
    + rewrite next_month_times_run. cbv zeta.
      destruct (fetch_calender_data _ _ (next_day now) w) as [v w0|e w0]; [|discriminate].
      destruct (is_RequestError v); [discriminate|].
      destruct (timings_of v (day (next_day now) - 1)) as [ct|e] eqn:Et; [|discriminate].
      destruct (invalid_name w0 _); [discriminate|].
      destruct (data_dir w0 !! _) as [t0|] eqn:Eo; [|discriminate].
      intros [= <- <-]. cbn [ISHA_PASSED sel_api_res sel_index sel_times andb].
      destruct (Z.ltb_spec (day (next_day now)) (day now)); [|lia].
      split; [lia|]. split; [assumption|]. now exists w0, t0.
    + monad_simpl. destruct (timings_of api_res (day now)) as [ct|e] eqn:Et; [|discriminate].
      intros [= <- <-]. cbn [ISHA_PASSED sel_api_res sel_index sel_times andb].
      destruct (Z.ltb_spec (day (next_day now)) (day now)); [lia|].
      split; [lia|]. split; [assumption|]. split; reflexivity.
  - intros [= <- <-]. cbn [ISHA_PASSED sel_api_res sel_index sel_times andb].
    split; [lia|]. split; [assumption|]. split; reflexivity.
Qed.




(** ** A turn of the polling loop *)

Lemma announce_run fard w :
  announce fard w = Ret tt (announced fard w) /\
  UPCOMING_PRAYERS (announced fard w) = UPCOMING_PRAYERS w /\
  user_settings (announced fard w) = user_settings w /\
  data_dir (announced fard w) = data_dir w /\
  remote (announced fard w) = remote w.
Proof.
  unfold announced, announce. destruct (negb (String.eqb (fst fard) "Sunrise")).
  - monad_simpl. destruct (py_truth (user_settings w !! "-mute-athan-")); repeat split.
  - repeat split.
Qed.

Lemma announce_names fard w : invalid_name (announced fard w) = invalid_name w.
Proof.
  unfold announced, announce. destruct (negb (String.eqb (fst fard) "Sunrise")).
  - monad_simpl. now destruct (py_truth (user_settings w !! "-mute-athan-")).
  - reflexivity.
Qed.

Lemma filter_listed_bind_entry date tods :
  List.filter (fun e => listed (fst e)) (map (bind_entry date) tods) =
  map (bind_entry date) (List.filter (fun e => listed (fst e)) tods).
Proof.
  induction tods as [|[k hm] tods IH]; [reflexivity|].
  cbn [map List.filter bind_entry fst]. destruct (listed k); cbn [map]; now rewrite IH.
Qed.


Lemma fetch_calender_data_gives cit count date api w :
  cache_gives w cit count date api ->
  exists w1,
    fetch_calender_data cit count date w = Ret api w1 /\
    UPCOMING_PRAYERS w1 = UPCOMING_PRAYERS w /\
    user_settings w1 = user_settings w /\
    (forall f t, data_dir w !! f = Some t -> is_Some (data_dir w1 !! f)).
Proof.
  intros [Hhit | (Hmiss & Hweb & Hname)].
  - rewrite (fetch_calender_data_hit _ _ _ _ _ Hhit). cbn [json_load].
    eexists. split; [reflexivity|]. cbn [UPCOMING_PRAYERS user_settings data_dir add_event].
    repeat split. eauto.
  - rewrite (fetch_calender_data_miss _ _ _ _ Hmiss). cbv zeta. rewrite Hweb, Hname.
    cbn [Z.eqb Pos.eqb json_load]. eexists. split; [reflexivity|].
    cbn [UPCOMING_PRAYERS user_settings data_dir add_event set_data_dir].
    repeat split. intros f t Hf.
    destruct (decide (json_month_file cit count date = f)) as [->|Hne].
    + rewrite lookup_insert_eq. eauto.
    + rewrite lookup_insert_ne by assumption. eauto.
Qed.

(** Past Isha on the last day of a month, with a look-up of the next month
    that yields a schedule and the file of the ending month in place, the
    resolution queues every listed prayer of the first day of that schedule. *)
Lemma resolve_new_month_run now now' api_res w tomorrow today isha_time api_next
    items tods t0 :
  let cit := py_format (user_settings w !! "-city-") in
  let count := py_format (user_settings w !! "-country-") in
  add_one_day now = Ok tomorrow ->
  todays_isha now api_res = Ok (today, isha_time) ->
  dt_ltb isha_time now' = true ->
  day tomorrow < day now ->
  cache_gives w cit count tomorrow api_next ->
  data_dir w !! json_month_file cit count now = Some t0 ->
  invalid_name w (json_month_file cit count now) = None ->
  timings_of api_next (day tomorrow - 1) = Ok (PDict items) ->
  decode_timings items = Some tods ->
  exists w',
    get_main_layout_and_tomorrow_prayers now now' api_res w =
      Ret (true, store_timings api_next (day tomorrow - 1)
                   (map (bind_entry tomorrow) tods)) w' /\
    UPCOMING_PRAYERS w' =
      UPCOMING_PRAYERS w ++
      List.filter (fun e => listed (fst e)) (map (bind_entry tomorrow) tods).
Proof.
  cbv zeta. intros Ht Hi Hcmp Hday Hgives Hold Hname Htm Hdec.
  destruct (todays_isha_inv _ _ _ _ Hi) as (Hy & _ & _ & _).
  pose proof (year_next_day now) as Hy'.
  pose proof (add_one_day_next _ _ Ht) as Hn. rewrite <- Hn in Hy'.
  rewrite (resolve_run _ _ _ _ _ _ _ Ht Hi). unfold select_times. rewrite Hcmp.
  destruct (Z.ltb_spec (day tomorrow) (day now)); [|lia].
  rewrite next_month_times_run. cbv zeta.
  pose proof (fetch_calender_data_names
                (py_format (user_settings w !! "-city-"))
                (py_format (user_settings w !! "-country-")) tomorrow w) as Hnames.
  destruct (fetch_calender_data_gives _ _ _ _ _ Hgives) as (w1 & E & Hq & _ & Hfiles).
  rewrite E in *. cbn [final_world] in Hnames.
  destruct (timings_of_inv _ _ _ Htm) as (top & _ & _ & -> & _). cbn [is_RequestError].
  rewrite Htm, Hnames, Hname. destruct (Hfiles _ _ Hold) as [t1 ->].
  rewrite (bind_and_queue_decoded now tomorrow
             (mk_selection true (PDict top) (day tomorrow - 1) (PDict items))
             items tods _ eq_refl Hdec Hy ltac:(lia)).
  cbn [ISHA_PASSED sel_api_res sel_index]. eexists. split; [reflexivity|].
  cbn [UPCOMING_PRAYERS set_UPCOMING_PRAYERS file_removed add_event set_data_dir].
  rewrite Hq. f_equal. apply upcoming_of_all_later.
  apply List.Forall_forall. intros [k t] Hin.
  apply In_bind_entry in Hin as [hm [_ ->]]. subst tomorrow.
  apply dt_ltb_next_day. apply dated_at_date.
Qed.

(** A turn that pops the last entry hands the cached month to the rollover
    and then reads the front of the queue. *)
Lemma tick_rollover_run clock clock1 clock2 data w fard api_res :
  let now := replace_microsecond_0 clock in
  let cit := py_format (user_settings w !! "-city-") in
  let count := py_format (user_settings w !! "-country-") in
  UPCOMING_PRAYERS w = [fard] ->
  dt_ltb now (snd fard) = false ->
  data_dir w !! json_month_file cit count now = Some (Json api_res) ->
  display_main_window_tick clock clock1 clock2 data w =
    match get_main_layout_and_tomorrow_prayers clock1 clock2 api_res
            (add_event (EvCalendar cit count (year now) (month now))
               (announced fard (set_UPCOMING_PRAYERS [] w))) with
    | Ret new_data w' =>
        match UPCOMING_PRAYERS w' with
        | next :: _ => Ret (snd new_data, next) w'
        | [] => Exc IndexError w'
        end
    | Exc e w' => Exc e w'
    end.
Proof.
  cbv zeta. intros Hq Hdue Hfile.
  set (now := replace_microsecond_0 clock) in *.
  unfold display_main_window_tick. fold now.
  unfold bind at 1. rewrite (pop_if_elapsed_run now w fard [] Hq), Hdue.
  destruct (announce_run fard (set_UPCOMING_PRAYERS [] w)) as (Ha & Hq' & Hs' & Hd' & _).
  set (w1 := announced fard (set_UPCOMING_PRAYERS [] w)) in *.
  cbn [UPCOMING_PRAYERS user_settings data_dir set_UPCOMING_PRAYERS] in Hq', Hs', Hd'.
  unfold bind at 1. unfold bind at 1. rewrite Ha.
  unfold bind at 1. unfold gets at 1. rewrite Hq'. cbn [List.length Nat.eqb].
  unfold user_settings_get_entry. monad_simpl. rewrite Hs'.
  rewrite (fetch_calender_data_hit _ _ _ w1 (Json api_res)) by (rewrite Hd'; exact Hfile).
  cbn [json_load].
  destruct (get_main_layout_and_tomorrow_prayers clock1 clock2 api_res _)
    as [new_data w'|e w']; [|reflexivity].
  unfold peek_next. monad_simpl. destruct (UPCOMING_PRAYERS w'); reflexivity.
Qed.

(** What a turn does with the queue.  A turn of the loop that finds the front
    entry not yet elapsed shows it and changes nothing; a turn that pops an
    entry that is not the last shows the one behind it.  A turn that pops the
    last entry while the clock read by the rollover is past today's Isha
    refills the queue before it is read again: with the listed prayers of
    tomorrow's mapping, in the order of that mapping, each dated tomorrow and
    after the rollover's [now]; the entry shown is the first of them, and it
    is the earliest when the mapping lists them in ascending order.  A turn
    that pops the last entry while the clock read by the rollover is before
    today's Isha refills the queue with the listed prayers of today that are
    still to come, Isha among them. *)
Lemma tick_keeps_queue clock clock1 clock2 data w :
  let now := replace_microsecond_0 clock in
  let cit := py_format (user_settings w !! "-city-") in
  let count := py_format (user_settings w !! "-country-") in
  let turn := display_main_window_tick clock clock1 clock2 data w in
  (forall front rest,
     UPCOMING_PRAYERS w = front :: rest -> dt_ltb now (snd front) = true ->
     turn = Ret (data, front) w) /\
  (forall front next rest,
     UPCOMING_PRAYERS w = front :: next :: rest -> dt_ltb now (snd front) = false ->
     exists w', turn = Ret (data, next) w' /\ UPCOMING_PRAYERS w' = next :: rest) /\
  (forall fard api_res tomorrow today isha_time items tods e rest,
     UPCOMING_PRAYERS w = [fard] -> dt_ltb now (snd fard) = false ->
     data_dir w !! json_month_file cit count now = Some (Json api_res) ->
     add_one_day clock1 = Ok tomorrow ->
     todays_isha clock1 api_res = Ok (today, isha_time) ->
     dt_ltb isha_time clock2 = true ->
     tomorrows_timings w clock1 tomorrow api_res items ->
     decode_timings items = Some tods ->
     List.filter (fun e => listed (fst e)) tods = e :: rest ->
     exists data' w',
       turn = Ret (data', bind_entry tomorrow e) w' /\
       UPCOMING_PRAYERS w' = map (bind_entry tomorrow) (e :: rest) /\
       Forall (fun p => dated tomorrow (snd p) /\ dt_ltb clock1 (snd p) = true)
              (UPCOMING_PRAYERS w') /\
       (Sorted tod_le (map snd (e :: rest)) ->
        Forall (chronological (bind_entry tomorrow e)) (UPCOMING_PRAYERS w'))) /\
  (forall fard api_res tomorrow isha_time items tods hm,
     UPCOMING_PRAYERS w = [fard] -> dt_ltb now (snd fard) = false ->
     data_dir w !! json_month_file cit count now = Some (Json api_res) ->
     add_one_day clock1 = Ok tomorrow ->
     todays_isha clock1 api_res = Ok (PDict items, isha_time) ->
     dt_ltb isha_time clock2 = false ->
     decode_timings items = Some tods ->
     In ("Isha", hm) tods -> dt_ltb clock1 (at_date clock1 hm) = true ->
     exists data' next w',
       turn = Ret (data', next) w' /\
       UPCOMING_PRAYERS w' = upcoming_of clock1 (map (bind_entry clock1) tods) /\
       In ("Isha", at_date clock1 hm) (UPCOMING_PRAYERS w') /\
       Forall (fun p => dated clock1 (snd p) /\ dt_ltb clock1 (snd p) = true)
              (UPCOMING_PRAYERS w')).
Proof.
  cbv zeta. set (now := replace_microsecond_0 clock). split; [|split; [|split]].
  - intros front rest Hq Hlt. unfold display_main_window_tick. fold now.
    unfold bind at 1. rewrite (pop_if_elapsed_run now w front rest Hq), Hlt.
    unfold peek_next. monad_simpl. now rewrite Hq.
  - intros front next rest Hq Hdue. unfold display_main_window_tick. fold now.
    unfold bind at 1. rewrite (pop_if_elapsed_run now w front (next :: rest) Hq), Hdue.
    destruct (announce_run front (set_UPCOMING_PRAYERS (next :: rest) w))
      as (Ha & Hq' & _).
    cbn [UPCOMING_PRAYERS set_UPCOMING_PRAYERS] in Hq'.
    unfold bind at 1. unfold bind at 1. rewrite Ha.
    unfold bind at 1. unfold gets at 1. rewrite Hq'. cbn [List.length Nat.eqb].
    unfold peek_next. monad_simpl. rewrite Hq'. cbn [first]. eauto.
  - intros fard api_res tomorrow today isha_time items tods e rest
           Hq Hdue Hfile Ht Hi Hcmp Htom Hdec Hlisted.
    rewrite (tick_rollover_run clock clock1 clock2 data w fard api_res Hq Hdue Hfile).
    fold now.
    destruct (announce_run fard (set_UPCOMING_PRAYERS [] w)) as (_ & Hq' & Hs' & Hd' & Hr').
    set (w1 := add_event _ (announced fard (set_UPCOMING_PRAYERS [] w))).
    assert (Hw1 : UPCOMING_PRAYERS w1 = [] /\ user_settings w1 = user_settings w /\
                  data_dir w1 = data_dir w /\ remote w1 = remote w /\
                  invalid_name w1 = invalid_name w).
    { subst w1. cbn [UPCOMING_PRAYERS user_settings data_dir remote invalid_name add_event].
      now rewrite Hq', Hs', Hd', Hr', announce_names. }
    destruct Hw1 as (Hq1 & Hs1 & Hd1 & Hr1 & Hn1).
    assert (Hrun : exists data' w',
               get_main_layout_and_tomorrow_prayers clock1 clock2 api_res w1
                 = Ret (true, data') w' /\
               UPCOMING_PRAYERS w' = map (bind_entry tomorrow) (e :: rest)).
    { destruct Htom as [[Hm Htm] | (Hday & api_next & t0 & Hgives & Hold & Hname & Htm)].
      - rewrite (resolve_same_month_run clock1 clock2 api_res w1 tomorrow today
                   isha_time items tods Ht Hi Hcmp Hm Htm Hdec).
        eexists. eexists. split; [reflexivity|].
        cbn [UPCOMING_PRAYERS set_UPCOMING_PRAYERS]. rewrite Hq1. cbn [app].
        now rewrite filter_listed_bind_entry, Hlisted.
      - destruct (resolve_new_month_run clock1 clock2 api_res w1 tomorrow today
                    isha_time api_next items tods t0) as (w' & Hrun & Hq'');
          try assumption.
        + unfold cache_gives. rewrite Hs1, Hd1, Hr1, Hn1. exact Hgives.
        + rewrite Hs1, Hd1. exact Hold.
        + rewrite Hs1, Hn1. exact Hname.
        + eexists. exists w'. split; [exact Hrun|].
          rewrite Hq'', Hq1. cbn [app].
          now rewrite filter_listed_bind_entry, Hlisted. }
    destruct Hrun as (data' & w' & -> & Hqueue).
    exists data', w'. rewrite Hqueue. cbn [map snd].
    split; [reflexivity|]. split; [reflexivity|]. split.
    + apply List.Forall_forall. intros [k t] Hin.
      change (bind_entry tomorrow e :: map (bind_entry tomorrow) rest)
        with (map (bind_entry tomorrow) (e :: rest)) in Hin.
      apply In_bind_entry in Hin as [hm [_ ->]]. cbn [snd]. split.
      * apply dated_at_date.
      * rewrite (add_one_day_next _ _ Ht). apply dt_ltb_next_day, dated_at_date.
    + intros Hs. apply Sorted_StronglySorted in Hs; [|exact tod_le_trans].
      apply StronglySorted_inv in Hs as [_ Hall]. constructor.
      * apply dt_leb_refl.
      * apply List.Forall_forall. intros [k t] Hin.
        apply In_bind_entry in Hin as [hm [Hin ->]].
        unfold chronological, bind_entry. cbn [snd]. apply dt_leb_at_date.
        rewrite List.Forall_forall in Hall. apply Hall. apply in_map_iff.
        exists (k, hm). split; [reflexivity|assumption].
  - intros fard api_res tomorrow isha_time items tods hm
           Hq Hdue Hfile Ht Hi Hcmp Hdec Hisha Hbefore.
    rewrite (tick_rollover_run clock clock1 clock2 data w fard api_res Hq Hdue Hfile).
    fold now.
    destruct (announce_run fard (set_UPCOMING_PRAYERS [] w)) as (_ & Hq' & _).
    rewrite (resolve_today_run clock1 clock2 api_res _ tomorrow items isha_time tods
               Ht Hi Hdec Hcmp).
    cbn [UPCOMING_PRAYERS set_UPCOMING_PRAYERS add_event snd]. rewrite Hq'.
    cbn [UPCOMING_PRAYERS set_UPCOMING_PRAYERS app].
    assert (Hin : In ("Isha", at_date clock1 hm)
                     (upcoming_of clock1 (map (bind_entry clock1) tods))).
    { apply upcoming_of_In. split; [|split; [reflexivity|assumption]].
      apply In_bind_entry. now exists hm. }
    destruct (upcoming_of clock1 (map (bind_entry clock1) tods)) as [|next queue] eqn:E;
      [contradiction|].
    eexists. exists next. eexists. split; [reflexivity|].
    cbn [UPCOMING_PRAYERS set_UPCOMING_PRAYERS]. split; [reflexivity|].
    split; [assumption|]. rewrite <- E.
    apply List.Forall_forall. intros [k t] Hkt.
    apply upcoming_of_In in Hkt as (Hkt & _ & Hlater).
    apply In_bind_entry in Hkt as [hm' [_ ->]]. split; [apply dated_at_date|assumption].
Qed.

(** Four turns: before Fajr; at Fajr with Dhuhr behind it; at Isha inside
    March and on 31 March, with an April that the service still has to
    deliver; and the morning after a night the application slept through. *)
Lemma tick_keeps_queue_witness :
  let later d := mk_datetime 2024 3 d 20 0 0 1 in
  let next_six mo d :=
    [("Fajr", at_2024 mo d 4 41); ("Sunrise", at_2024 mo d 6 8);
     ("Dhuhr", at_2024 mo d 12 5); ("Asr", at_2024 mo d 15 28);
     ("Maghrib", at_2024 mo d 18 1); ("Isha", at_2024 mo d 20 0)] in
  let last d := set_UPCOMING_PRAYERS [("Isha", at_2024 3 d 20 0)] march_cached_world in
  display_main_window_tick (at_2024 3 10 4 40) (at_2024 3 10 4 40) (at_2024 3 10 4 40)
    (sample_month 31) two_prayers_world
    = Ret (sample_month 31, ("Fajr", at_2024 3 10 4 41)) two_prayers_world /\
  (exists w',
     display_main_window_tick (at_2024 3 10 4 41) (at_2024 3 10 4 41)
       (at_2024 3 10 4 41) (sample_month 31) two_prayers_world
       = Ret (sample_month 31, ("Dhuhr", at_2024 3 10 12 5)) w' /\
     UPCOMING_PRAYERS w' = [("Dhuhr", at_2024 3 10 12 5)]) /\
  (exists data' w',
     display_main_window_tick (at_2024 3 10 20 0) (later 10) (later 10)
       (sample_month 31) (last 10)
       = Ret (data', ("Fajr", at_2024 3 11 4 41)) w' /\
     UPCOMING_PRAYERS w' = next_six 3 11) /\
  (exists data' w',
     display_main_window_tick (at_2024 3 31 20 0) (later 31) (later 31)
       (sample_month 31) (last 31)
       = Ret (data', ("Fajr", at_2024 4 1 4 41)) w' /\
     UPCOMING_PRAYERS w' = next_six 4 1) /\
  (exists data' next w',
     display_main_window_tick (at_2024 3 10 10 0) (at_2024 3 10 10 0)
       (at_2024 3 10 10 0) (sample_month 31) (last 9)
       = Ret (data', next) w' /\
     In ("Isha", at_2024 3 10 20 0) (UPCOMING_PRAYERS w')).
Proof.
  cbv zeta. split; [|split; [|split; [|split]]].
  - apply (proj1 (tick_keeps_queue (at_2024 3 10 4 40) (at_2024 3 10 4 40)
                    (at_2024 3 10 4 40) (sample_month 31) two_prayers_world)
             ("Fajr", at_2024 3 10 4 41) [("Dhuhr", at_2024 3 10 12 5)]
             eq_refl eq_refl).
  - apply (proj1 (proj2 (tick_keeps_queue (at_2024 3 10 4 41) (at_2024 3 10 4 41)
                           (at_2024 3 10 4 41) (sample_month 31) two_prayers_world))
             ("Fajr", at_2024 3 10 4 41) ("Dhuhr", at_2024 3 10 12 5) []
             eq_refl eq_refl).
  - destruct (proj1 (proj2 (proj2 (tick_keeps_queue (at_2024 3 10 20 0)
                 (mk_datetime 2024 3 10 20 0 0 1) (mk_datetime 2024 3 10 20 0 0 1)
                 (sample_month 31) isha_due_world)))
               ("Isha", at_2024 3 10 20 0) (sample_month 31)
               (mk_datetime 2024 3 11 20 0 0 1)
               (PDict (sample_items "18:01 (EET)" "20:00 (EET)")) (at_2024 3 10 20 0)
               (sample_items "18:01 (EET)" "20:00 (EET)") sample_tods
               ("Fajr", (4, 41))
               [("Sunrise", (6, 8)); ("Dhuhr", (12, 5)); ("Asr", (15, 28));
                ("Maghrib", (18, 1)); ("Isha", (20, 0))]
               eq_refl eq_refl eq_refl eq_refl eq_refl eq_refl
               (or_introl (conj eq_refl eq_refl)) eq_refl eq_refl)
      as (data' & w' & Hturn & Hqueue & _).
    exists data', w'. split; [exact Hturn | exact Hqueue].
  - destruct (proj1 (proj2 (proj2 (tick_keeps_queue (at_2024 3 31 20 0)
                 (mk_datetime 2024 3 31 20 0 0 1) (mk_datetime 2024 3 31 20 0 0 1)
                 (sample_month 31)
                 (set_UPCOMING_PRAYERS [("Isha", at_2024 3 31 20 0)] march_cached_world))))
               ("Isha", at_2024 3 31 20 0) (sample_month 31)
               (mk_datetime 2024 4 1 20 0 0 1)
               (PDict (sample_items "18:01 (EET)" "20:00 (EET)")) (at_2024 3 31 20 0)
               (sample_items "18:01 (EET)" "20:00 (EET)") sample_tods
               ("Fajr", (4, 41))
               [("Sunrise", (6, 8)); ("Dhuhr", (12, 5)); ("Asr", (15, 28));
                ("Maghrib", (18, 1)); ("Isha", (20, 0))]
               eq_refl eq_refl eq_refl eq_refl eq_refl eq_refl
               (or_intror (conj eq_refl
                  (ex_intro _ (sample_month 30)
                     (ex_intro _ (Json (sample_month 31))
                        (conj (or_intror (conj eq_refl (conj eq_refl eq_refl)))
                              (conj eq_refl (conj eq_refl eq_refl)))))))
               eq_refl eq_refl)
      as (data' & w' & Hturn & Hqueue & _).
    exists data', w'. split; [exact Hturn | exact Hqueue].
  - destruct (proj2 (proj2 (proj2 (tick_keeps_queue (at_2024 3 10 10 0)
                 (at_2024 3 10 10 0) (at_2024 3 10 10 0) (sample_month 31)
                 (set_UPCOMING_PRAYERS [("Isha", at_2024 3 9 20 0)] march_cached_world))))
               ("Isha", at_2024 3 9 20 0) (sample_month 31) (at_2024 3 11 10 0)
               (at_2024 3 10 20 0) (sample_items "18:01 (EET)" "20:00 (EET)")
               sample_tods (20, 0)
               eq_refl eq_refl eq_refl eq_refl eq_refl eq_refl eq_refl
               (or_intror (or_intror (or_intror (or_intror (or_intror
                  (or_intror (or_introl eq_refl)))))))
               eq_refl)
      as (data' & next & w' & Hturn & _ & Hisha & _).
    exists data', next, w'. split; [exact Hturn | exact Hisha].
Defined.

(** C8 at its failing inputs.  Oslo, 10 June 2024 at 22:50: Isha of that day
    (00:20) is the last entry of the queue; the turn pops it and refills the
    queue from tomorrow's mapping, in the order of the mapping, and the entry
    at the front, shown as the next prayer, is Fajr of 11 June (02:10),
    although the queue holds Isha of 11 June (00:20), which is still to come
    and earlier.  Cairo, 10 March 2024 at 20:00:00.000000, the exact time of
    Isha, the last entry of the queue: line 303 pops it ([now >= ]), line 205
    does not find Isha passed ([now > ]), line 255 finds no prayer of the day
    after [now], and line 329 reads an empty queue: the turn ends in
    [IndexError]. *)
Theorem tick_breaks_queue_invariant :
  (let clock := at_2024 6 10 22 50 in
   let later := mk_datetime 2024 6 10 22 50 0 1 in
   exists data' w',
     display_main_window_tick clock later later summer_month summer_due_world
       = Ret (data', ("Fajr", at_2024 6 11 2 10)) w' /\
     UPCOMING_PRAYERS w' =
       [("Fajr", at_2024 6 11 2 10); ("Sunrise", at_2024 6 11 3 40);
        ("Dhuhr", at_2024 6 11 13 10); ("Asr", at_2024 6 11 17 40);
        ("Maghrib", at_2024 6 11 22 50); ("Isha", at_2024 6 11 0 20)] /\
     peek_next w' = Ret ("Fajr", at_2024 6 11 2 10) w' /\
     dt_ltb later (at_2024 6 11 0 20) = true /\
     dt_ltb (at_2024 6 11 0 20) (at_2024 6 11 2 10) = true) /\
  (let clock := at_2024 3 10 20 0 in
   let o := display_main_window_tick clock clock clock (sample_month 31)
              isha_due_world in
   UPCOMING_PRAYERS isha_due_world = [("Isha", at_2024 3 10 20 0)] /\
   (exists w', o = Exc IndexError w') /\
   UPCOMING_PRAYERS (final_world o) = [] /\
   trace (final_world o) =
     [EvNotify "Isha"; EvPlayAthan; EvCalendar "Cairo" "Egypt" 2024 3]).
Proof.
  cbv zeta. split.
  - eexists. eexists. split; [vm_compute; reflexivity|].
    cbn [UPCOMING_PRAYERS]. repeat split.
  - split; [reflexivity|]. split; [eexists; vm_compute; reflexivity|].
    split; vm_compute; reflexivity.
Qed.

(** ** More on the calendar cache *)

Lemma count_events_nil p : count_events p [] = 0%nat.
Proof. reflexivity. Qed.

(** X1: what [fetch_calender_data] never does: it leaves the queue and the
    settings alone, removes nothing, keeps the content of every file that
    exists, and sends at most one request, none when its file exists. *)
Theorem fetch_calender_data_preserves cit count date w :
  let w1 := final_world (fetch_calender_data cit count date w) in
  UPCOMING_PRAYERS w1 = UPCOMING_PRAYERS w /\
  user_settings w1 = user_settings w /\
  (forall f t, data_dir w !! f = Some t -> data_dir w1 !! f = Some t) /\
  exists tr,
    trace w1 = trace w ++ tr /\
    count_events is_remove tr = 0%nat /\
    (count_events is_request tr <= 1)%nat /\
    (is_Some (data_dir w !! json_month_file cit count date) ->
     count_events is_request tr = 0%nat).
Proof.
  cbv zeta.
  destruct (fetch_calender_data_frame cit count date w) as (Hq & Hs & _ & _ & Hf).
  split; [exact Hq|]. split; [exact Hs|]. split; [exact Hf|].
  destruct (data_dir w !! json_month_file cit count date) as [text|] eqn:Hfile.
  - rewrite (fetch_calender_data_hit _ _ _ _ _ Hfile).
    exists [EvCalendar cit count (year date) (month date)].
    destruct (json_load text); cbn [final_world trace add_event]; repeat split;
      cbn; lia.
  - rewrite (fetch_calender_data_miss _ _ _ _ Hfile). cbv zeta.
    destruct (remote w _) as [|sc text];
      [|destruct (sc =? 200);
        [destruct (invalid_name w _); [|destruct (json_load text)]|]];
      cbn [final_world trace add_event set_data_dir]; rewrite <- ?app_assoc;
      cbn [app]; (eexists; split; [reflexivity|]);
      (split; [reflexivity|]); (split; [cbn; lia|]);
      intros [? ?]; discriminate.
Qed.

(** X2: a failed look-up is not remembered: when the month has no file and the
    service cannot be reached or answers another status than 200,
    [fetch_calender_data] returns its mark of failure, writes nothing, and a
    second call asks the service again. *)
Theorem fetch_calender_data_failure_not_cached cit count date w :
  data_dir w !! json_month_file cit count date = None ->
  (remote w (calendar_url cit count date) = ConnectionFailed \/
   exists status_code text,
     remote w (calendar_url cit count date) = Response status_code text /\
     status_code <> 200) ->
  let call := EvCalendar cit count (year date) (month date) in
  let request := EvRequest (calendar_url cit count date) in
  exists mark w1 w2,
    (mark = PStr "RequestError" \/ mark = PNone) /\
    fetch_calender_data cit count date w = Ret mark w1 /\
    data_dir w1 = data_dir w /\
    trace w1 = trace w ++ [call; request] /\
    fetch_calender_data cit count date w1 = Ret mark w2 /\
    data_dir w2 = data_dir w /\
    trace w2 = trace w1 ++ [call; request].
Proof.
  intros Hmiss Hweb. cbv zeta.
  pose proof (fetch_calender_data_miss cit count date w Hmiss) as E1. cbv zeta in E1.
  set (w1 := add_event (EvRequest (calendar_url cit count date))
               (add_event (EvCalendar cit count (year date) (month date)) w)) in *.
  assert (Hmiss1 : data_dir w1 !! json_month_file cit count date = None) by exact Hmiss.
  pose proof (fetch_calender_data_miss cit count date w1 Hmiss1) as E2. cbv zeta in E2.
  change (remote w1) with (remote w) in E2.
  destruct Hweb as [Hweb | (sc & text & Hweb & Hsc)]; rewrite Hweb in E1, E2.
  - exists (PStr "RequestError"), w1. eexists. split; [now left|].
    split; [exact E1|]. split; [reflexivity|]. split.
    { subst w1. cbn [trace add_event]. now rewrite <- app_assoc. }
    split; [exact E2|]. split; [reflexivity|].
    cbn [trace add_event]. now rewrite <- app_assoc.
  - destruct (Z.eqb_spec sc 200); [contradiction|].
    exists PNone, w1. eexists. split; [now right|].
    split; [exact E1|]. split; [reflexivity|]. split.
    { subst w1. cbn [trace add_event]. now rewrite <- app_assoc. }
    split; [exact E2|]. split; [reflexivity|].
    cbn [trace add_event]. now rewrite <- app_assoc.
Qed.

Lemma fetch_calender_data_failure_not_cached_witness :
  exists mark w1 w2,
    (mark = PStr "RequestError" \/ mark = PNone) /\
    fetch_calender_data "Cairo" "Egypt" (at_2024 4 1 0 0) offline_world = Ret mark w1 /\
    data_dir w1 = data_dir offline_world /\
    trace w1 = trace offline_world ++
      [EvCalendar "Cairo" "Egypt" 2024 4;
       EvRequest (calendar_url "Cairo" "Egypt" (at_2024 4 1 0 0))] /\
    fetch_calender_data "Cairo" "Egypt" (at_2024 4 1 0 0) w1 = Ret mark w2 /\
    data_dir w2 = data_dir offline_world /\
    trace w2 = trace w1 ++
      [EvCalendar "Cairo" "Egypt" 2024 4;
       EvRequest (calendar_url "Cairo" "Egypt" (at_2024 4 1 0 0))].
Proof.
  apply (fetch_calender_data_failure_not_cached "Cairo" "Egypt" (at_2024 4 1 0 0)
           offline_world eq_refl (or_introl eq_refl)).
Defined.

(** X3: a 200 answer is written to the cache before it is decoded: when the
    file system takes the name of the file and the answer does not decode,
    the first look-up fails after writing it, and every later look-up of that
    month fails on the file without asking the service. *)
Theorem fetch_calender_data_undecodable_answer cit count date w raw :
  data_dir w !! json_month_file cit count date = None ->
  invalid_name w (json_month_file cit count date) = None ->
  remote w (calendar_url cit count date) = Response 200 (NotJson raw) ->
  exists w1,
    fetch_calender_data cit count date w = Exc JSONDecodeError w1 /\
    data_dir w1 !! json_month_file cit count date = Some (NotJson raw) /\
    fetch_calender_data cit count date w1
      = Exc JSONDecodeError
          (add_event (EvCalendar cit count (year date) (month date)) w1).
Proof.
  intros Hmiss Hname Hweb.
  pose proof (fetch_calender_data_miss cit count date w Hmiss) as E1. cbv zeta in E1.
  rewrite Hweb, Hname in E1. cbn [Z.eqb Pos.eqb json_load] in E1.
  eexists. split; [exact E1|].
  assert (Hfile : forall w0 : world,
             data_dir (add_event (EvWrite (json_month_file cit count date))
               (set_data_dir (<[json_month_file cit count date := NotJson raw]>
                                (data_dir w)) w0))
             !! json_month_file cit count date = Some (NotJson raw)).
  { intros w0. cbn [data_dir add_event set_data_dir]. apply lookup_insert_eq. }
  split; [apply Hfile|].
  now rewrite (fetch_calender_data_hit _ _ _ _ _ (Hfile _)).
Qed.

Lemma fetch_calender_data_undecodable_answer_witness :
  exists w1,
    fetch_calender_data "Cairo" "Egypt" (at_2024 3 10 0 0) undecodable_world
      = Exc JSONDecodeError w1 /\
    data_dir w1 !! "2024-3-Cairo-Egypt.json" = Some (NotJson "<html>") /\
    fetch_calender_data "Cairo" "Egypt" (at_2024 3 10 0 0) w1
      = Exc JSONDecodeError (add_event (EvCalendar "Cairo" "Egypt" 2024 3) w1).
Proof.
  exact (fetch_calender_data_undecodable_answer "Cairo" "Egypt" (at_2024 3 10 0 0)
           undecodable_world "<html>" eq_refl eq_refl eq_refl).
Defined.

(** X19: a month whose file name the file system refuses is never cached: a
    look-up that finds no file and gets a 200 answer raises when it opens the
    file ([FileNotFoundError] when the name leads into a directory that is not
    there, another [OSError] otherwise), after the request and whatever the
    answer holds; nothing is written, and every later look-up asks the service
    again and fails the same way. *)
Theorem fetch_calender_data_refused_name cit count date w text why :
  data_dir w !! json_month_file cit count date = None ->
  invalid_name w (json_month_file cit count date) = Some why ->
  remote w (calendar_url cit count date) = Response 200 text ->
  let call := EvCalendar cit count (year date) (month date) in
  let request := EvRequest (calendar_url cit count date) in
  exists w1 w2,
    fetch_calender_data cit count date w = Exc (refusal_exn why) w1 /\
    data_dir w1 = data_dir w /\
    trace w1 = trace w ++ [call; request] /\
    fetch_calender_data cit count date w1 = Exc (refusal_exn why) w2 /\
    data_dir w2 = data_dir w /\
    trace w2 = trace w1 ++ [call; request].
Proof.
  intros Hmiss Hname Hweb. cbv zeta.
  pose proof (fetch_calender_data_miss cit count date w Hmiss) as E1. cbv zeta in E1.
  rewrite Hweb, Hname in E1. cbn [Z.eqb Pos.eqb] in E1.
  set (w1 := add_event (EvRequest (calendar_url cit count date))
               (add_event (EvCalendar cit count (year date) (month date)) w)) in *.
  assert (Hmiss1 : data_dir w1 !! json_month_file cit count date = None) by exact Hmiss.
  pose proof (fetch_calender_data_miss cit count date w1 Hmiss1) as E2. cbv zeta in E2.
  change (remote w1) with (remote w) in E2.
  change (invalid_name w1) with (invalid_name w) in E2.
  rewrite Hweb, Hname in E2. cbn [Z.eqb Pos.eqb] in E2.
  exists w1. eexists. split; [exact E1|]. split; [reflexivity|]. split.
  { subst w1. cbn [trace add_event]. now rewrite <- app_assoc. }
  split; [exact E2|]. split; [reflexivity|].
  cbn [trace add_event]. now rewrite <- app_assoc.
Qed.

(** A city typed with a path separator: the service answers, the file
    [2024-3-Frankfurt/main-Germany.json] cannot be opened. *)
Lemma fetch_calender_data_refused_name_witness :
  let date := at_2024 3 10 0 0 in
  let call := EvCalendar "Frankfurt/main" "Germany" 2024 3 in
  let request := EvRequest (calendar_url "Frankfurt/main" "Germany" date) in
  exists w1 w2,
    fetch_calender_data "Frankfurt/main" "Germany" date fresh_world
      = Exc FileNotFoundError w1 /\
    data_dir w1 = data_dir fresh_world /\
    trace w1 = trace fresh_world ++ [call; request] /\
    fetch_calender_data "Frankfurt/main" "Germany" date w1 = Exc FileNotFoundError w2 /\
    data_dir w2 = data_dir fresh_world /\
    trace w2 = trace w1 ++ [call; request].
Proof.
  exact (fetch_calender_data_refused_name "Frankfurt/main" "Germany" (at_2024 3 10 0 0)
           fresh_world (Json (sample_month 30)) NoSuchDirectory eq_refl eq_refl eq_refl).
Defined.

Lemma append_assoc (a b c : string) : (a +:+ b) +:+ c = a +:+ (b +:+ c).
Proof.
  induction a as [|x a IH]; [reflexivity|].
  change (String x ((a +:+ b) +:+ c) = String x (a +:+ (b +:+ c))). now f_equal.
Qed.

(** X4: the name of a cache file does not tell the city from the country: a
    hyphen may belong to either.  A month cached for city ["a-b"] and country
    ["c"] has the file name of city ["a"] and country ["b-c"], and is returned
    to a look-up for these without a request. *)
Theorem json_month_file_collision a b c date w v :
  data_dir w !! json_month_file (a +:+ "-" +:+ b) c date = Some (Json v) ->
  json_month_file (a +:+ "-" +:+ b) c date = json_month_file a (b +:+ "-" +:+ c) date /\
  fetch_calender_data a (b +:+ "-" +:+ c) date w
    = Ret v (add_event (EvCalendar a (b +:+ "-" +:+ c) (year date) (month date)) w).
Proof.
  assert (E : json_month_file (a +:+ "-" +:+ b) c date
              = json_month_file a (b +:+ "-" +:+ c) date).
  { unfold json_month_file. now rewrite !append_assoc. }
  intros Hfile. split; [exact E|]. rewrite E in Hfile.
  now rewrite (fetch_calender_data_hit _ _ _ _ _ Hfile).
Qed.

Lemma json_month_file_collision_witness :
  json_month_file "Aix-en-Provence" "France" (at_2024 3 10 0 0)
    = json_month_file "Aix" "en-Provence-France" (at_2024 3 10 0 0) /\
  fetch_calender_data "Aix" "en-Provence-France" (at_2024 3 10 0 0) hyphen_world
    = Ret (sample_month 31)
        (add_event (EvCalendar "Aix" "en-Provence-France" 2024 3) hyphen_world).
Proof.
  exact (json_month_file_collision "Aix" "en-Provence" "France" (at_2024 3 10 0 0)
           hyphen_world (sample_month 31) eq_refl).
Defined.

(** ** More on a resolution *)

Lemma digit_of_bounds c d : digit_of c = Some d -> 0 <= d <= 9.
Proof.
  unfold digit_of.
  destruct (Z.leb_spec 48 (Z.of_nat (nat_of_ascii c))); cbn [andb]; [|discriminate].
  destruct (Z.leb_spec (Z.of_nat (nat_of_ascii c)) 57); [|discriminate].
  intros [= <-]. lia.
Qed.

Lemma parse_minute_bounds s mi : parse_minute s = Some mi -> 0 <= mi <= 59.
Proof.
  unfold parse_minute. destruct s as [|c1 [|c2 rest]]; [discriminate| |].
  - intros H. apply digit_of_bounds in H. lia.
  - destruct (digit_of c1) as [d1|] eqn:E1; [|discriminate].
    apply digit_of_bounds in E1.
    destruct (digit_of c2) as [d2|] eqn:E2.
    + apply digit_of_bounds in E2.
      destruct (Z.leb_spec d1 5); cbn [andb]; [|discriminate].
      destruct (all_space rest); [|discriminate]. intros [= <-]. lia.
    + destruct (all_space (String c2 rest)); [|discriminate]. intros [= <-]. lia.
Qed.

(** A time of day that [strptime] accepts is a time of day. *)
Lemma parse_HM_bounds s h mi :
  parse_HM s = Some (h, mi) -> 0 <= h <= 23 /\ 0 <= mi <= 59.
Proof.
  unfold parse_HM. destruct s as [|c1 [|c2 rest]]; try discriminate.
  destruct (digit_of c1) as [d1|] eqn:E1; [|discriminate].
  apply digit_of_bounds in E1.
  destruct (Ascii.eqb c2 ":").
  - destruct (parse_minute rest) as [m|] eqn:Em; [|discriminate].
    cbn [option_map]. intros [= <- <-]. apply parse_minute_bounds in Em. lia.
  - destruct (digit_of c2) as [d2|] eqn:E2; [|discriminate].
    apply digit_of_bounds in E2. destruct rest as [|c3 rest']; [discriminate|].
    destruct (Ascii.eqb c3 ":"); cbn [andb]; [|discriminate].
    destruct (Z.leb_spec (10 * d1 + d2) 23); [|discriminate].
    destruct (parse_minute rest') as [m|] eqn:Em; [|discriminate].
    cbn [option_map]. intros [= <- <-]. apply parse_minute_bounds in Em. lia.
Qed.

Lemma split_space_cons s : exists tok fields, split_space s = tok :: fields.
Proof.
  induction s as [|c s IH]; cbn [split_space]; [eauto|].
  destruct (Ascii.eqb c " "); [eauto|]. destruct IH as (tok & fields & ->). eauto.
Qed.

(** The loop of lines 226-231 ends without an exception exactly when every
    value of the mapping reads as a time of day. *)
Lemma bind_times_inv date items times :
  bind_times date items = Ok times ->
  exists tods, decode_timings items = Some tods /\ times = map (bind_entry date) tods.
Proof.
  revert times. induction items as [|[k v] items IH]; intros times H.
  - injection H as <-. now exists [].
  - cbn [bind_times] in H. destruct v as [| | | |s| | |]; try discriminate.
    cbn [py_split_space rbind] in H. cbn [decode_timings time_of_day].
    destruct (split_space s) as [|tok fields]; [discriminate|].
    cbn [first rbind] in H. unfold strptime in H.
    destruct (year date <? 1000); [discriminate|].
    destruct (parse_HM tok) as [[h mi]|]; [|discriminate]. cbn [rbind] in H.
    destruct (bind_times date items) as [rest|]; [|discriminate].
    destruct (IH rest eq_refl) as (tods & -> & ->).
    injection H as <-. now exists ((k, (h, mi)) :: tods).
Qed.

Lemma bind_times_undecoded date items :
  decode_timings items = None ->
  exists e, bind_times date items = Raise e /\ (e = ValueError \/ e = AttributeError).
Proof.
  destruct (bind_times date items) as [times|e] eqn:E.
  - apply bind_times_inv in E as (tods & -> & _). discriminate.
  - intros _. exists e. split; [reflexivity|]. revert e E.
    induction items as [|[k v] items IH]; intros e E; [discriminate|].
    cbn [bind_times] in E.
    destruct v as [| | | |s| | |]; cbn [py_split_space rbind] in E;
      try (injection E as <-; now right).
    destruct (split_space_cons s) as (tok & fields & Es). rewrite Es in E.
    cbn [first rbind] in E.
    destruct (strptime tok date) as [t|e'] eqn:Et.
    + cbn [rbind] in E. destruct (bind_times date items) as [rest|e'']; [discriminate|].
      injection E as <-. now apply IH.
    + cbn [rbind] in E. injection E as <-. unfold strptime in Et.
      destruct (year date <? 1000); [injection Et as <-; now left|].
      destruct (parse_HM tok) as [[h mi]|]; [discriminate|]. injection Et as <-. now left.
Qed.

Lemma decode_timings_bounds items tods k hm :
  decode_timings items = Some tods -> In (k, hm) tods ->
  0 <= fst hm <= 23 /\ 0 <= snd hm <= 59.
Proof.
  revert tods. induction items as [|[k' v] items IH]; intros tods H Hin.
  - injection H as <-. contradiction.
  - cbn [decode_timings] in H. destruct (time_of_day v) as [hm'|] eqn:Ev; [|discriminate].
    destruct (decode_timings items) as [rest|]; [|discriminate]. injection H as <-.
    destruct Hin as [[= <- <-] | Hin]; [|now apply (IH rest)].
    destruct v as [| | | |s| | |]; try discriminate. cbn [time_of_day] in Ev.
    destruct (split_space s) as [|tok fields]; [discriminate|].
    destruct hm' as [h mi]. now apply parse_HM_bounds in Ev.
Qed.

(** Only line 213 leaves the session: the look-ups and the parsing raise
    other exceptions. *)
Ltac no_exit :=
  repeat match goal with
         | |- context [match ?x with _ => _ end] => destruct x
         | |- context [if ?x then _ else _] => destruct x
         end;
  try discriminate; intros [= <-]; discriminate.

Lemma getitem_str_no_exit v k e : getitem_str v k = Raise e -> e <> SystemExit.
Proof. unfold getitem_str. no_exit. Qed.

Lemma getitem_int_no_exit v i e : getitem_int v i = Raise e -> e <> SystemExit.
Proof. unfold getitem_int. no_exit. Qed.

Lemma timings_of_no_exit api_res i e : timings_of api_res i = Raise e -> e <> SystemExit.
Proof.
  unfold timings_of.
  destruct (getitem_str api_res "data") as [days|e1] eqn:E1; cbn [rbind];
    [|intros [= <-]; now apply getitem_str_no_exit in E1].
  destruct (getitem_int days i) as [entry|e2] eqn:E2; cbn [rbind];
    [|intros [= <-]; now apply getitem_int_no_exit in E2].
  apply getitem_str_no_exit.
Qed.

Lemma strptime_no_exit tok date e : strptime tok date = Raise e -> e <> SystemExit.
Proof. unfold strptime. no_exit. Qed.

Lemma todays_isha_no_exit now api_res e :
  todays_isha now api_res = Raise e -> e <> SystemExit.
Proof.
  unfold todays_isha.
  destruct (timings_of api_res (day now - 1)) as [ct|e1] eqn:E1; cbn [rbind];
    [|intros [= <-]; now apply timings_of_no_exit in E1].
  destruct (getitem_str ct "Isha") as [isha|e2] eqn:E2; cbn [rbind];
    [|intros [= <-]; now apply getitem_str_no_exit in E2].
  destruct isha; cbn [py_split rbind]; try (intros [= <-]; discriminate).
  destruct (split_ws s); cbn [first rbind]; [intros [= <-]; discriminate|].
  destruct (strptime s0 now) as [t|e3] eqn:E3; cbn [rbind]; [discriminate|].
  intros [= <-]. now apply strptime_no_exit in E3.
Qed.

Lemma bind_times_no_exit date items e : bind_times date items = Raise e -> e <> SystemExit.
Proof.
  induction items as [|[k v] items IH]; [discriminate|]. cbn [bind_times].
  destruct v; cbn [py_split_space rbind]; try (intros [= <-]; discriminate).
  destruct (split_space s); cbn [first rbind]; [intros [= <-]; discriminate|].
  destruct (strptime s0 date) as [t|e3] eqn:E3; cbn [rbind];
    [|intros [= <-]; now apply strptime_no_exit in E3].
  destruct (bind_times date items); [discriminate|]. cbn [rbind]. intros [= <-].
  now apply IH.
Qed.

Lemma fetch_calender_data_no_exit cit count date w e w1 :
  fetch_calender_data cit count date w = Exc e w1 ->
  e = JSONDecodeError \/ e = FileNotFoundError \/ e = OSError.
Proof.
  destruct (data_dir w !! json_month_file cit count date) as [text|] eqn:Hf.
  - rewrite (fetch_calender_data_hit _ _ _ _ _ Hf).
    destruct text; cbn [json_load]; [discriminate|]. intros [= <- _]. now left.
  - rewrite (fetch_calender_data_miss _ _ _ _ Hf). cbv zeta.
    destruct (remote w _) as [|sc text]; [discriminate|].
    destruct (sc =? 200); [|discriminate].
    destruct (invalid_name w _) as [[|]|]; [intros [= <- _]; tauto..|].
    destruct text; cbn [json_load]; [discriminate|]. intros [= <- _]. now left.
Qed.

(** What the choice of the day's timings may change in the world: never the
    queue, and the settings only by the exit of line 213. *)
Lemma select_times_effects now now' tomorrow isha_time api_res today w :
  let o := select_times now now' tomorrow isha_time api_res today w in
  UPCOMING_PRAYERS (final_world o) = UPCOMING_PRAYERS w /\
  match o with
  | Ret _ w' => user_settings w' = user_settings w
  | Exc e w' =>
      (e <> SystemExit -> user_settings w' = user_settings w) /\
      (e = SystemExit ->
       user_settings w' = delete "-country-" (delete "-city-" (user_settings w)))
  end.
Proof.
  cbv zeta. unfold select_times. destruct (dt_ltb isha_time now').
  2:{ cbn. split; reflexivity. }
  destruct (day tomorrow <? day now).
  2:{ monad_simpl. destruct (timings_of api_res (day now)) as [ct|e] eqn:E; cbn.
      - split; reflexivity.
      - split; [reflexivity|]. split; [reflexivity|].
        intros ->. now apply timings_of_no_exit in E. }
  rewrite next_month_times_run. cbv zeta.
  destruct (fetch_calender_data_frame
              (py_format (user_settings w !! "-city-"))
              (py_format (user_settings w !! "-country-")) tomorrow w)
    as (Hq & Hs & _ & _ & _).
  destruct (fetch_calender_data _ _ tomorrow w) as [v w1|e w1] eqn:Ef;
    cbn [final_world] in Hq, Hs.
  - destruct (is_RequestError v).
    + cbn [final_world location_forgotten UPCOMING_PRAYERS user_settings add_event
             set_user_settings]. rewrite Hq, Hs. split; [reflexivity|].
      split; [congruence|reflexivity].
    + destruct (timings_of v (day tomorrow - 1)) as [ct|e] eqn:E.
      * destruct (invalid_name w1 _) as [[|]|].
        1,2: cbn [final_world refusal_exn]; split; [assumption|];
          split; [auto|discriminate].
        destruct (data_dir w1 !! _).
        -- cbn [final_world file_removed UPCOMING_PRAYERS user_settings add_event
                  set_data_dir]. now split.
        -- cbn [final_world]. split; [assumption|]. split; [auto|discriminate].
      * cbn [final_world]. split; [assumption|]. split; [auto|].
        intros ->. now apply timings_of_no_exit in E.
  - apply fetch_calender_data_no_exit in Ef. cbn [final_world].
    split; [assumption|]. split; [auto|]. intros ->. destruct Ef as [|[|]]; discriminate.
Qed.

(** The flag and the index of a selection *)
Lemma select_times_index now now' tomorrow isha_time api_res today w sel w1 :
  select_times now now' tomorrow isha_time api_res today w = Ret sel w1 ->
  ISHA_PASSED sel = dt_ltb isha_time now' /\
  sel_index sel =
    if ISHA_PASSED sel
    then (if day tomorrow <? day now then day tomorrow - 1 else day now)
    else day now - 1.
Proof.
  unfold select_times. destruct (dt_ltb isha_time now').
  - destruct (day tomorrow <? day now) eqn:Elast.
    + rewrite next_month_times_run. cbv zeta.
      destruct (fetch_calender_data _ _ tomorrow w) as [v w0|e w0]; [|discriminate].
      destruct (is_RequestError v); [discriminate|].
      destruct (timings_of v (day tomorrow - 1)) as [ct|e]; [|discriminate].
      destruct (invalid_name w0 _); [discriminate|].
      destruct (data_dir w0 !! _) as [t0|]; [|discriminate].
      intros [= <- _]. cbn [ISHA_PASSED sel_index]. now split.
    + monad_simpl. destruct (timings_of api_res (day now)) as [ct|e]; [|discriminate].
      intros [= <- _]. cbn [ISHA_PASSED sel_index]. now split.
  - intros [= <- _]. cbn [ISHA_PASSED sel_index]. now split.
Qed.

(** X5: whenever a resolution returns, today's Isha was read, the flag tells
    whether the clock of line 205 is after it, and the queue read afterwards
    is the old queue followed by the listed prayers, later than [now], of the
    timings mapping the resolution selected: the mapping of today in the
    given schedule when the flag is unset, of the next index when it is set
    inside a month, and of the first day of the schedule the cache gives for
    the next month at a month rollover.  Every value of that mapping reads as
    a time of day; every queued entry has a listed name, is after [now],
    carries the date of today or, past Isha, of tomorrow, and a time of day
    on the minute.  The settings are as before. *)
Theorem resolve_queue_invariant now now' api_res w passed api_res' w' :
  valid_datetime now = true ->
  get_main_layout_and_tomorrow_prayers now now' api_res w = Ret (passed, api_res') w' ->
  let tomorrow := next_day now in
  let cit := py_format (user_settings w !! "-city-") in
  let count := py_format (user_settings w !! "-country-") in
  let rolled := passed && (day tomorrow <? day now) in
  let date := if passed then tomorrow else now in
  let i := if passed
           then (if day tomorrow <? day now then day tomorrow - 1 else day now)
           else day now - 1 in
  exists today isha_time api_res0 items tods,
    todays_isha now api_res = Ok (today, isha_time) /\
    passed = dt_ltb isha_time now' /\
    (if rolled
     then exists w0, fetch_calender_data cit count tomorrow w = Ret api_res0 w0
     else api_res0 = api_res) /\
    timings_of api_res0 i = Ok (PDict items) /\
    decode_timings items = Some tods /\
    UPCOMING_PRAYERS w' =
      UPCOMING_PRAYERS w ++ upcoming_of now (map (bind_entry date) tods) /\
    Forall (fun e =>
              listed (fst e) = true /\ dt_ltb now (snd e) = true /\
              dated date (snd e) /\
              0 <= hour (snd e) <= 23 /\ 0 <= minute (snd e) <= 59 /\
              second (snd e) = 0 /\ microsecond (snd e) = 0)
           (upcoming_of now (map (bind_entry date) tods)) /\
    user_settings w' = user_settings w.
Proof.
  intros Hv H. cbv zeta. apply valid_datetime_month in Hv as [_ Hd].
  unfold get_main_layout_and_tomorrow_prayers in H.
  destruct (add_one_day now) as [tomorrow|e] eqn:Ht; [|discriminate].
  pose proof (add_one_day_next _ _ Ht) as ->.
  destruct (todays_isha now api_res) as [[today isha_time]|e] eqn:Hi; [|discriminate].
  destruct (todays_isha_inv _ _ _ _ Hi) as (_ & Htoday & _ & _).
  monad_simpl_in H. cbn [fst snd] in H.
  pose proof (select_times_effects now now' (next_day now) isha_time api_res today w)
    as Heff. cbv zeta in Heff.
  destruct (select_times now now' (next_day now) isha_time api_res today w)
    as [sel w1|e w1] eqn:Hsel; [|discriminate].
  cbn [final_world] in Heff. destruct Heff as [Hq Hs].
  destruct (select_times_index _ _ _ _ _ _ _ _ _ Hsel) as [Hflag Hindex].
  destruct (select_times_inv _ _ _ _ _ _ _ _ Hd Htoday Hsel) as (_ & Htm & Hcase).
  apply bind_and_queue_inv in H as (items & times & Hitems & Hbind & -> & _ & ->).
  apply bind_times_inv in Hbind as (tods & Hdec & ->).
  rewrite Hitems, Hindex in Htm.
  exists today, isha_time, (sel_api_res sel), items, tods.
  split; [reflexivity|]. split; [exact Hflag|]. split.
  { destruct (ISHA_PASSED sel && (day (next_day now) <? day now)).
    - destruct Hcase as (w0 & _ & Hfetch & _). now exists w0.
    - apply Hcase. }
  split; [exact Htm|]. split; [assumption|].
  cbn [UPCOMING_PRAYERS user_settings set_UPCOMING_PRAYERS]. rewrite Hq.
  split; [reflexivity|]. split; [|assumption].
  apply List.Forall_forall. intros [k t] Hin.
  apply upcoming_of_In in Hin as (Hin & Hl & Hlt).
  apply In_bind_entry in Hin as (hm & Hin & ->). cbn [fst snd].
  pose proof (decode_timings_bounds _ _ _ _ Hdec Hin) as [Hh Hm].
  repeat split; try assumption; cbn [at_date hour minute]; lia.
Qed.

(** What a resolution may change of the queue and of the settings. *)
Lemma resolve_effects now now' api_res w :
  match get_main_layout_and_tomorrow_prayers now now' api_res w with
  | Ret _ w' => user_settings w' = user_settings w
  | Exc e w' =>
      UPCOMING_PRAYERS w' = UPCOMING_PRAYERS w /\
      (e <> SystemExit -> user_settings w' = user_settings w) /\
      (e = SystemExit ->
       user_settings w' = delete "-country-" (delete "-city-" (user_settings w)))
  end.
Proof.
  unfold get_main_layout_and_tomorrow_prayers.
  destruct (add_one_day now) as [tomorrow|e0] eqn:Ht.
  2:{ cbn. unfold add_one_day in Ht.
      destruct (9999 <? year (next_day now)); [|discriminate]. injection Ht as <-.
      split; [reflexivity|]. split; [reflexivity|discriminate]. }
  destruct (todays_isha now api_res) as [[today isha_time]|e0] eqn:Hi.
  2:{ cbn. split; [reflexivity|]. split; [reflexivity|].
      intros ->. now apply todays_isha_no_exit in Hi. }
  monad_simpl. cbn [fst snd].
  pose proof (select_times_effects now now' tomorrow isha_time api_res today w)
    as Heff. cbv zeta in Heff.
  destruct (select_times now now' tomorrow isha_time api_res today w)
    as [sel w1|e1 w1]; cbn [final_world] in Heff; destruct Heff as [Hq Hs];
    [|now split].
  unfold bind_and_queue. monad_simpl.
  destruct (py_items (sel_times sel)) as [items|e2] eqn:Eit.
  2:{ split; [assumption|]. split; [auto|].
      intros ->. destruct (sel_times sel); discriminate. }
  destruct (bind_times _ items) as [times|e2] eqn:Eb; [exact Hs|].
  split; [assumption|]. split; [auto|].
  intros ->. now apply bind_times_no_exit in Eb.
Qed.

(** X6: a resolution that raises has not touched the queue, and it has touched
    the settings only when it leaves the session ([SystemExit]), by deleting
    the city and the country. *)
Theorem resolve_failure_effects now now' api_res w e w' :
  get_main_layout_and_tomorrow_prayers now now' api_res w = Exc e w' ->
  UPCOMING_PRAYERS w' = UPCOMING_PRAYERS w /\
  (e <> SystemExit -> user_settings w' = user_settings w) /\
  (e = SystemExit ->
   user_settings w' = delete "-country-" (delete "-city-" (user_settings w))).
Proof.
  intros H. pose proof (resolve_effects now now' api_res w) as Heff.
  now rewrite H in Heff.
Qed.

Lemma resolve_queue_invariant_witness :
  let now := at_2024 3 10 13 0 in
  exists today isha_time items tods,
    todays_isha now (sample_month 31) = Ok (today, isha_time) /\
    false = dt_ltb isha_time now /\
    timings_of (sample_month 31) 9 = Ok (PDict items) /\
    decode_timings items = Some tods /\
    [("Asr", at_2024 3 10 15 28); ("Maghrib", at_2024 3 10 18 1);
     ("Isha", at_2024 3 10 20 0)]
      = UPCOMING_PRAYERS march_cached_world ++
        upcoming_of now (map (bind_entry now) tods) /\
    Forall (fun e => listed (fst e) = true /\ dt_ltb now (snd e) = true)
           (upcoming_of now (map (bind_entry now) tods)).
Proof.
  cbv zeta.
  destruct (resolve_queue_invariant (at_2024 3 10 13 0) (at_2024 3 10 13 0)
              (sample_month 31) march_cached_world false
              (store_timings (sample_month 31) 9
                 (map (bind_entry (at_2024 3 10 13 0)) sample_tods))
              (set_UPCOMING_PRAYERS
                 [("Asr", at_2024 3 10 15 28); ("Maghrib", at_2024 3 10 18 1);
                  ("Isha", at_2024 3 10 20 0)] march_cached_world)
              eq_refl eq_refl)
    as (today & isha_time & api_res0 & items & tods & Hi & Hflag & Hsame & Htm & Hdec
        & Hqueue & Hall & _).
  cbn [andb] in Hsame. subst api_res0.
  exists today, isha_time, items, tods.
  split; [exact Hi|]. split; [exact Hflag|]. split; [exact Htm|].
  split; [exact Hdec|]. split; [exact Hqueue|].
  eapply Forall_impl; [exact Hall|]. intros e (Hl & Hlt & _). now split.
Defined.

(** Past Isha on 31 March 2024 with April neither cached nor reachable: the
    session ends, the queue is as it was and the location is deleted. *)
Lemma resolve_failure_effects_witness :
  let now := at_2024 3 31 21 0 in
  let o := get_main_layout_and_tomorrow_prayers now now (sample_month 31)
             offline_world in
  UPCOMING_PRAYERS (final_world o) = UPCOMING_PRAYERS offline_world /\
  user_settings (final_world o) =
    delete "-country-" (delete "-city-" (user_settings offline_world)).
Proof.
  cbv zeta.
  destruct (get_main_layout_and_tomorrow_prayers (at_2024 3 31 21 0) (at_2024 3 31 21 0)
              (sample_month 31) offline_world) as [r w'|e w'] eqn:H.
  - vm_compute in H. discriminate.
  - assert (He : e = SystemExit) by (vm_compute in H; now injection H).
    destruct (resolve_failure_effects _ _ _ _ _ _ H) as (Hq & _ & Hs).
    split; [exact Hq|exact (Hs He)].
Defined.

(** X7: one value of today's mapping that does not read as a time of day, under
    any key, listed or not, makes a resolution before Isha fail: nothing is
    queued and the world is as it was. *)
Theorem resolve_unreadable_value now now' api_res w tomorrow items isha_time :
  add_one_day now = Ok tomorrow ->
  todays_isha now api_res = Ok (PDict items, isha_time) ->
  dt_ltb isha_time now' = false ->
  decode_timings items = None ->
  exists e,
    get_main_layout_and_tomorrow_prayers now now' api_res w = Exc e w /\
    (e = ValueError \/ e = AttributeError).
Proof.
  intros Ht Hi Hcmp Hdec.
  rewrite (resolve_run _ _ _ _ _ _ _ Ht Hi). unfold select_times. rewrite Hcmp.
  cbn [ret]. unfold bind_and_queue. monad_simpl. cbn [sel_times py_items ISHA_PASSED].
  destruct (bind_times_undecoded now items Hdec) as (e & -> & He).
  exists e. now split.
Qed.

(** The blank in front of Isha is skipped by line 200 and stops line 229. *)
Lemma resolve_unreadable_value_witness :
  let now := at_2024 3 10 13 0 in
  exists e,
    get_main_layout_and_tomorrow_prayers now now blank_isha_month fresh_world
      = Exc e fresh_world /\
    (e = ValueError \/ e = AttributeError).
Proof.
  exact (resolve_unreadable_value (at_2024 3 10 13 0) (at_2024 3 10 13 0)
           blank_isha_month fresh_world (at_2024 3 11 13 0)
           (sample_items "18:01 (EET)" " 20:00 (EET)") (at_2024 3 10 20 0)
           eq_refl eq_refl eq_refl eq_refl).
Defined.

(** ** Start-up *)

(** What [fetch_calender_data] returns for a failed look-up is not a
    schedule: resolving it raises [TypeError] at line 197. *)
Lemma resolve_failure_mark now now' mark w tomorrow :
  add_one_day now = Ok tomorrow ->
  mark = PStr "RequestError" \/ mark = PNone ->
  get_main_layout_and_tomorrow_prayers now now' mark w = Exc TypeError w.
Proof.
  intros Ht Hm. unfold get_main_layout_and_tomorrow_prayers. rewrite Ht.
  destruct Hm as [-> | ->]; reflexivity.
Qed.

Lemma fetch_calender_data_fails cit count date w :
  data_dir w !! json_month_file cit count date = None ->
  (remote w (calendar_url cit count date) = ConnectionFailed \/
   exists status_code text,
     remote w (calendar_url cit count date) = Response status_code text /\
     status_code <> 200) ->
  exists mark,
    (mark = PStr "RequestError" \/ mark = PNone) /\
    fetch_calender_data cit count date w =
      Ret mark (add_event (EvRequest (calendar_url cit count date))
                  (add_event (EvCalendar cit count (year date) (month date)) w)).
Proof.
  intros Hmiss Hweb. rewrite (fetch_calender_data_miss _ _ _ _ Hmiss). cbv zeta.
  destruct Hweb as [-> | (sc & text & -> & Hsc)].
  - exists (PStr "RequestError"). split; [now left|reflexivity].
  - destruct (Z.eqb_spec sc 200); [contradiction|].
    exists PNone. split; [now right|reflexivity].
Qed.

(** X8: a start with a saved location whose month is neither cached nor
    delivered by the service ends in [TypeError]: the look-up is not checked
    before it is resolved.  The saved location, the files and the queue are
    as they were. *)
Theorem saved_location_start_offline clock clock1 clock2 w tomorrow :
  let cit := py_format (user_settings w !! "-city-") in
  let count := py_format (user_settings w !! "-country-") in
  data_dir w !! json_month_file cit count clock = None ->
  (remote w (calendar_url cit count clock) = ConnectionFailed \/
   exists status_code text,
     remote w (calendar_url cit count clock) = Response status_code text /\
     status_code <> 200) ->
  add_one_day clock1 = Ok tomorrow ->
  exists w',
    saved_location_start clock clock1 clock2 w = Exc TypeError w' /\
    user_settings w' = user_settings w /\
    data_dir w' = data_dir w /\
    UPCOMING_PRAYERS w' = UPCOMING_PRAYERS w.
Proof.
  cbv zeta. intros Hmiss Hweb Ht.
  destruct (fetch_calender_data_fails _ _ _ _ Hmiss Hweb) as (mark & Hmark & Hfetch).
  unfold saved_location_start, user_settings_get_entry. monad_simpl.
  rewrite Hfetch. rewrite (resolve_failure_mark _ _ _ _ _ Ht Hmark).
  eexists. split; [reflexivity|]. repeat split.
Qed.

Lemma saved_location_start_offline_witness :
  let clock := at_2024 3 10 13 0 in
  exists w',
    saved_location_start clock clock clock offline_start_world = Exc TypeError w' /\
    user_settings w' = user_settings offline_start_world /\
    data_dir w' = data_dir offline_start_world /\
    UPCOMING_PRAYERS w' = UPCOMING_PRAYERS offline_start_world.
Proof.
  exact (saved_location_start_offline (at_2024 3 10 13 0) (at_2024 3 10 13 0)
           (at_2024 3 10 13 0) offline_start_world (at_2024 3 11 13 0)
           eq_refl (or_introl eq_refl) eq_refl).
Defined.

(** A choice that ends the location window has written the city, then the
    country, to the settings; nothing else of the settings has changed. *)
Lemma location_chosen_saved rt city country clock clock1 clock2 w start_data w' :
  location_chosen rt city country clock clock1 clock2 w = Ret (Some start_data) w' ->
  user_settings w' =
    <["-country-" := SStr country]> (<["-city-" := SStr city]> (user_settings w)).
Proof.
  unfold location_chosen. unfold bind at 1.
  destruct (fetch_calender_data_frame city country clock w) as (_ & Hs & _).
  destruct (fetch_calender_data city country clock w) as [m w0|e w0]; [|discriminate].
  cbn [final_world] in Hs.
  destruct (py_truthy rt m); cbn [negb]; [|discriminate].
  destruct (is_RequestError m); [discriminate|].
  unfold user_settings_set_entry. monad_simpl.
  set (w1 := set_user_settings _ (set_user_settings _ w0)).
  pose proof (resolve_effects clock1 clock2 m w1) as Heff.
  destruct (get_main_layout_and_tomorrow_prayers clock1 clock2 m w1) as [sd w2|];
    [|discriminate].
  intros [= _ <-]. rewrite Heff. subst w1. cbn [user_settings set_user_settings].
  now rewrite Hs.
Qed.


(** A turn that returns has not changed the settings. *)
Lemma display_main_window_tick_settings clock clock1 clock2 data w shown w' :
  display_main_window_tick clock clock1 clock2 data w = Ret shown w' ->
  user_settings w' = user_settings w.
Proof.
  unfold display_main_window_tick. unfold bind at 1.
  destruct (UPCOMING_PRAYERS w) as [|front rest] eqn:Hq.
  { unfold pop_if_elapsed. monad_simpl. rewrite Hq. discriminate. }
  rewrite (pop_if_elapsed_run _ w front rest Hq).
  destruct (dt_ltb (replace_microsecond_0 clock) (snd front)).
  { unfold peek_next. monad_simpl. rewrite Hq. cbn [first]. now intros [= _ <-]. }
  destruct (announce_run front (set_UPCOMING_PRAYERS rest w)) as (Ha & Hq' & Hs' & _).
  set (wa := announced front (set_UPCOMING_PRAYERS rest w)) in *.
  cbn [UPCOMING_PRAYERS user_settings set_UPCOMING_PRAYERS] in Hq', Hs'.
  unfold bind at 1. unfold bind at 1. rewrite Ha.
  unfold bind at 1. unfold gets at 1. rewrite Hq'.
  destruct rest as [|next rest]; cbn [List.length Nat.eqb].
  - unfold user_settings_get_entry. monad_simpl.
    destruct (fetch_calender_data_frame
                (py_format (user_settings wa !! "-city-"))
                (py_format (user_settings wa !! "-country-"))
                (replace_microsecond_0 clock) wa) as (_ & Hs0 & _).
    destruct (fetch_calender_data _ _ (replace_microsecond_0 clock) wa)
      as [month_data w0|e w0]; [|discriminate].
    cbn [final_world] in Hs0.
    pose proof (resolve_effects clock1 clock2 month_data w0) as Heff.
    destruct (get_main_layout_and_tomorrow_prayers clock1 clock2 month_data w0)
      as [new_data w1|e w1]; [|discriminate].
    unfold peek_next. monad_simpl.
    destruct (first (UPCOMING_PRAYERS w1)); [|discriminate].
    intros [= _ <-]. congruence.
  - unfold peek_next. monad_simpl. rewrite Hq'. cbn [first].
    intros [= _ <-]. exact Hs'.
Qed.

Lemma hijri_display_settings rt now data kept w shown w' :
  hijri_display rt now data kept w = Ret shown w' ->
  user_settings w' = user_settings w.
Proof.
  assert (Hlookup : forall text w2,
            end_of_month_hijri_lookup rt now w = Ret text w2 ->
            user_settings w2 = user_settings w).
  { intros text w2. unfold end_of_month_hijri_lookup, user_settings_get_entry.
    monad_simpl.
    destruct (fetch_calender_data_frame
                (py_format (user_settings w !! "-city-"))
                (py_format (user_settings w !! "-country-")) now w) as (_ & Hs0 & _).
    destruct (fetch_calender_data _ _ now w) as [month_data w0|e w0]; [|discriminate].
    cbn [final_world] in Hs0.
    destruct (get_hijri_date_from_json rt now month_data); [|discriminate].
    now intros [= _ <-]. }
  unfold hijri_display, peek_next. monad_simpl.
  destruct (first (UPCOMING_PRAYERS w)) as [next|]; [|discriminate].
  destruct (month now =? month (snd next)).
  { destruct (get_hijri_date_from_json rt now data); [|discriminate].
    now intros [= _ <-]. }
  destruct kept as [text|]; [destruct (text_truth (Some text))|].
  - now intros [= _ <-].
  - destruct (end_of_month_hijri_lookup rt now w) as [t w2|] eqn:E; [|discriminate].
    intros [= _ <-]. now apply (Hlookup t).
  - destruct (end_of_month_hijri_lookup rt now w) as [t w2|] eqn:E; [|discriminate].
    intros [= _ <-]. now apply (Hlookup t).
Qed.

(** The turns of a session without events, when they all return, leave the
    settings as they found them. *)
Lemma display_main_window_turns_settings rt clocks data kept w last w' :
  display_main_window_turns rt clocks data kept w = Ret last w' ->
  user_settings w' = user_settings w.
Proof.
  revert data kept w.
  induction clocks as [|[[clock clock1] clock2] later IH]; intros data kept w.
  - now intros [= _ <-].
  - cbn [display_main_window_turns]. unfold bind at 1.
    unfold display_main_window_turn. unfold bind at 1.
    destruct (display_main_window_tick clock clock1 clock2 data w)
      as [shown w1|e w1] eqn:Htick; [|discriminate].
    apply display_main_window_tick_settings in Htick.
    unfold bind at 1.
    destruct (hijri_display rt (replace_microsecond_0 clock) (fst shown) kept w1)
      as [hijri w2|e w2] eqn:Hhijri; [|discriminate].
    apply hijri_display_settings in Hhijri. cbn [ret fst snd].
    intros Hrest. apply IH in Hrest. congruence.
Qed.

(** X10: a session that starts from the location window, runs any number of
    turns of the loop that all return and in which no event of the windows
    but the closing one is handled, and then reaches the clean-up of lines
    610-613.  With [save_loc_check] false there, the city and the country
    written by the location window are deleted and every other setting is as
    it was before the choice, when the city and the country are not empty;
    with an empty one (the current location may be) the clean-up deletes
    nothing.  With [save_loc_check] true the clean-up changes nothing.  A turn
    that raises never reaches the clean-up, and is not a session of this
    statement. *)
Theorem unsaved_location_forgotten rt city country clock clock1 clock2 w start_data w1
    clocks last w2 :
  location_chosen rt city country clock clock1 clock2 w = Ret (Some start_data) w1 ->
  display_main_window_turns rt clocks (snd start_data) None w1 = Ret last w2 ->
  exists w3,
    forget_unsaved_location false w2 = Ret tt w3 /\
    (city <> EmptyString -> country <> EmptyString ->
     user_settings w3 !! "-city-" = None /\ user_settings w3 !! "-country-" = None /\
     forall key, key <> "-city-" -> key <> "-country-" ->
       user_settings w3 !! key = user_settings w !! key) /\
    (city = EmptyString \/ country = EmptyString -> w3 = w2) /\
    forget_unsaved_location true w2 = Ret tt w2.
Proof.
  intros Hrun Hturns. apply location_chosen_saved in Hrun as Hs1.
  apply display_main_window_turns_settings in Hturns as Hs2.
  assert (Hs : user_settings w2 =
               <["-country-" := SStr country]>
                 (<["-city-" := SStr city]> (user_settings w))) by congruence.
  unfold forget_unsaved_location, user_settings_get_entry, user_settings_delete_entry.
  monad_simpl. rewrite Hs.
  rewrite lookup_insert_ne by discriminate. rewrite !lookup_insert_eq.
  cbn [py_truth negb andb].
  destruct (String.eqb_spec city "") as [->|Hcity]; cbn [negb].
  { exists w2. split; [reflexivity|]. split; [congruence|]. split; reflexivity. }
  assert (Hc : user_settings w2 !! "-country-" = Some (SStr country))
    by (rewrite Hs; apply lookup_insert_eq).
  monad_simpl. rewrite Hc. cbn [py_truth].
  destruct (String.eqb_spec country "") as [->|Hcountry]; cbn [negb].
  { exists w2. split; [reflexivity|]. split; [congruence|]. split; reflexivity. }
  eexists. split; [reflexivity|]. split; [|split; [intros [?|?]; contradiction|reflexivity]].
  intros _ _. cbn [user_settings set_user_settings add_event]. rewrite Hs.
  split; [|split].
  - rewrite lookup_delete_ne by discriminate. apply lookup_delete_eq.
  - apply lookup_delete_eq.
  - intros key Hk1 Hk2. rewrite !lookup_delete_ne by congruence.
    now rewrite !lookup_insert_ne by congruence.
Qed.

(** Cairo is chosen on 10 March 2024 at 13:00 with nothing cached; two turns
    follow, at 13:00 and at Asr (15:28), which is announced; then the exit. *)
Lemma unsaved_location_forgotten_witness :
  let clock := at_2024 3 10 13 0 in
  let asr := at_2024 3 10 15 28 in
  exists start_data w1 last w2 w3,
    location_chosen sample_runtime "Cairo" "Egypt" clock clock clock hijri_start_world
      = Ret (Some start_data) w1 /\
    user_settings w1 !! "-city-" = Some (SStr "Cairo") /\
    display_main_window_turns sample_runtime [(clock, clock, clock); (asr, asr, asr)]
      (snd start_data) None w1 = Ret last w2 /\
    forget_unsaved_location false w2 = Ret tt w3 /\
    user_settings w3 !! "-city-" = None /\ user_settings w3 !! "-country-" = None.
Proof.
  cbv zeta.
  destruct (location_chosen sample_runtime "Cairo" "Egypt" (at_2024 3 10 13 0)
              (at_2024 3 10 13 0) (at_2024 3 10 13 0) hijri_start_world)
    as [[start_data|] w1|e w1] eqn:H;
    [|vm_compute in H; discriminate|vm_compute in H; discriminate].
  destruct (display_main_window_turns sample_runtime
              [(at_2024 3 10 13 0, at_2024 3 10 13 0, at_2024 3 10 13 0);
               (at_2024 3 10 15 28, at_2024 3 10 15 28, at_2024 3 10 15 28)]
              (snd start_data) None w1) as [last w2|e w2] eqn:Hturns.
  - destruct (unsaved_location_forgotten _ _ _ _ _ _ _ _ _ _ _ _ H Hturns)
      as (w3 & Hexit & Hgone & _).
    destruct (Hgone ltac:(discriminate) ltac:(discriminate)) as (Hcity & Hcountry & _).
    exists start_data, w1, last, w2, w3.
    split; [reflexivity|]. split.
    { vm_compute in H. injection H as _ <-. reflexivity. }
    split; [exact Hturns|]. split; [exact Hexit|]. split; [exact Hcity|exact Hcountry].
  - exfalso. vm_compute in H. injection H as <- <-. vm_compute in Hturns. discriminate.
Defined.

(** ** The Hijri date *)

Lemma get_hijri_date_from_json_ext rt date a b :
  rbind (day_entry b (day date - 1)) (fun e => getitem_str e "date") =
  rbind (day_entry a (day date - 1)) (fun e => getitem_str e "date") ->
  get_hijri_date_from_json rt date b = get_hijri_date_from_json rt date a.
Proof.
  unfold get_hijri_date_from_json, day_entry. intros H.
  destruct (getitem_str b "data") as [db|eb]; destruct (getitem_str a "data") as [da|ea];
    cbn [rbind] in *;
    try destruct (getitem_int db (day date - 1)) as [x|ex];
    try destruct (getitem_int da (day date - 1)) as [y|ey];
    cbn [rbind] in *; try congruence; first [now rewrite H | now rewrite <- H].
Qed.

Lemma same_but_timings_hijri rt i a b date :
  same_but_timings i a b -> 1 <= day date ->
  get_hijri_date_from_json rt date b = get_hijri_date_from_json rt date a.
Proof.
  intros (_ & Hdays & Hday) Hd. apply get_hijri_date_from_json_ext.
  destruct (Z.eq_dec (day date - 1) i) as [->|Hne].
  - now apply Hday.
  - now rewrite Hdays by lia.
Qed.

(** X11: the datetimes that a resolution writes into the schedule it returns do
    not reach the Hijri date: for every day of the month, the returned
    schedule gives the Hijri date of the schedule resolved from (at a month
    rollover, of the schedule the cache gave for the new month). *)
Theorem resolve_keeps_hijri_date rt now now' api_res w passed api_res' w' :
  valid_datetime now = true ->
  get_main_layout_and_tomorrow_prayers now now' api_res w = Ret (passed, api_res') w' ->
  let cit := py_format (user_settings w !! "-city-") in
  let count := py_format (user_settings w !! "-country-") in
  exists api_res0,
    (if passed && (day (next_day now) <? day now)
     then exists w0, fetch_calender_data cit count (next_day now) w = Ret api_res0 w0
     else api_res0 = api_res) /\
    forall date, 1 <= day date ->
      get_hijri_date_from_json rt date api_res' = get_hijri_date_from_json rt date api_res0.
Proof.
  intros Hv H. cbv zeta. apply valid_datetime_month in Hv as [_ Hd].
  unfold get_main_layout_and_tomorrow_prayers in H.
  destruct (add_one_day now) as [tomorrow|e] eqn:Ht; [|discriminate].
  pose proof (add_one_day_next _ _ Ht) as ->.
  destruct (todays_isha now api_res) as [[today isha_time]|e] eqn:Hi; [|discriminate].
  destruct (todays_isha_inv _ _ _ _ Hi) as (_ & Htoday & _ & _).
  monad_simpl_in H. cbn [fst snd] in H.
  destruct (select_times now now' (next_day now) isha_time api_res today w)
    as [sel w1|e w1] eqn:Hsel; [|discriminate].
  apply bind_and_queue_inv in H as (items & times & Hitems & Hbind & -> & -> & ->).
  destruct (select_times_inv _ _ _ _ _ _ _ _ Hd Htoday Hsel) as (Hidx & Htm & Hcase).
  rewrite Hitems in Htm.
  destruct (store_timings_frame _ _ _ times Hidx Htm) as [_ Hsame].
  exists (sel_api_res sel). split.
  - destruct (ISHA_PASSED sel && (day (next_day now) <? day now)).
    + destruct Hcase as (w0 & _ & Hfetch & _). now exists w0.
    + apply Hcase.
  - intros date Hdate. eapply same_but_timings_hijri; eassumption.
Qed.

Lemma resolve_keeps_hijri_date_witness :
  let now := at_2024 3 10 13 0 in
  let api_res' := store_timings hijri_month 9 (map (bind_entry now) sample_tods) in
  exists api_res0,
    api_res0 = hijri_month /\
    forall date, 1 <= day date ->
      get_hijri_date_from_json sample_runtime date api_res'
        = get_hijri_date_from_json sample_runtime date api_res0.
Proof.
  exact (resolve_keeps_hijri_date sample_runtime (at_2024 3 10 13 0) (at_2024 3 10 13 0)
           hijri_month march_cached_world false
           (store_timings hijri_month 9
              (map (bind_entry (at_2024 3 10 13 0)) sample_tods))
           (set_UPCOMING_PRAYERS
              [("Asr", at_2024 3 10 15 28); ("Maghrib", at_2024 3 10 18 1);
               ("Isha", at_2024 3 10 20 0)] march_cached_world)
           eq_refl eq_refl).
Defined.

(** The world after a resolution that rolls over to a new month *)
Lemma resolve_rollover_world now now' api_res w today isha_time passed api_res' w' :
  let cit := py_format (user_settings w !! "-city-") in
  let count := py_format (user_settings w !! "-country-") in
  todays_isha now api_res = Ok (today, isha_time) ->
  dt_ltb isha_time now' = true ->
  day (next_day now) < day now ->
  get_main_layout_and_tomorrow_prayers now now' api_res w = Ret (passed, api_res') w' ->
  exists v w0 tods,
    fetch_calender_data cit count (next_day now) w = Ret v w0 /\
    invalid_name w0 (json_month_file cit count now) = None /\
    w' = set_UPCOMING_PRAYERS
           (UPCOMING_PRAYERS w0 ++
            upcoming_of now (map (bind_entry (next_day now)) tods))
           (file_removed (json_month_file cit count now) w0).
Proof.
  cbv zeta. intros Hi Hcmp Hday H.
  unfold get_main_layout_and_tomorrow_prayers in H.
  destruct (add_one_day now) as [tomorrow|e] eqn:Ht; [|discriminate].
  pose proof (add_one_day_next _ _ Ht) as ->. rewrite Hi in H.
  monad_simpl_in H. cbn [fst snd] in H. unfold select_times in H. rewrite Hcmp in H.
  destruct (Z.ltb_spec (day (next_day now)) (day now)); [|lia].
  rewrite next_month_times_run in H. cbv zeta in H.
  destruct (fetch_calender_data _ _ (next_day now) w) as [v w0|e w0]; [|discriminate].
  destruct (is_RequestError v); [discriminate|].
  destruct (timings_of v (day (next_day now) - 1)) as [ct|e]; [|discriminate].
  destruct (invalid_name w0 _) eqn:Hname; [discriminate|].
  destruct (data_dir w0 !! _) as [t0|]; [|discriminate].
  apply bind_and_queue_inv in H as (items & times & _ & Hbind & _ & _ & ->).
  cbn [ISHA_PASSED] in Hbind. apply bind_times_inv in Hbind as (tods & _ & ->).
  exists v, w0, tods. split; [reflexivity|]. split; [exact Hname|].
  reflexivity.
Qed.

Lemma json_month_file_same_month cit count a b :
  year a = year b -> month a = month b ->
  json_month_file cit count a = json_month_file cit count b /\
  calendar_url cit count a = calendar_url cit count b.
Proof. unfold json_month_file, calendar_url. now intros -> ->. Qed.

(** X12: the turn of the loop that rolls over to a new month removes the file of
    the month that ends and then, the next prayer being in another month
    than [now], looks the Hijri date of [now] up in that very file: the
    service is asked for the ended month again.  When it answers 200, the
    file removed is back at the end of the turn; when it cannot be reached
    or answers another status, the turn ends in [TypeError]. *)
Theorem month_end_turn_refetches rt clock clock1 clock2 data kept w fard api_res
    today isha_time shown w1 :
  let now := replace_microsecond_0 clock in
  let cit := py_format (user_settings w !! "-city-") in
  let count := py_format (user_settings w !! "-country-") in
  let old := json_month_file cit count now in
  let turn := display_main_window_turn rt clock clock1 clock2 data kept w in
  UPCOMING_PRAYERS w = [fard] -> dt_ltb now (snd fard) = false ->
  data_dir w !! old = Some (Json api_res) ->
  valid_datetime clock1 = true ->
  year clock1 = year clock -> month clock1 = month clock ->
  day (next_day clock1) < day clock1 ->
  todays_isha clock1 api_res = Ok (today, isha_time) ->
  dt_ltb isha_time clock2 = true ->
  display_main_window_tick clock clock1 clock2 data w = Ret shown w1 ->
  text_truth kept = false ->
  data_dir w1 !! old = None /\
  month (snd (snd shown)) <> month now /\
  (forall text,
     remote w (calendar_url cit count now) = Response 200 text ->
     data_dir (final_world turn) !! old = Some text) /\
  (remote w (calendar_url cit count now) = ConnectionFailed \/
   (exists status_code text,
      remote w (calendar_url cit count now) = Response status_code text /\
      status_code <> 200) ->
   exists w2, turn = Exc TypeError w2 /\ data_dir w2 !! old = None).
Proof.
  cbv zeta. set (now := replace_microsecond_0 clock).
  intros Hq Hdue Hfile Hv Hyear Hmonth Hlast Hi Hcmp Htick Hkept.
  set (turn := display_main_window_turn rt clock clock1 clock2 data kept w).
  assert (Hturn : turn = match hijri_display rt now (fst shown) kept w1 with
                         | Ret hijri w2 => Ret (fst shown, snd shown, hijri) w2
                         | Exc e w2 => Exc e w2
                         end).
  { subst turn. unfold display_main_window_turn. unfold bind at 1. rewrite Htick.
    unfold bind at 1. fold now.
    destruct (hijri_display rt now (fst shown) kept w1); reflexivity. }
  clearbody turn.
  rewrite (tick_rollover_run clock clock1 clock2 data w fard api_res Hq Hdue Hfile)
    in Htick. fold now in Htick.
  destruct (announce_run fard (set_UPCOMING_PRAYERS [] w)) as (_ & Hq' & Hs' & Hd' & Hr').
  set (wa := add_event _ (announced fard (set_UPCOMING_PRAYERS [] w))) in Htick.
  assert (Hwa : UPCOMING_PRAYERS wa = [] /\ user_settings wa = user_settings w /\
                remote wa = remote w).
  { subst wa. cbn [UPCOMING_PRAYERS user_settings remote add_event].
    now rewrite Hq', Hs', Hr'. }
  destruct Hwa as (Hqa & Hsa & Hra).
  destruct (get_main_layout_and_tomorrow_prayers clock1 clock2 api_res wa)
    as [[passed api_res'] w'|e w'] eqn:Hrun; [|discriminate].
  destruct (resolve_rollover_world _ _ _ _ _ _ _ _ _ Hi Hcmp Hlast Hrun)
    as (v & w0 & tods & Hfetch & Hname & Hw').
  rewrite Hsa in Hfetch, Hname, Hw'.
  destruct (fetch_calender_data_frame
              (py_format (user_settings w !! "-city-"))
              (py_format (user_settings w !! "-country-")) (next_day clock1) wa)
    as (Hq0 & Hs0 & Hr0 & _).
  rewrite Hfetch in Hq0, Hs0, Hr0. cbn [final_world] in Hq0, Hs0, Hr0.
  destruct (json_month_file_same_month
              (py_format (user_settings w !! "-city-"))
              (py_format (user_settings w !! "-country-")) clock1 now Hyear Hmonth)
    as [Hold _].
  rewrite Hold in Hname, Hw'.
  set (cit := py_format (user_settings w !! "-city-")) in *.
  set (count := py_format (user_settings w !! "-country-")) in *.
  set (old := json_month_file cit count now) in *.
  assert (Hfacts : data_dir w' !! old = None /\ user_settings w' = user_settings w /\
                   remote w' = remote w /\ invalid_name w' old = None /\
                   UPCOMING_PRAYERS w' =
                     upcoming_of clock1 (map (bind_entry (next_day clock1)) tods)).
  { subst w'. cbn [data_dir user_settings remote invalid_name UPCOMING_PRAYERS
                     set_UPCOMING_PRAYERS file_removed add_event set_data_dir].
    rewrite Hq0, Hqa, Hs0, Hsa, Hr0, Hra. split; [apply lookup_delete_eq|]. repeat split.
    exact Hname. }
  clear Hw'. destruct Hfacts as (Hgone & Hs1 & Hr1 & Hn1 & Hq1).
  destruct (UPCOMING_PRAYERS w') as [|next queue] eqn:Hqueue; [discriminate|].
  injection Htick as <- <-. cbn [fst snd] in *.
  assert (Hnext : month (snd next) <> month now).
  { assert (Hin : In next (upcoming_of clock1 (map (bind_entry (next_day clock1)) tods)))
      by (rewrite <- Hq1; now left).
    destruct next as [k t]. apply upcoming_of_In in Hin as (Hin & _).
    apply In_bind_entry in Hin as (hm & _ & ->). cbn [snd at_date month].
    pose proof (next_day_new_month clock1 Hv Hlast) as E.
    apply valid_datetime_month in Hv as [Hm _].
    change (month now) with (month clock). rewrite <- Hmonth.
    destruct (Z.eqb_spec (month clock1) 12); injection E as _ E; lia. }
  split; [exact Hgone|]. split; [exact Hnext|].
  assert (Hlookup : hijri_display rt now api_res' kept w' =
                    match fetch_calender_data cit count now w' with
                    | Ret month_data w2 =>
                        match get_hijri_date_from_json rt now month_data with
                        | Ok text => Ret (text, Some text) w2
                        | Raise e => Exc e w2
                        end
                    | Exc e w2 => Exc e w2
                    end).
  { unfold hijri_display, peek_next. monad_simpl. rewrite Hqueue. cbn [first snd].
    destruct (Z.eqb_spec (month now) (month (snd next))); [congruence|].
    assert (E : end_of_month_hijri_lookup rt now w' =
                match fetch_calender_data cit count now w' with
                | Ret month_data w2 =>
                    match get_hijri_date_from_json rt now month_data with
                    | Ok text => Ret text w2
                    | Raise e => Exc e w2
                    end
                | Exc e w2 => Exc e w2
                end).
    { unfold end_of_month_hijri_lookup. monad_simpl. rewrite Hs1. fold cit count.
      destruct (fetch_calender_data cit count now w'); [|reflexivity].
      destruct (get_hijri_date_from_json rt now a); reflexivity. }
    destruct kept as [s|]; [rewrite Hkept|]; rewrite E;
      (destruct (fetch_calender_data cit count now w'); [|reflexivity]);
      destruct (get_hijri_date_from_json rt now a); reflexivity. }
  rewrite Hturn, Hlookup.
  pose proof (fetch_calender_data_miss cit count now w' Hgone) as Hmiss.
  cbv zeta in Hmiss. rewrite Hr1 in Hmiss. fold old in Hmiss. rewrite Hn1 in Hmiss.
  rewrite Hmiss.
  split.
  - intros text ->. cbn [Z.eqb Pos.eqb].
    destruct (json_load text) as [month_data|e];
      [destruct (get_hijri_date_from_json rt now month_data)|];
      cbn [final_world data_dir add_event set_data_dir]; apply lookup_insert_eq.
  - intros [-> | (sc & text & -> & Hsc)].
    + eexists. split; [reflexivity|]. exact Hgone.
    + destruct (Z.eqb_spec sc 200); [contradiction|].
      eexists. split; [reflexivity|]. exact Hgone.
Qed.

Lemma month_end_turn_refetches_witness :
  let clock := at_2024 3 31 20 0 in
  let later := mk_datetime 2024 3 31 20 0 0 1 in
  let w := set_UPCOMING_PRAYERS [("Isha", at_2024 3 31 20 0)] march_cached_world in
  let turn := display_main_window_turn sample_runtime clock later later
                (sample_month 31) None w in
  data_dir (final_world turn) !! "2024-3-Cairo-Egypt.json"
    = Some (Json (sample_month 30)).
Proof.
  cbv zeta.
  destruct (display_main_window_tick (at_2024 3 31 20 0)
              (mk_datetime 2024 3 31 20 0 0 1) (mk_datetime 2024 3 31 20 0 0 1)
              (sample_month 31)
              (set_UPCOMING_PRAYERS [("Isha", at_2024 3 31 20 0)] march_cached_world))
    as [shown w1|e w1] eqn:Htick.
  - destruct (month_end_turn_refetches sample_runtime (at_2024 3 31 20 0)
                (mk_datetime 2024 3 31 20 0 0 1) (mk_datetime 2024 3 31 20 0 0 1)
                (sample_month 31) None
                (set_UPCOMING_PRAYERS [("Isha", at_2024 3 31 20 0)] march_cached_world)
                ("Isha", at_2024 3 31 20 0) (sample_month 31)
                (PDict (sample_items "18:01 (EET)" "20:00 (EET)")) (at_2024 3 31 20 0)
                shown w1 eq_refl eq_refl eq_refl eq_refl eq_refl eq_refl
                ltac:(cbn; lia) eq_refl eq_refl Htick eq_refl)
      as (_ & _ & Hback & _).
    exact (Hback (Json (sample_month 30)) eq_refl).
  - vm_compute in Htick. discriminate.
Defined.

(** ** The download of the next twelve months *)

Lemma py_datetime_first y m :
  1 <= y <= 9999 -> 1 <= m <= 12 ->
  py_datetime y m 1 = Ok (mk_datetime y m 1 0 0 0 0).
Proof.
  intros Hy Hm. unfold py_datetime. cbv zeta.
  assert (H : valid_datetime (mk_datetime y m 1 0 0 0 0) = true); [|now rewrite H].
  unfold valid_datetime. cbn [year month day hour minute second microsecond].
  assert (1 <= days_in_month y m).
  { unfold days_in_month.
    destruct (m =? 2); [destruct (is_leap y); lia|].
    destruct ((m =? 4) || (m =? 6) || (m =? 9) || (m =? 11)); lia. }
  repeat (apply andb_true_intro; split); apply Z.leb_le; lia.
Qed.

Lemma download_step_bounds now download_year mon_d :
  let step := download_step now download_year mon_d in
  1 <= fst step <= 12 /\ (snd step = download_year \/ snd step = year now + 1).
Proof.
  cbv zeta. unfold download_step. cbv zeta.
  pose proof (Z.mod_pos_bound (mon_d + month now) 12 ltac:(lia)).
  destruct (Z.eqb_spec ((mon_d + month now) mod 12) 0); cbn [fst snd]; [lia|].
  destruct ((mon_d + month now) mod 12 <=? month now); cbn [fst snd]; lia.
Qed.

Lemma download_step_month_after now download_year k :
  1 <= month now <= 12 -> 1 <= k <= 12 ->
  download_year = year now + (month now + k - 2) / 12 ->
  download_step now download_year k =
    (snd (month_after now k), fst (month_after now k)).
Proof.
  intros Hm Hk ->. unfold download_step, month_after. cbv zeta. cbn [fst snd].
  destruct (Z.eqb_spec ((k + month now) mod 12) 0) as [E|E].
  - f_equal; Z.div_mod_to_equations; lia.
  - destruct (Z.leb_spec ((k + month now) mod 12) (month now)) as [L|L];
      f_equal; Z.div_mod_to_equations; lia.
Qed.

(** The loop over consecutive values of [mon_d], from [k0] on, visits
    consecutive calendar months. *)
Lemma download_plan_consecutive now n :
  1 <= month now <= 12 ->
  forall k0, 1 <= k0 -> k0 + Z.of_nat n <= 13 ->
    download_plan now (year now + (month now + k0 - 2) / 12)
      (map (fun i => k0 + Z.of_nat i) (seq 0 n))
    = map (month_after now) (map (fun i => k0 + Z.of_nat i) (seq 0 n)).
Proof.
  intros Hm. induction n as [|n IH]; intros k0 Hk0 Hn; [reflexivity|].
  assert (Hl : map (fun i => k0 + Z.of_nat i) (seq 0 (S n))
               = k0 :: map (fun i => (k0 + 1) + Z.of_nat i) (seq 0 n)).
  { rewrite <- cons_seq, <- fmap_S_seq. cbn [map]. rewrite Z.add_0_r. f_equal.
    change (S <$> seq 0 n) with (map S (seq 0 n)). rewrite map_map.
    apply map_ext. intros; lia. }
  rewrite Hl. cbn [map download_plan]. cbv zeta.
  rewrite (download_step_month_after now _ k0 Hm ltac:(lia) eq_refl). cbn [fst snd].
  destruct (month_after now k0) as [y m] eqn:E. cbn [fst snd]. f_equal.
  assert (Hy : y = year now + (month now + (k0 + 1) - 2) / 12).
  { unfold month_after in E. injection E as <- _. f_equal. f_equal. lia. }
  rewrite Hy. apply IH; lia.
Qed.

(** X13: the twelve months of the download are the twelve calendar months that
    follow the month of [now], in order: the month of [now] is not among
    them, and the same month of the next year is the last. *)
Theorem download_plan_next_twelve now :
  1 <= month now <= 12 ->
  download_plan now (year now) [1; 2; 3; 4; 5; 6; 7; 8; 9; 10; 11; 12]
    = map (month_after now) [1; 2; 3; 4; 5; 6; 7; 8; 9; 10; 11; 12] /\
  month_after now 12 = (year now + 1, month now) /\
  ~ In (year now, month now) (map (month_after now) [1; 2; 3; 4; 5; 6; 7; 8; 9; 10; 11; 12]).
Proof.
  intros Hm. split; [|split].
  - pose proof (download_plan_consecutive now 12 Hm 1 ltac:(lia) ltac:(lia)) as H.
    replace (year now + (month now + 1 - 2) / 12) with (year now) in H
      by (Z.div_mod_to_equations; lia).
    exact H.
  - unfold month_after. f_equal; Z.div_mod_to_equations; lia.
  - rewrite in_map_iff. unfold month_after. intros (k & [= Ey Em] & Hin).
    assert (Hk : 1 <= k <= 12) by (cbn in Hin; lia).
    Z.div_mod_to_equations. lia.
Qed.

Lemma download_plan_next_twelve_witness :
  download_plan (at_2024 11 15 9 0) 2024 [1; 2; 3; 4; 5; 6; 7; 8; 9; 10; 11; 12]
    = [(2024, 12); (2025, 1); (2025, 2); (2025, 3); (2025, 4); (2025, 5); (2025, 6);
       (2025, 7); (2025, 8); (2025, 9); (2025, 10); (2025, 11)].
Proof.
  exact (proj1 (download_plan_next_twelve (at_2024 11 15 9 0) ltac:(cbn; lia))).
Defined.

(** A look-up in a cache that decodes, from a service whose answers decode,
    under a name the file system takes, returns: its file is there
    afterwards when it was there before or the service answers 200, and the
    cache still decodes. *)
Lemma fetch_calender_data_decodes cit count date w :
  cache_decodes w -> answers_decode w ->
  invalid_name w (json_month_file cit count date) = None ->
  exists v w1,
    fetch_calender_data cit count date w = Ret v w1 /\
    UPCOMING_PRAYERS w1 = UPCOMING_PRAYERS w /\
    user_settings w1 = user_settings w /\
    remote w1 = remote w /\
    invalid_name w1 = invalid_name w /\
    cache_decodes w1 /\
    (forall f d, data_dir w !! f = Some d -> data_dir w1 !! f = Some d) /\
    ((is_Some (data_dir w !! json_month_file cit count date) \/
      exists text, remote w (calendar_url cit count date) = Response 200 text) ->
     is_Some (data_dir w1 !! json_month_file cit count date)).
Proof.
  intros Hc Ha Hname. unfold cache_decodes, answers_decode in *.
  destruct (data_dir w !! json_month_file cit count date) as [d|] eqn:Hf.
  - rewrite (fetch_calender_data_hit _ _ _ _ _ Hf).
    destruct (Hc _ _ Hf) as [v ->]. cbn [json_load]. exists v. eexists.
    split; [reflexivity|].
    cbn [UPCOMING_PRAYERS user_settings remote invalid_name data_dir add_event].
    repeat split; try assumption; eauto.
  - rewrite (fetch_calender_data_miss _ _ _ _ Hf). cbv zeta.
    destruct (remote w (calendar_url cit count date)) as [|sc text] eqn:Hr.
    + eexists. eexists. split; [reflexivity|].
      cbn [UPCOMING_PRAYERS user_settings remote invalid_name data_dir add_event].
      repeat split; try assumption; try (intros f d Hd; exact Hd).
      intros [[? ?]|[? ?]]; discriminate.
    + destruct (Z.eqb_spec sc 200) as [->|Hsc].
      * rewrite Hname. destruct (Ha _ _ Hr) as [v ->]. cbn [json_load]. exists v.
        eexists. split; [reflexivity|].
        cbn [UPCOMING_PRAYERS user_settings remote invalid_name data_dir add_event
               set_data_dir].
        repeat split.
        -- intros f d Hd.
           destruct (decide (json_month_file cit count date = f)) as [<-|Hne].
           ++ rewrite lookup_insert_eq in Hd. injection Hd as <-. eauto.
           ++ rewrite lookup_insert_ne in Hd by assumption. eauto.
        -- intros f d Hd.
           destruct (decide (json_month_file cit count date = f)) as [<-|Hne];
             [congruence|]. now rewrite lookup_insert_ne by assumption.
        -- intros _. rewrite lookup_insert_eq. eauto.
      * eexists. eexists. split; [reflexivity|].
        cbn [UPCOMING_PRAYERS user_settings remote invalid_name data_dir add_event].
        repeat split; try assumption; try (intros f d Hd; exact Hd).
        intros [[? ?]|[text' [= -> _]]]; [discriminate|contradiction].
Qed.

Lemma download_months_run now download_year mon_ds w :
  let cit := py_format (user_settings w !! "-city-") in
  let count := py_format (user_settings w !! "-country-") in
  1 <= download_year <= 9999 -> 1 <= year now + 1 <= 9999 ->
  cache_decodes w -> answers_decode w ->
  (forall y m, In (y, m) (download_plan now download_year mon_ds) ->
     invalid_name w (json_month_file cit count (mk_datetime y m 1 0 0 0 0)) = None) ->
  exists w',
    download_months now download_year mon_ds w = Ret tt w' /\
    UPCOMING_PRAYERS w' = UPCOMING_PRAYERS w /\
    user_settings w' = user_settings w /\
    (forall f d, data_dir w !! f = Some d -> data_dir w' !! f = Some d) /\
    forall y m, In (y, m) (download_plan now download_year mon_ds) ->
      let date := mk_datetime y m 1 0 0 0 0 in
      (is_Some (data_dir w !! json_month_file cit count date) \/
       exists text, remote w (calendar_url cit count date) = Response 200 text) ->
      is_Some (data_dir w' !! json_month_file cit count date).
Proof.
  cbv zeta. revert download_year w.
  induction mon_ds as [|mon_d rest IH]; intros download_year w Hdy Hny Hc Ha Hnames.
  - exists w. repeat split; try assumption; eauto. intros y m [].
  - cbn [download_months download_plan] in *. cbv zeta in *.
    destruct (download_step_bounds now download_year mon_d) as [Hmon Hyear].
    destruct (download_step now download_year mon_d) as [mon yr]. cbn [fst snd] in *.
    assert (Hyr : 1 <= yr <= 9999) by (destruct Hyear; lia).
    unfold user_settings_get_entry. monad_simpl.
    rewrite (py_datetime_first yr mon Hyr Hmon). cbn [lift].
    destruct (fetch_calender_data_decodes
                (py_format (user_settings w !! "-city-"))
                (py_format (user_settings w !! "-country-"))
                (mk_datetime yr mon 1 0 0 0 0) w Hc Ha (Hnames yr mon (or_introl eq_refl)))
      as (v & w1 & -> & Hq1 & Hs1 & Hr1 & Hn1 & Hc1 & Hkeep1 & Hfile1).
    assert (Ha1 : answers_decode w1) by (unfold answers_decode; now rewrite Hr1).
    assert (Hnames1 : forall y m, In (y, m) (download_plan now yr rest) ->
              invalid_name w1
                (json_month_file (py_format (user_settings w1 !! "-city-"))
                   (py_format (user_settings w1 !! "-country-"))
                   (mk_datetime y m 1 0 0 0 0)) = None).
    { intros y m Hin. rewrite Hn1, Hs1. apply Hnames. now right. }
    destruct (IH yr w1 Hyr Hny Hc1 Ha1 Hnames1) as (w' & -> & Hq & Hs & Hkeep & Hplan).
    exists w'. split; [reflexivity|]. split; [congruence|]. split; [congruence|].
    split; [eauto|].
    intros y m [[= <- <-]|Hin] Hsrc.
    + destruct (Hfile1 Hsrc) as [d Hd]. exists d. now apply Hkeep.
    + specialize (Hplan y m Hin). cbv zeta in Hplan. rewrite Hs1, Hr1 in Hplan.
      apply Hplan.
      destruct Hsrc as [[d Hd]|Hweb]; [left; exists d; now apply Hkeep1|now right].
Qed.

(** X14: with a cache and a service whose texts decode, and a city and a
    country under which the file system takes the names of the twelve files,
    the download of the next twelve months returns; it leaves the queue, the
    settings and the files that exist as they are, and afterwards every one
    of the twelve months after the month of [now] has its file, when it had
    one before or the service answers 200 for it. *)
Theorem download_next_12_months_caches now w :
  let cit := py_format (user_settings w !! "-city-") in
  let count := py_format (user_settings w !! "-country-") in
  let first_day k :=
    mk_datetime (fst (month_after now k)) (snd (month_after now k)) 1 0 0 0 0 in
  let file k := json_month_file cit count (first_day k) in
  let url k := calendar_url cit count (first_day k) in
  1 <= year now < 9999 -> 1 <= month now <= 12 ->
  cache_decodes w -> answers_decode w ->
  (forall k, 1 <= k <= 12 -> invalid_name w (file k) = None) ->
  exists w',
    download_next_12_months now w = Ret tt w' /\
    UPCOMING_PRAYERS w' = UPCOMING_PRAYERS w /\
    user_settings w' = user_settings w /\
    (forall f d, data_dir w !! f = Some d -> data_dir w' !! f = Some d) /\
    (forall k, 1 <= k <= 12 ->
       is_Some (data_dir w !! file k) \/
       (exists text, remote w (url k) = Response 200 text) ->
       is_Some (data_dir w' !! file k)).
Proof.
  cbv beta zeta. intros Hy Hm Hc Ha Hnames.
  pose proof (download_plan_consecutive now 12 Hm 1 ltac:(lia) ltac:(lia)) as Hp.
  replace (year now + (month now + 1 - 2) / 12) with (year now) in Hp
    by (Z.div_mod_to_equations; lia).
  change (map (fun i => 1 + Z.of_nat i) (seq 0 12))
    with [1; 2; 3; 4; 5; 6; 7; 8; 9; 10; 11; 12] in Hp.
  assert (Hin : forall k, 1 <= k <= 12 ->
            In (month_after now k)
               (download_plan now (year now) [1; 2; 3; 4; 5; 6; 7; 8; 9; 10; 11; 12])).
  { intros k Hk. rewrite Hp. apply in_map. cbn. lia. }
  assert (Hplan_names : forall y m,
            In (y, m) (download_plan now (year now) [1; 2; 3; 4; 5; 6; 7; 8; 9; 10; 11; 12]) ->
            invalid_name w
              (json_month_file (py_format (user_settings w !! "-city-"))
                 (py_format (user_settings w !! "-country-"))
                 (mk_datetime y m 1 0 0 0 0)) = None).
  { intros y m H. rewrite Hp in H. apply in_map_iff in H as (k & E & Hk).
    specialize (Hnames k ltac:(cbn in Hk; lia)). cbv beta in Hnames.
    now rewrite E in Hnames. }
  destruct (download_months_run now (year now) [1; 2; 3; 4; 5; 6; 7; 8; 9; 10; 11; 12] w
              ltac:(lia) ltac:(lia) Hc Ha Hplan_names)
    as (w' & Hrun & Hq & Hs & Hkeep & Hplan).
  exists w'. split; [exact Hrun|]. split; [exact Hq|]. split; [exact Hs|].
  split; [exact Hkeep|]. intros k Hk. apply Hplan.
  specialize (Hin k Hk). now destruct (month_after now k).
Qed.

(** From 15 November 2024 with nothing cached: January 2025, the second of
    the twelve months, has its file afterwards. *)
Lemma download_next_12_months_caches_witness :
  exists w',
    download_next_12_months (at_2024 11 15 9 0) fresh_world = Ret tt w' /\
    UPCOMING_PRAYERS w' = [] /\
    is_Some (data_dir w' !! "2025-1-Cairo-Egypt.json").
Proof.
  assert (Hcache : cache_decodes fresh_world).
  { intros f d H. cbn in H. rewrite lookup_empty in H. discriminate. }
  assert (Hweb : answers_decode fresh_world).
  { intros url text H. injection H as <-. now exists (sample_month 30). }
  assert (Hnames : forall k, 1 <= k <= 12 ->
            invalid_name fresh_world
              (json_month_file "Cairo" "Egypt"
                 (mk_datetime (fst (month_after (at_2024 11 15 9 0) k))
                    (snd (month_after (at_2024 11 15 9 0) k)) 1 0 0 0 0)) = None).
  { intros k Hk.
    assert (H : k = 1 \/ k = 2 \/ k = 3 \/ k = 4 \/ k = 5 \/ k = 6 \/ k = 7 \/
                k = 8 \/ k = 9 \/ k = 10 \/ k = 11 \/ k = 12) by lia.
    repeat destruct H as [H|H]; subst k; vm_compute; reflexivity. }
  destruct (download_next_12_months_caches (at_2024 11 15 9 0) fresh_world
              ltac:(cbn; lia) ltac:(cbn; lia) Hcache Hweb Hnames)
    as (w' & Hrun & Hq & _ & _ & Hfile).
  exists w'. split; [exact Hrun|]. split; [exact Hq|].
  apply (Hfile 2); [lia|]. right. now exists (Json (sample_month 30)).
Defined.

(** ** [download_athan] *)

Lemma write_chunks_other file body cancels dir other :
  other <> file ->
  snd (write_chunks file body cancels dir) !! other = dir !! other.
Proof.
  intros Hne. revert cancels dir.
  induction body as [|[data|] body IH]; intros cancels dir; [reflexivity| |reflexivity].
  cbn [write_chunks]. cbv zeta.
  destruct cancels as [|[|] later]; cbn [snd]; rewrite ?IH;
    now rewrite lookup_insert_ne by congruence.
Qed.

Lemma write_chunks_file file body cancels dir old :
  dir !! file = Some old ->
  exists new, snd (write_chunks file body cancels dir) !! file = Some new.
Proof.
  revert cancels dir old.
  induction body as [|[data|] body IH]; intros cancels dir old Hold; cbn [write_chunks];
    [eauto| |eauto].
  cbv zeta. rewrite Hold. cbn [default from_option]. unfold id.
  destruct cancels as [|[|] later]; cbn [snd].
  - eapply IH. apply lookup_insert_eq.
  - eexists. apply lookup_insert_eq.
  - eapply IH. apply lookup_insert_eq.
Qed.

Lemma write_chunks_done file body cancels dir old :
  dir !! file = Some old ->
  fst (write_chunks file body cancels dir) = true ->
  unbroken body = true /\ no_cancel (List.length body) cancels = true /\
  snd (write_chunks file body cancels dir) !! file = Some (old +:+ received body).
Proof.
  revert cancels dir old.
  induction body as [|[data|] body IH]; intros cancels dir old Hold Hdone.
  - cbn. split; [reflexivity|]. split; [reflexivity|].
    rewrite Hold. f_equal. clear. induction old as [|c old IH]; [reflexivity|].
    change (String c old = String c (old +:+ "")). now f_equal.
  - cbn [write_chunks] in *. cbv zeta in *. rewrite Hold in *. cbn [default from_option] in *. unfold id in *.
    assert (Happ : forall rest, (old +:+ data) +:+ rest = old +:+ (data +:+ rest)).
    { intros rest. clear. induction old as [|c old IH]; [reflexivity|].
      change (String c ((old +:+ data) +:+ rest) = String c (old +:+ (data +:+ rest))).
      now f_equal. }
    destruct cancels as [|[|] later]; cbn [fst snd] in *; [|discriminate|].
    + destruct (IH [] _ (old +:+ data) (lookup_insert_eq _ _ _) Hdone) as (Hu & _ & Hf).
      cbn [unbroken received]. split; [assumption|]. split; [reflexivity|].
      now rewrite Hf, Happ.
    + destruct (IH later _ (old +:+ data) (lookup_insert_eq _ _ _) Hdone) as (Hu & Hc & Hf).
      cbn [unbroken received List.length]. split; [assumption|]. split; [exact Hc|].
      now rewrite Hf, Happ.
  - discriminate.
Qed.

Lemma write_chunks_through file body cancels dir :
  unbroken body = true -> no_cancel (List.length body) cancels = true ->
  fst (write_chunks file body cancels dir) = true.
Proof.
  revert cancels dir.
  induction body as [|[data|] body IH]; intros cancels dir Hu Hc; [reflexivity| |discriminate].
  cbn [write_chunks]. cbv zeta. cbn [unbroken List.length] in *.
  destruct cancels as [|[|] later].
  - apply IH; [assumption|]. unfold no_cancel. now rewrite take_nil.
  - discriminate.
  - apply IH; [assumption|]. exact Hc.
Qed.

(** X15: a download that does not return [True] leaves no file of that name,
    whether it was cut short or never started, and whether a file of that
    name was there before; no download touches a file of another name. *)
Theorem download_athan_no_partial_file athan_filename req cancels dir :
  let r := download_athan athan_filename req cancels dir in
  (fst r <> Ok true -> snd r !! athan_filename = None) /\
  (forall other, other <> athan_filename -> snd r !! other = dir !! other).
Proof.
  cbv zeta. unfold download_athan.
  assert (Hother : forall other, other <> athan_filename ->
            snd (download_attempt athan_filename req cancels dir) !! other = dir !! other).
  { intros other Hne. unfold download_attempt.
    destruct req as [|[| |n] body]; try reflexivity.
    rewrite write_chunks_other by assumption. now rewrite lookup_insert_ne by congruence. }
  destruct (download_attempt athan_filename req cancels dir) as [[|] dir'] eqn:E;
    cbn [fst snd] in *.
  - split; [congruence|exact Hother].
  - destruct (dir' !! athan_filename) eqn:Hf; cbn [fst snd].
    + split; [intros _; apply lookup_delete_eq|].
      intros other Hne. rewrite lookup_delete_ne by congruence. now apply Hother.
    + split; [intros _; exact Hf|exact Hother].
Qed.

(** X16: [download_athan] returns [True] exactly when the answer carries a length,
    no chunk fails and no reading of the progress window is a cancel; the
    file then holds the chunks in order, and nothing of a file that was there
    before. *)
Theorem download_athan_success athan_filename req cancels dir :
  let r := download_athan athan_filename req cancels dir in
  (fst r = Ok true <->
   exists n body, req = Streaming (ContentLength n) body /\ unbroken body = true /\
                  no_cancel (List.length body) cancels = true) /\
  (forall n body, req = Streaming (ContentLength n) body -> fst r = Ok true ->
     snd r !! athan_filename = Some (received body)).
Proof.
  cbv zeta.
  assert (Hfst : fst (download_athan athan_filename req cancels dir) = Ok true <->
                 fst (download_attempt athan_filename req cancels dir) = true).
  { unfold download_athan.
    destruct (download_attempt athan_filename req cancels dir) as [[|] dir']; cbn [fst snd].
    - tauto.
    - destruct (dir' !! athan_filename); cbn [fst]; split; discriminate. }
  split; [rewrite Hfst; split|].
  - intros Hdone. destruct req as [|[| |n] body]; try discriminate.
    exists n, body. split; [reflexivity|]. cbn [download_attempt] in Hdone.
    destruct (write_chunks_done athan_filename body cancels _ EmptyString
                (lookup_insert_eq _ _ _) Hdone) as (Hu & Hc & _).
    now split.
  - intros (n & body & -> & Hu & Hc). cbn [download_attempt].
    now apply write_chunks_through.
  - intros n body -> Hr. apply Hfst in Hr. unfold download_athan.
    rewrite Hr. cbn [snd download_attempt] in *.
    destruct (write_chunks_done athan_filename body cancels _ EmptyString
                (lookup_insert_eq _ _ _) Hr) as (_ & _ & Hf).
    exact Hf.
Qed.

(** X17: [download_athan] raises instead of returning [False] exactly when the
    download fails before the file is opened (no connection, or no usable
    length in the answer) and there is no file of that name to remove. *)
Theorem download_athan_raises athan_filename req cancels dir :
  fst (download_athan athan_filename req cancels dir) = Raise FileNotFoundError <->
  dir !! athan_filename = None /\
  (forall n body, req <> Streaming (ContentLength n) body).
Proof.
  unfold download_athan. destruct req as [|[| |n] body]; cbn [download_attempt fst snd].
  - destruct (dir !! athan_filename); cbn [fst]; split;
      [discriminate|intros [? _]; discriminate|intros _; split; [reflexivity|discriminate]|
       reflexivity].
  - destruct (dir !! athan_filename); cbn [fst]; split;
      [discriminate|intros [? _]; discriminate|intros _; split; [reflexivity|discriminate]|
       reflexivity].
  - destruct (dir !! athan_filename); cbn [fst]; split;
      [discriminate|intros [? _]; discriminate|intros _; split; [reflexivity|discriminate]|
       reflexivity].
  - destruct (write_chunks_file athan_filename body cancels
                (<[athan_filename := EmptyString]> dir) EmptyString
                (lookup_insert_eq _ _ _)) as [new Hnew].
    destruct (write_chunks athan_filename body cancels _) as [[|] dir'];
      cbn [fst snd] in *.
    + split; [discriminate|]. intros [_ H]. now destruct (H n body).
    + rewrite Hnew. cbn [fst]. split; [discriminate|].
      intros [_ H]. now destruct (H n body).
Qed.

(** ** What a turn announces *)

(** X18: a turn that pops a prayer that is not the last of the queue notifies it
    unless it is Sunrise, then plays the athan unless the athan is muted, and
    does nothing else: no look-up of the calendar, no request, no change of
    the files or of the settings. *)
Theorem tick_pop_announces clock clock1 clock2 data w front next rest :
  let now := replace_microsecond_0 clock in
  UPCOMING_PRAYERS w = front :: next :: rest ->
  dt_ltb now (snd front) = false ->
  exists w',
    display_main_window_tick clock clock1 clock2 data w = Ret (data, next) w' /\
    data_dir w' = data_dir w /\ user_settings w' = user_settings w /\
    trace w' = trace w ++
      (if String.eqb (fst front) "Sunrise" then []
       else EvNotify (fst front) ::
            (if py_truth (user_settings w !! "-mute-athan-") then []
             else [EvPlayAthan])).
Proof.
  cbv zeta. intros Hq Hdue. unfold display_main_window_tick.
  unfold bind at 1. rewrite (pop_if_elapsed_run _ w front (next :: rest) Hq), Hdue.
  unfold announce. destruct (String.eqb (fst front) "Sunrise"); cbn [negb].
  - monad_simpl. unfold peek_next. monad_simpl. cbn [first List.length Nat.eqb].
    eexists. split; [reflexivity|]. cbn [data_dir user_settings trace set_UPCOMING_PRAYERS].
    now rewrite app_nil_r.
  - monad_simpl. destruct (py_truth (user_settings w !! "-mute-athan-")); cbn [negb];
      unfold peek_next; monad_simpl; cbn [first List.length Nat.eqb];
      (eexists; split; [reflexivity|]);
      cbn [data_dir user_settings trace set_UPCOMING_PRAYERS add_event];
      rewrite <- ?app_assoc; repeat split.
Qed.

Lemma tick_pop_announces_witness :
  let clock := at_2024 3 10 4 41 in
  exists w',
    display_main_window_tick clock clock clock (sample_month 31) two_prayers_world
      = Ret (sample_month 31, ("Dhuhr", at_2024 3 10 12 5)) w' /\
    data_dir w' = data_dir two_prayers_world /\
    user_settings w' = user_settings two_prayers_world /\
    trace w' = [] ++ [EvNotify "Fajr"; EvPlayAthan].
Proof.
  exact (tick_pop_announces (at_2024 3 10 4 41) (at_2024 3 10 4 41) (at_2024 3 10 4 41)
           (sample_month 31) two_prayers_world ("Fajr", at_2024 3 10 4 41)
           ("Dhuhr", at_2024 3 10 12 5) [] eq_refl eq_refl).
Defined.
